(** * Comparative review analytics: sentiment classification, period
      statistics and period comparison

    A shallow embedding of [src/sentiment_analyzer.py],
    [src/data_processor.py], [src/data_analyzer.py] and the comparison
    endpoint of [src/api.py].

    Conventions of the embedding.
    - Python floats are exact rationals ([Q]); the two special values the
      code can produce, [float('inf')] and [nan], are explicit
      constructors of [pyfloat].  A missing cell (NaN / None) of a pandas
      column is [None].
    - A [DataFrame] is the list of its rows in positional order, each with
      its index label, plus one presence flag per optional column.
    - Code that mutates the frame it was handed returns the caller's
      frame after the call next to its result.
    - An exception is a [Raise] outcome. *)

From Stdlib Require Import ZArith QArith Qround Qabs Lqa Lia List String Ascii Bool Permutation.
From stdpp Require Import gmap strings list.

Local Open Scope Z_scope.
Local Open Scope string_scope.
Local Open Scope list_scope.

(* ================================================================== *)
(** * Python values *)
(* ================================================================== *)

(** A Python [float]: a finite number, [float('inf')] or [nan]. *)
Inductive pyfloat : Type :=
| Fin (q : Q)
| PInf
| NaN.

(** The values a caller can hand to [analyze_text]. *)
Inductive pyvalue : Type :=
| PyNone
| PyStr (s : string)
| PyInt (z : Z)
| PyFloat (x : pyfloat)
| PyBool (b : bool).

(** Exceptions that the modelled code can raise. *)
Inductive exn : Type :=
| KeyError
| ValueError
| AttributeError
| Exception.

Inductive Outcome (A : Type) : Type :=
| Ok (a : A)
| Raise (e : exn).
Arguments Ok {A} a.
Arguments Raise {A} e.

(** Sequencing: the first exception ends the computation. *)
#[global] Instance Outcome_bind : MBind Outcome :=
  fun A B k m =>
    match m with
    | Ok a => k a
    | Raise e => Raise e
    end.

(** ** Float comparisons: every comparison with [nan] is false. *)

Definition Qltb (a b : Q) : bool := negb (Qle_bool b a).

Definition fgt (x : pyfloat) (c : Q) : bool :=
  match x with
  | Fin q => Qltb c q
  | PInf => true
  | NaN => false
  end.

Definition flt (x : pyfloat) (c : Q) : bool :=
  match x with
  | Fin q => Qltb q c
  | PInf => false
  | NaN => false
  end.

Definition fge (x : pyfloat) (c : Q) : bool :=
  match x with
  | Fin q => Qle_bool c q
  | PInf => true
  | NaN => false
  end.

Definition fle (x : pyfloat) (c : Q) : bool :=
  match x with
  | Fin q => Qle_bool q c
  | PInf => false
  | NaN => false
  end.

(** [a - b]; [inf - inf] is [nan]. *)
Definition fsub (a b : pyfloat) : pyfloat :=
  match a, b with
  | Fin x, Fin y => Fin (x - y)
  | NaN, _ | _, NaN => NaN
  | PInf, Fin _ => PInf
  | PInf, PInf => NaN
  | Fin _, PInf => NaN (* -inf never reaches a comparison in the code *)
  end.

(** [x * c] for a positive constant [c]. *)
Definition fscale (x : pyfloat) (c : Q) : pyfloat :=
  match x with
  | Fin q => Fin (q * c)
  | PInf => PInf
  | NaN => NaN
  end.

(** ** [round(x, ndigits)]: round half to even on the decimal scale,
    applied to the exact value. *)

Definition round_half_even (x : Q) : Z :=
  let f := Qfloor x in
  let r := (x - inject_Z f)%Q in
  match Qcompare r (1 # 2) with
  | Lt => f
  | Gt => f + 1
  | Eq => if Z.even f then f else f + 1
  end.

Definition pow10 (n : nat) : Q := inject_Z (10 ^ Z.of_nat n).

Definition round_q (x : Q) (ndigits : nat) : Q :=
  (inject_Z (round_half_even (x * pow10 ndigits)) / pow10 ndigits)%Q.

Definition py_round (x : pyfloat) (ndigits : nat) : pyfloat :=
  match x with
  | Fin q => Fin (round_q q ndigits)
  | PInf => PInf
  | NaN => NaN
  end.

(** ** Strings *)

Definition lower_ascii (c : ascii) : ascii :=
  let n := nat_of_ascii c in
  if (65 <=? n)%nat && (n <=? 90)%nat then ascii_of_nat (n + 32) else c.

(** [s.lower()] *)
Fixpoint lower (s : string) : string :=
  match s with
  | EmptyString => EmptyString
  | String c s' => String (lower_ascii c) (lower s')
  end.

(** [c.isspace()] on the ASCII range: tab, LF, VT, FF, CR, FS, GS, RS, US
    and space. *)
Definition isspace (c : ascii) : bool :=
  let n := nat_of_ascii c in
  ((9 <=? n)%nat && (n <=? 13)%nat) || ((28 <=? n)%nat && (n <=? 32)%nat).

Fixpoint lstrip (s : string) : string :=
  match s with
  | EmptyString => EmptyString
  | String c s' => if isspace c then lstrip s' else s
  end.

Definition rev_string (s : string) : string :=
  string_of_list_ascii (List.rev (list_ascii_of_string s)).

(** [s.strip()] *)
Definition strip (s : string) : string :=
  rev_string (lstrip (rev_string (lstrip s))).

(** [s.split()]: maximal runs of non-whitespace characters. [cur] is the
    token being read, reversed. *)
Fixpoint split_ws (cur : list ascii) (s : string) : list string :=
  let flush :=
    match cur with
    | [] => []
    | _ => [string_of_list_ascii (List.rev cur)]
    end in
  match s with
  | EmptyString => flush
  | String c s' =>
      if isspace c then flush ++ split_ws [] s'
      else split_ws (c :: cur) s'
  end.

Definition split (s : string) : list string := split_ws [] s.

(* ================================================================== *)
(** * Records and frames *)
(* ================================================================== *)

(** Nanoseconds in a day; a [Timestamp] counts nanoseconds since the
    epoch, as [datetime64[ns]] does. *)
Definition NS_PER_DAY : Z := 86400 * 1000000000.

(** One cell of the [Date] column: a raw value that was not parsed yet,
    a timestamp, or [NaT]. *)
Inductive DateCell : Type :=
| DateStr (s : string)
| Timestamp (ns : Z)
| NaT.

Record Row : Type := mkRow {
  Country : option string;
  Rating : option Q;
  Date : DateCell;
  Version : option string;
  Title : option string;
  Content : option string;
  sentiment_label : option string;
  sentiment_score : option Q
}.

(** [c in df.columns] for the optional columns; [Date] is always there.
    The cells of a column that is not there are [None]. *)
Record Columns : Type := mkColumns {
  has_Country : bool;
  has_Rating : bool;
  has_Version : bool;
  has_Title : bool;
  has_Content : bool;
  has_sentiment_label : bool;
  has_sentiment_score : bool
}.

Record DataFrame : Type := mkFrame {
  columns : Columns;
  rows : list (Z * Row)
}.

(** [df.empty] *)
Definition empty (df : DataFrame) : bool :=
  match rows df with [] => true | _ => false end.

(** [len(df)] *)
Definition len (df : DataFrame) : nat := length (rows df).

(** [df.index] *)
Definition index (df : DataFrame) : list Z := map fst (rows df).

Definition with_rows (df : DataFrame) (rs : list (Z * Row)) : DataFrame :=
  {| columns := columns df; rows := rs |}.

Definition set_Date (d : DateCell) (r : Row) : Row :=
  {| Country := Country r; Rating := Rating r; Date := d;
     Version := Version r; Title := Title r; Content := Content r;
     sentiment_label := sentiment_label r;
     sentiment_score := sentiment_score r |}.

(** [pd.api.types.is_datetime64_dtype(df['Date'])]: the column holds
    timestamps and [NaT] only. *)
Definition is_datetime_cell (d : DateCell) : bool :=
  match d with DateStr _ => false | _ => true end.

Definition is_datetime64_dtype (df : DataFrame) : bool :=
  forallb (fun ir => is_datetime_cell (Date (snd ir))) (rows df).

Definition notna_date (d : DateCell) : bool :=
  match d with Timestamp _ => true | _ => false end.

(* ================================================================== *)
(** * [SentimentAnalyzer] (src/sentiment_analyzer.py) *)
(* ================================================================== *)

Record SentimentResult : Type := mkResult {
  label : string;
  score : Q
}.

(** The external scorer stored in [self.analyzer], chosen once by
    [use_transformers] in [__init__].  Either may raise ([None]).
    - [VADER f]: [f text] is [polarity_scores(text)['compound']];
    - [Transformers f]: [f text] is the label and score of
      [pipeline("sentiment-analysis")(text)[0]]. *)
Inductive Analyzer : Type :=
| VADER (polarity_scores : string -> option Q)
| Transformers (pipeline : string -> option (string * Q)).

Record SentimentAnalyzer : Type := mkAnalyzer {
  analyzer : Analyzer;
  neutral_threshold : Q
}.

Definition use_transformers (self : SentimentAnalyzer) : bool :=
  match analyzer self with
  | Transformers _ => true
  | VADER _ => false
  end.

(** [{"label": "neutral", "score": 0.5}] *)
Definition neutral_sentinel : SentimentResult :=
  {| label := "neutral"; score := 1 # 2 |}.

Definition analyze_text (self : SentimentAnalyzer) (text : pyvalue)
  : SentimentResult :=
  match text with
  | PyStr s =>
      if String.eqb s EmptyString then neutral_sentinel
      else
        match analyzer self with
        | Transformers pipeline =>
            match pipeline (substring 0 512 s) with
            | Some (l, sc) => {| label := lower l; score := sc |}
            | None => neutral_sentinel
            end
        | VADER polarity_scores =>
            match polarity_scores s with
            | Some compound =>
                {| label :=
                     if Qle_bool (neutral_threshold self) compound
                     then "positive"
                     else if Qle_bool compound (- neutral_threshold self)
                          then "negative"
                          else "neutral";
                   score := compound |}
            | None => neutral_sentinel
            end
        end
  | _ => neutral_sentinel
  end.

(** [c in row and pd.notna(row[c])]: the column is there and the cell is
    not missing. *)
Definition cell (present : bool) (c : option string) : option string :=
  if present then c else None.

(** The closure [analyze_row] of [analyze_dataframe], with the default
    column names [Title] and [Content]: first the text it builds, then
    the call. *)
Definition combined_text (cols : Columns) (row : Row) : string :=
  let t := match cell (has_Title cols) (Title row) with
           | Some title => (title ++ ". ")%string
           | None => EmptyString
           end in
  match cell (has_Content cols) (Content row) with
  | Some content => (t ++ content)%string
  | None => t
  end.

Definition analyze_row (self : SentimentAnalyzer) (cols : Columns) (row : Row)
  : Outcome SentimentResult :=
  let text := combined_text cols row in
  if String.eqb (strip text) EmptyString then Ok neutral_sentinel
  else Ok (analyze_text self (PyStr text)).

(** The two sentiment cells of a row, written. *)
Definition set_sentiment (r : SentimentResult) (row : Row) : Row :=
  {| Country := Country row; Rating := Rating row; Date := Date row;
     Version := Version row; Title := Title row; Content := Content row;
     sentiment_label := Some (label r);
     sentiment_score := Some (score r) |}.

(** The two sentiment columns, added. *)
Definition add_sentiment_columns (c : Columns) : Columns :=
  {| has_Country := has_Country c; has_Rating := has_Rating c;
     has_Version := has_Version c; has_Title := has_Title c;
     has_Content := has_Content c;
     has_sentiment_label := true; has_sentiment_score := true |}.

(** [result_df.at[index, 'sentiment_label'] = ...] and the same for the
    score: the two columns exist afterwards, and the row carrying the
    label [index] holds the result.  Were a label carried by several
    rows, pandas would write all of them, and so does [at_set]. *)
Definition at_set (df : DataFrame) (idx : Z) (r : SentimentResult) : DataFrame :=
  {| columns := add_sentiment_columns (columns df);
     rows := map (fun ir : Z * Row =>
                    if Z.eqb (fst ir) idx then (fst ir, set_sentiment r (snd ir))
                    else ir) (rows df) |}.

(** The body of the [with ThreadPoolExecutor] block.  [work] is the
    function submitted once per row; [schedule] lists the positions of
    the submitted futures in the order [as_completed] yields them.  A
    future that raised contributes the sentinel. *)
Definition submit_all (work : Row -> Outcome SentimentResult) (df : DataFrame)
  : list (Z * Outcome SentimentResult) :=
  map (fun ir : Z * Row => (fst ir, work (snd ir))) (rows df).

Definition collect (future : Z * Outcome SentimentResult) : Z * SentimentResult :=
  match snd future with
  | Ok result => (fst future, result)
  | Raise _ => (fst future, neutral_sentinel)
  end.

Definition as_completed {A : Type} (futures : list A) (schedule : list nat) : list A :=
  omap (fun k => futures !! k) schedule.

Definition integrate (result_df : DataFrame) (results : list (Z * SentimentResult))
  : DataFrame :=
  fold_left (fun d ir => at_set d (fst ir) (snd ir)) results result_df.

Definition run_batch (work : Row -> Outcome SentimentResult)
  (schedule : list nat) (df : DataFrame) : DataFrame :=
  if empty df then df
  else
    let futures := submit_all work df in
    let results := map collect (as_completed futures schedule) in
    integrate df results.

Definition analyze_dataframe (self : SentimentAnalyzer) (schedule : list nat)
  (df : DataFrame) : DataFrame :=
  run_batch (analyze_row self (columns df)) schedule df.

(** Every submitted future completes exactly once. *)
Definition complete_schedule (schedule : list nat) (df : DataFrame) : Prop :=
  Permutation schedule (seq 0 (len df)).

(* ================================================================== *)
(** * Column helpers shared by the processor and the analyzer *)
(* ================================================================== *)

(** [sum(l)] and [len(l)] as rationals. *)
Definition Qsum (l : list Q) : Q := fold_right Qplus 0%Q l.

Definition Qlen {A : Type} (l : list A) : Q := inject_Z (Z.of_nat (length l)).

(** [Series.mean()]: missing cells are skipped; the mean of nothing is
    [nan]. *)
Definition mean (cells : list (option Q)) : pyfloat :=
  match omap id cells with
  | [] => NaN
  | xs => Fin (Qsum xs / Qlen xs)
  end.

(** The least and the greatest element of [x :: l]. *)
Definition min_list (x : Z) (l : list Z) : Z := fold_left Z.min l x.

Definition max_list (x : Z) (l : list Z) : Z := fold_left Z.max l x.

(** The timestamps of the [Date] column, [NaT] and raw cells skipped. *)
Definition timestamps (df : DataFrame) : list Z :=
  omap (fun ir : Z * Row =>
          match Date (snd ir) with Timestamp t => Some t | _ => None end)
       (rows df).

(** The calendar day of a timestamp, counted from the epoch. *)
Definition day_of (t : Z) : Z := t / NS_PER_DAY.

Definition row_day (r : Row) : option Z :=
  match Date r with Timestamp t => Some (day_of t) | _ => None end.

(** The bins of [groupby(pd.Grouper(key='Date', freq='D'))]: every
    calendar day from the first to the last observed one, days without a
    record included; rows whose date is [NaT] belong to no bin.  Only the
    default frequency ['D'] is modelled. *)
Definition day_bins (df : DataFrame) : list Z :=
  match map day_of (timestamps df) with
  | [] => []
  | d :: ds =>
      let lo := min_list d ds in
      let hi := max_list d ds in
      map (fun k => lo + Z.of_nat k) (seq 0 (Z.to_nat (hi - lo + 1)))
  end.

(** The records of one bin. *)
Definition rows_of_day (df : DataFrame) (d : Z) : list Row :=
  List.filter (fun r => bool_decide (row_day r = Some d)) (map snd (rows df)).

(** Count one more [k]; a new value goes to the end. *)
Fixpoint bump {K : Type} (eqb : K -> K -> bool) (k : K) (d : list (K * nat))
  : list (K * nat) :=
  match d with
  | [] => [(k, 1%nat)]
  | (k', n) :: d' =>
      if eqb k k' then (k', S n) :: d' else (k', n) :: bump eqb k d'
  end.

(** Insert into a list sorted by descending count, behind the entries of
    the same count. *)
Fixpoint insert_desc {K : Type} (kv : K * nat) (d : list (K * nat))
  : list (K * nat) :=
  match d with
  | [] => [kv]
  | kv' :: d' =>
      if (snd kv' <? snd kv)%nat then kv :: d
      else kv' :: insert_desc kv d'
  end.

(** The stable sort by descending count. *)
Definition sort_desc {K : Type} (d : list (K * nat)) : list (K * nat) :=
  fold_left (fun acc kv => insert_desc kv acc) d [].

(** The distinct values with their counts, in order of first
    appearance. *)
Definition tally {K : Type} (eqb : K -> K -> bool) (values : list K)
  : list (K * nat) :=
  fold_left (fun d k => bump eqb k d) values [].

(** [Series.value_counts().to_dict()]: the distinct values with their
    counts, most frequent first, equal counts in order of first
    appearance; missing cells are not counted. *)
Definition value_counts {K : Type} (eqb : K -> K -> bool) (cells : list (option K))
  : list (K * nat) :=
  sort_desc (tally eqb (omap id cells)).

(** [d.get(k, 0)] *)
Fixpoint dict_get (k : string) (d : list (string * nat)) : nat :=
  match d with
  | [] => 0%nat
  | (k', n) :: d' => if String.eqb k k' then n else dict_get k d'
  end.

(** [max(d.items(), key=lambda x: x[1])[0] if d else None]: the first
    item whose count is maximal. *)
Fixpoint first_max (best : string * nat) (d : list (string * nat)) : string * nat :=
  match d with
  | [] => best
  | kv :: d' => first_max (if (snd best <? snd kv)%nat then kv else best) d'
  end.

Definition main_version_of (d : list (string * nat)) : option string :=
  match d with
  | [] => None
  | kv :: d' => Some (fst (first_max kv d'))
  end.

Section Analytics.

Set Default Proof Using "Type".

(** ** What pandas and numpy supply
    - [to_datetime s]: the timestamp [pd.to_datetime] reads from a raw
      cell or a request string, [None] when it cannot be parsed;
    - [std xs]: [Series.std()] of the present cells (a square root);
    - [corr ps]: the off-diagonal entry of [DataFrame.corr()] for the two
      columns whose cells are paired in [ps] (Pearson's coefficient,
      [nan] where it is undefined). *)
Variable to_datetime : string -> option Z.
Variable std : list (option Q) -> pyfloat.
Variable corr : list (option Q * option Q) -> pyfloat.

(** [pd.to_datetime(df['Date'], errors='coerce')] on one cell. *)
Definition coerce (d : DateCell) : DateCell :=
  match d with
  | DateStr s =>
      match to_datetime s with
      | Some t => Timestamp t
      | None => NaT
      end
  | _ => d
  end.

(** [df['Date'] = pd.to_datetime(df['Date'], errors='coerce')] *)
Definition coerce_Date (df : DataFrame) : DataFrame :=
  with_rows df (map (fun ir : Z * Row => (fst ir, set_Date (coerce (Date (snd ir))) (snd ir)))
                    (rows df)).

(** [df.dropna(subset=['Date'])]: a new frame. *)
Definition dropna_Date (df : DataFrame) : DataFrame :=
  with_rows df (List.filter (fun ir : Z * Row => notna_date (Date (snd ir))) (rows df)).

(* ================================================================== *)
(** * [DataProcessor] (src/data_processor.py) *)
(* ================================================================== *)

(** [pd.notna] on a cell. *)
Definition is_some {A : Type} (o : option A) : bool :=
  match o with Some _ => true | None => false end.

Definition notna_raw_date (d : DateCell) : bool :=
  match d with NaT => false | _ => true end.

(** [isinstance(x, (int, float)) and 1 <= x <= 5]; a rating cell of the
    model is a number or missing. *)
Definition rating_in_range (r : option Q) : bool :=
  match r with
  | Some x => Qle_bool 1 x && Qle_bool x 5
  | None => false
  end.

(** [reset_index(drop=True)] *)
Definition reset_index (df : DataFrame) : DataFrame :=
  with_rows df (imap (fun k ir => (Z.of_nat k, snd ir)) (rows df)).

(** [_clean_data]: the rows with a country, a rating between 1 and 5, a
    date that parses and a content, relabelled from 0; [dropna] raises
    when one of the four columns is missing. *)
Definition _clean_data (df : DataFrame) : Outcome DataFrame :=
  if negb (has_Country (columns df) && has_Rating (columns df)
           && has_Content (columns df))
  then Raise KeyError
  else
    let cleaned_df := df in
    let cleaned_df :=
      with_rows cleaned_df
        (List.filter (fun ir : Z * Row =>
                   is_some (Country (snd ir)) && is_some (Rating (snd ir))
                   && notna_raw_date (Date (snd ir)) && is_some (Content (snd ir)))
                (rows cleaned_df)) in
    let cleaned_df :=
      with_rows cleaned_df
        (List.filter (fun ir : Z * Row => rating_in_range (Rating (snd ir)))
                (rows cleaned_df)) in
    let cleaned_df := coerce_Date cleaned_df in
    let cleaned_df := dropna_Date cleaned_df in
    Ok (reset_index cleaned_df).

(** [(Date >= start_date) & (Date <= end_date)]; a date that is not a
    timestamp satisfies neither comparison. *)
Definition in_range (start_date end_date : Z) (d : DateCell) : bool :=
  match d with
  | Timestamp t => (start_date <=? t)%Z && (t <=? end_date)%Z
  | _ => false
  end.

(** [filter_by_date_range]; [processed_data] is [None] before
    [load_data] was called.  A request date that cannot be parsed makes
    [pd.to_datetime] raise. *)
Definition filter_by_date_range (processed_data : option DataFrame)
  (start_date end_date : string) : Outcome DataFrame :=
  match processed_data with
  | None => Raise ValueError
  | Some data =>
      match to_datetime start_date, to_datetime end_date with
      | Some s, Some e =>
          Ok (with_rows data
                (List.filter (fun ir : Z * Row => in_range s e (Date (snd ir)))
                        (rows data)))
      | _, _ => Raise ValueError
      end
  end.

(* ================================================================== *)
(** * [DataAnalyzer] (src/data_analyzer.py) *)
(* ================================================================== *)

(** The two lines
    [if not is_datetime64_dtype(df['Date']): df['Date'] = to_datetime(...)]
    and [df = df.dropna(subset=['Date'])]: the column assignment writes
    into the frame the caller passed, the [dropna] only rebinds the local
    name.  The pair is (local frame, caller's frame). *)
Definition ensure_datetime (df : DataFrame) : DataFrame * DataFrame :=
  if is_datetime64_dtype df then (df, df)
  else
    let converted := coerce_Date df in
    (dropna_Date converted, converted).

(** The first entry that is strictly better than all entries before it. *)
Fixpoint first_best {A : Type} (better : A -> A -> bool) (best : Z * A)
  (l : list (Z * A)) : Z * A :=
  match l with
  | [] => best
  | x :: l' => first_best better (if better (snd x) (snd best) then x else best) l'
  end.

(** ** [analyze_review_volume] *)

Record VolumeStats : Type := mkVolume {
  review_counts : list (Z * nat);  (* day -> count, one entry per bin *)
  total_reviews : nat;
  average_daily_reviews : Q;
  peak_date : Z;
  peak_count : nat
}.

(** [NoVolume] is [{"review_counts": {}}]. *)
Inductive VolumeResult : Type :=
| NoVolume
| Volume (v : VolumeStats).

(** [df.groupby(pd.Grouper(key='Date', freq='D')).size()] *)
Definition size_by_day (df : DataFrame) : list (Z * nat) :=
  map (fun d => (d, length (rows_of_day df d))) (day_bins df).

Definition analyze_review_volume (df : DataFrame)
  : Outcome VolumeResult * DataFrame :=
  if empty df then (Ok NoVolume, df)
  else
    let '(local, caller) := ensure_datetime df in
    let counts := size_by_day local in
    match counts with
    | [] => (Raise ValueError, caller)  (* idxmax of an empty series *)
    | c :: cs =>
        let total := fold_right Nat.add 0%nat (map snd counts) in
        let peak := first_best (fun a b => (b <? a)%nat) c cs in
        (Ok (Volume {| review_counts := counts;
                       total_reviews := total;
                       average_daily_reviews :=
                         (inject_Z (Z.of_nat total) / Qlen counts)%Q;
                       peak_date := fst peak;
                       peak_count := snd peak |}),
         caller)
    end.

(** ** [analyze_sentiment_distribution] *)

Record SentimentStats : Type := mkSentimentStats {
  sentiment_distribution : list (string * nat);
  positive_ratio : Q;
  negative_ratio : Q;
  neutral_ratio : Q;
  average_sentiment_score : pyfloat;
  sentiment_score_std : pyfloat;
  rating_sentiment_correlation : pyfloat
}.

(** [NoDistribution] is [{"sentiment_distribution": {}}]: no ratio, mean
    or correlation key. *)
Inductive DistributionResult : Type :=
| NoDistribution
| Distribution (s : SentimentStats).

(** [df[c]]: the cells of one column. *)
Definition column {A : Type} (f : Row -> A) (df : DataFrame) : list A :=
  map (fun ir : Z * Row => f (snd ir)) (rows df).

(** [count / total if total > 0 else 0] *)
Definition ratio (count total : nat) : Q :=
  if (0 <? total)%nat then (inject_Z (Z.of_nat count) / inject_Z (Z.of_nat total))%Q
  else 0%Q.

Definition analyze_sentiment_distribution (df : DataFrame)
  : Outcome DistributionResult :=
  if empty df || negb (has_sentiment_label (columns df)) then Ok NoDistribution
  else
    let sentiment_counts := value_counts String.eqb (column sentiment_label df) in
    let has_score := has_sentiment_score (columns df) in
    rating_sentiment_corr ←
      (if has_Rating (columns df) && (1 <? len df)%nat then
         if has_score
         then Ok (corr (map (fun ir : Z * Row =>
                               (Rating (snd ir), sentiment_score (snd ir)))
                            (rows df)))
         else Raise KeyError  (* df[['Rating', 'sentiment_score']] *)
       else Ok (Fin 0));
    Ok (Distribution
          {| sentiment_distribution := sentiment_counts;
             positive_ratio := ratio (dict_get "positive" sentiment_counts) (len df);
             negative_ratio := ratio (dict_get "negative" sentiment_counts) (len df);
             neutral_ratio := ratio (dict_get "neutral" sentiment_counts) (len df);
             average_sentiment_score :=
               if has_score then mean (column sentiment_score df) else Fin 0;
             sentiment_score_std :=
               if has_score then std (column sentiment_score df) else Fin 0;
             rating_sentiment_correlation := rating_sentiment_corr |}).

(** ** [analyze_sentiment_trend] *)

(** The three values of [trend_direction]: "上升", "下降", "穩定". *)
Inductive Direction : Type :=
| Up
| Down
| Stable.

Record TrendStats : Type := mkTrend {
  sentiment_trend : list (Z * Q);  (* day -> mean score, NaN bins left out *)
  most_positive_date : option Z;
  most_positive_score : Q;
  most_negative_date : option Z;
  most_negative_score : Q;
  trend_slope : Q;
  trend_direction : Direction
}.

(** [NoTrend] is [{"sentiment_trend": {}}]: no slope or direction key. *)
Inductive TrendResult : Type :=
| NoTrend
| Trend (t : TrendStats).

(** The series of per-bin means: one entry per bin, [nan] for a bin
    without a scored record. *)
Definition mean_by_day (df : DataFrame) : list (Z * pyfloat) :=
  map (fun d => (d, mean (map sentiment_score (rows_of_day df d)))) (day_bins df).

(** [x[valid_indices]], [y[valid_indices]] with [x = np.arange(len(y))]. *)
Definition valid_points (series : list (Z * pyfloat)) : list (Z * Q) :=
  omap (fun ky : nat * (Z * pyfloat) =>
          match snd (snd ky) with
          | Fin y => Some (Z.of_nat (fst ky), y)
          | _ => None
          end)
       (imap (fun k y => (k, y)) series).

(** The non-NaN entries of the series, keyed by day. *)
Definition valid_entries (series : list (Z * pyfloat)) : list (Z * Q) :=
  omap (fun dy : Z * pyfloat =>
          match snd dy with
          | Fin y => Some (fst dy, y)
          | _ => None
          end) series.

(** [np.polyfit(x, y, 1)[0]]: the slope of the least-squares line. *)
Definition polyfit_slope (pts : list (Z * Q)) : Q :=
  let n := Qlen pts in
  let xs := map (fun p : Z * Q => inject_Z (fst p)) pts in
  let ys := map snd pts in
  let sx := Qsum xs in
  let sy := Qsum ys in
  let sxx := Qsum (map (fun x : Q => (x * x)%Q) xs) in
  let sxy := Qsum (map (fun p : Z * Q => (inject_Z (fst p) * snd p)%Q) pts) in
  ((n * sxy - sx * sy) / (n * sxx - sx * sx))%Q.

(** The slope of the trend: fitted when the series has more than one
    bin and more than one of them has a mean, 0 otherwise. *)
Definition slope_of (series : list (Z * pyfloat)) : Q :=
  if (1 <? length series)%nat then
    let pts := valid_points series in
    if (1 <? length pts)%nat then polyfit_slope pts else 0%Q
  else 0%Q.

(** [if slope > 0.01 ... elif slope < -0.01 ... else ...] *)
Definition direction_of (slope : Q) : Direction :=
  if Qltb (1 # 100) slope then Up
  else if Qltb slope (- (1 # 100)) then Down
  else Stable.

Definition analyze_sentiment_trend (df : DataFrame)
  : Outcome TrendResult * DataFrame :=
  if empty df || negb (has_sentiment_label (columns df)) then (Ok NoTrend, df)
  else
    let '(local, caller) := ensure_datetime df in
    if negb (has_sentiment_score (columns local)) then (Raise KeyError, caller)
    else
      let series := mean_by_day local in
      let extremes :=
        match series with
        | [] => Ok (None, 0%Q, None, 0%Q)
        | _ =>
            match valid_entries series with
            | [] => Raise ValueError  (* idxmax().strftime on an all-NaN series *)
            | e :: es =>
                let hi := first_best (fun a b => Qltb b a) e es in
                let lo := first_best (fun a b => Qltb a b) e es in
                Ok (Some (fst hi), snd hi, Some (fst lo), snd lo)
            end
        end in
      match extremes with
      | Raise e => (Raise e, caller)
      | Ok (pos_date, pos_score, neg_date, neg_score) =>
          let slope := slope_of series in
          (Ok (Trend {| sentiment_trend := valid_entries series;
                        most_positive_date := pos_date;
                        most_positive_score := pos_score;
                        most_negative_date := neg_date;
                        most_negative_score := neg_score;
                        trend_slope := slope;
                        trend_direction := direction_of slope |}),
           caller)
      end.

(** ** [analyze_topics] *)

(** The stop words of the function, in source order. *)
Definition english_stopwords : list string :=
  ["a"; "an"; "the"; "and"; "or"; "but"; "if"; "because"; "as"; "what";
   "when"; "where"; "how"; "to"; "in"; "is"; "it"; "of"; "for"; "with";
   "this"; "that"; "be"; "on"; "are"; "was"; "were"; "has"; "have";
   "had"; "not"; "by"; "at"; "from"; "so"; "some"; "other"; "than";
   "then"; "can"; "could"; "will"; "would"; "my"; "your"; "his"; "her";
   "their"; "our"; "its"; "i"; "you"; "he"; "she"; "they"; "we"; "who";
   "whom"; "whose"; "which"; "there"; "here"; "all"; "any"; "each"; "more";
   "most"; "need"; "im"; "just"; "dont"; "get"; "also"; "ill"; "very"].

(** The lower-cased text of one record: title, a space, content. *)
Definition topic_text (cols : Columns) (row : Row) : string :=
  let t := match cell (has_Title cols) (Title row) with
           | Some title => (title ++ " ")%string
           | None => EmptyString
           end in
  lower (match cell (has_Content cols) (Content row) with
         | Some content => (t ++ content)%string
         | None => t
         end).

(** [word not in english_stopwords and len(word) > 2] *)
Definition keep_word (word : string) : bool :=
  negb (existsb (String.eqb word) english_stopwords)
  && (2 <? String.length word)%nat.

(** [Counter(words).most_common(top_n)] as a dict, in its own order. *)
Definition most_common (top_n : nat) (words : list string) : list (string * nat) :=
  take top_n (sort_desc (tally String.eqb words)).

Definition analyze_topics (df : DataFrame) (top_n : nat) : list (string * nat) :=
  if empty df then []
  else
    let all_texts := map (fun ir : Z * Row => topic_text (columns df) (snd ir)) (rows df) in
    let all_words := flat_map (fun text => List.filter keep_word (split text)) all_texts in
    most_common top_n all_words.

(** ** [compare_time_periods] *)

(** The bullets of [summary], in the order of the source:
    "評論數量大幅增加 (X%)", "評論數量大幅減少 (X%)", "評分明顯提高 (+X)",
    "評分明顯降低 (X)", "玩家情感顯著轉為正面", "玩家情感顯著轉為負面",
    "遊戲版本從 V1 更新到 V2", "兩個時期之間沒有顯著差異". *)
Inductive Bullet : Type :=
| VolumeIncreased (percent : pyfloat)
| VolumeDecreased (percent : pyfloat)
| RatingImproved (delta : pyfloat)
| RatingDeclined (delta : pyfloat)
| SentimentPositive
| SentimentNegative
| VersionUpdated (v1 v2 : option string)
| NoSignificantDifference.

(** The statements of [detailed_insights], one constructor per f-string
    of the source, in source order. *)
Inductive Insight : Type :=
| VolumeSurge (percent : pyfloat)
| VolumeRise (percent : pyfloat)
| VolumeCollapse (percent : pyfloat)
| VolumeDip (percent : pyfloat)
| RatingAndSentimentUp
| RatingAndSentimentDown
| RatingUpSentimentDown
| RatingDownSentimentUp
| NeutralShareUp (points : Q)
| NeutralShareDown (points : Q)
| PositiveUpNegativeDown
| PositiveDownNegativeUp
| VersionWellReceived (v1 v2 : option string) (delta : pyfloat)
| VersionPoorlyReceived (v1 v2 : option string) (delta : pyfloat)
| VersionLittleChange (v1 v2 : option string)
| VolumeAndRatingUp
| VolumeAndRatingDown
| VolumeUpRatingDown
| TrendDownToUp
| TrendUpToDown
| TrendStableToUp
| TrendStableToDown
| TrendStillUp
| TrendStillDown
| StableData
| RatingStaysHigh
| RatingStaysLow
| KeepMonitoring.

(** The entries of the sections of the comparison dict. *)
Record PeriodSpan : Type := mkSpan {
  start_date : Z;  (* the day of the earliest record *)
  end_date : Z;    (* the day of the latest record *)
  days : Z
}.

Inductive VolumeEntry : Type :=
| PeriodVolume (total_reviews : nat) (daily_average : Q)
| VolumeChange (total_reviews_percent daily_average_percent : pyfloat).

Inductive RatingEntry : Type :=
| PeriodRating (average_rating : pyfloat)
| RatingChange (average_rating : pyfloat).

Inductive SentimentEntry : Type :=
| PeriodSentiment (positive_ratio negative_ratio neutral_ratio : Q)
                  (average_sentiment_score : pyfloat)
| SentimentChange (positive_ratio_points negative_ratio_points
                   neutral_ratio_points : Q)
                  (average_sentiment_score : pyfloat).

Inductive VersionEntry : Type :=
| PeriodVersion (main_version : option string)
| VersionChanged (version_changed : bool).

(** Each section is a dict literal keyed by the two period names and a
    fixed key; a later key replaces an equal earlier one. *)
Record Comparison : Type := mkComparison {
  time_periods : gmap string PeriodSpan;
  review_volume : gmap string VolumeEntry;
  rating : gmap string RatingEntry;
  sentiment : gmap string SentimentEntry;
  version : gmap string VersionEntry;
  summary : list Bullet;
  detailed_insights : list Insight
}.

(** [Insufficient] is [{"comparison_result": "無法比較，資料不足"}]. *)
Inductive ComparisonResult : Type :=
| Insufficient
| Compared (c : Comparison).

(** [abs(x)] *)
Definition fabs (x : pyfloat) : pyfloat :=
  match x with
  | Fin q => Fin (Qabs q)
  | _ => x
  end.

(** [df[df['sentiment_label'] == l].shape[0]] *)
Definition count_label (l : string) (df : DataFrame) : nat :=
  length (List.filter (fun r => bool_decide (sentiment_label r = Some l))
                 (map snd (rows df))).

(** [a == b] on main versions, [None] included. *)
Definition option_string_eqb (a b : option string) : bool :=
  bool_decide (a = b).

(** [(df['Date'].max() - df['Date'].min()).days + 1] over the
    timestamps [t :: ts] of the column. *)
Definition span_days (t : Z) (ts : list Z) : Z :=
  (max_list t ts - min_list t ts) / NS_PER_DAY + 1.

(** [sentiment_trend["trend_direction"]] *)
Definition direction_key (r : TrendResult) : Outcome Direction :=
  match r with
  | Trend t => Ok (trend_direction t)
  | NoTrend => Raise KeyError
  end.

(** [if b: l.append(x)] *)
Definition when {A : Type} (b : bool) (x : A) : list A :=
  if b then [x] else [].

(** [b == "兩個時期之間沒有顯著差異"] *)
Definition is_no_difference (b : Bullet) : bool :=
  match b with NoSignificantDifference => true | _ => false end.

(** Section 5 of the function: the summary rules. *)
Definition summary_rules (review_change rating_change sentiment_change : pyfloat)
  (version_changed : bool) (main_version1 main_version2 : option string)
  : list Bullet :=
  let summary :=
    (if fgt review_change (2 # 10)
     then [VolumeIncreased (py_round (fscale review_change 100) 1)]
     else if flt review_change (- (2 # 10))
          then [VolumeDecreased (py_round (fscale review_change 100) 1)]
          else [])
    ++ (if fgt rating_change (5 # 10)
        then [RatingImproved (py_round rating_change 1)]
        else if flt rating_change (- (5 # 10))
             then [RatingDeclined (py_round rating_change 1)]
             else [])
    ++ (if fgt sentiment_change (2 # 10) then [SentimentPositive]
        else if flt sentiment_change (- (2 # 10)) then [SentimentNegative]
             else [])
    ++ when version_changed (VersionUpdated main_version1 main_version2) in
  match summary with
  | [] => [NoSignificantDifference]
  | _ => summary
  end.

(** Section 6 of the function: the detailed insight rules. *)
Definition insight_rules (review_change rating_change sentiment_change : pyfloat)
  (positive_ratio_change negative_ratio_change neutral_ratio_change : Q)
  (version_changed : bool) (main_version1 main_version2 : option string)
  (trend_direction1 trend_direction2 : Direction)
  (summary : list Bullet) (total_reviews1 total_reviews2 : nat)
  (avg_rating1 avg_rating2 : pyfloat) : list Insight :=
  let pct := py_round (fscale review_change 100) 1 in
  let abs_pct := py_round (fscale (fabs review_change) 100) 1 in
  let detailed_insights :=
    (if fgt review_change (2 # 10) then
       if fgt review_change (5 # 10) then [VolumeSurge pct] else [VolumeRise pct]
     else if flt review_change (- (2 # 10)) then
            if flt review_change (- (5 # 10)) then [VolumeCollapse abs_pct]
            else [VolumeDip abs_pct]
          else [])
    ++ (if fgt rating_change (3 # 10) && fgt sentiment_change (15 # 100)
        then [RatingAndSentimentUp]
        else if flt rating_change (- (3 # 10)) && flt sentiment_change (- (15 # 100))
        then [RatingAndSentimentDown]
        else if fgt rating_change (3 # 10) && flt sentiment_change (- (15 # 100))
        then [RatingUpSentimentDown]
        else if flt rating_change (- (3 # 10)) && fgt sentiment_change (15 # 100)
        then [RatingDownSentimentUp]
        else [])
    ++ (if Qltb (15 # 100) (Qabs neutral_ratio_change) then
          if Qltb 0 neutral_ratio_change
          then [NeutralShareUp (round_q (neutral_ratio_change * 100) 1)]
          else [NeutralShareDown (round_q (Qabs neutral_ratio_change * 100) 1)]
        else [])
    ++ (if Qltb (15 # 100) positive_ratio_change
           && Qltb negative_ratio_change (- (15 # 100))
        then [PositiveUpNegativeDown]
        else if Qltb positive_ratio_change (- (15 # 100))
                && Qltb (15 # 100) negative_ratio_change
        then [PositiveDownNegativeUp]
        else [])
    ++ (if version_changed then
          if fgt rating_change (3 # 10)
          then [VersionWellReceived main_version1 main_version2 rating_change]
          else if flt rating_change (- (3 # 10))
          then [VersionPoorlyReceived main_version1 main_version2 (fabs rating_change)]
          else [VersionLittleChange main_version1 main_version2]
        else [])
    ++ (if fgt review_change (2 # 10) && fgt rating_change (3 # 10)
        then [VolumeAndRatingUp]
        else if flt review_change (- (2 # 10)) && flt rating_change (- (3 # 10))
        then [VolumeAndRatingDown]
        else if fgt review_change (2 # 10) && flt rating_change (- (3 # 10))
        then [VolumeUpRatingDown]
        else [])
    ++ (match trend_direction1, trend_direction2 with
        | Down, Up => [TrendDownToUp]
        | Up, Down => [TrendUpToDown]
        | Stable, Up => [TrendStableToUp]
        | Stable, Down => [TrendStableToDown]
        | Up, Up => [TrendStillUp]
        | Down, Down => [TrendStillDown]
        | _, _ => []
        end)
    ++ (if match summary with
           | [] => true
           | [b] => is_no_difference b
           | _ => false
           end
        then
          if (100 <? total_reviews1)%nat && (100 <? total_reviews2)%nat
          then StableData ::
               (if fge avg_rating1 4 && fge avg_rating2 4 then [RatingStaysHigh]
                else if fle avg_rating1 3 && fle avg_rating2 3 then [RatingStaysLow]
                else [])
          else []
        else []) in
  match detailed_insights with
  | [] => [KeepMonitoring]
  | _ => detailed_insights
  end.

(** [{name1: v1, name2: v2, key: v}] *)
Definition dict3 {V : Type} (name1 : string) (v1 : V) (name2 : string) (v2 : V)
  (key : string) (v : V) : gmap string V :=
  <[key := v]> (<[name2 := v2]> (<[name1 := v1]> ∅)).

(** [{name1: v1, name2: v2}] *)
Definition dict2 {V : Type} (name1 : string) (v1 : V) (name2 : string) (v2 : V)
  : gmap string V :=
  <[name2 := v2]> (<[name1 := v1]> ∅).

(** The column assignment of the comparison, which drops no row:
    [if not is_datetime64_dtype(df['Date']): df['Date'] = to_datetime(...)]. *)
Definition ensure_datetime_inplace (df : DataFrame) : DataFrame :=
  if is_datetime64_dtype df then df else coerce_Date df.

(** ** The quantities the comparison is built from (sections 1 to 4 of
    [compare_time_periods]) *)

(** [(total_reviews2 - total_reviews1) / total_reviews1], [inf] on a zero
    baseline. *)
Definition review_change_of (total_reviews1 total_reviews2 : nat) : pyfloat :=
  if (0 <? total_reviews1)%nat
  then Fin ((inject_Z (Z.of_nat total_reviews2) - inject_Z (Z.of_nat total_reviews1))
            / inject_Z (Z.of_nat total_reviews1))%Q
  else PInf.

(** The observed span of a period whose dates were converted: the days
    of [df['Date'].min()] and [df['Date'].max()] and
    [(max - min).days + 1].  A column without a single timestamp has no
    span: its minimum is [NaT], which [strftime] rejects. *)
Definition span_of (df : DataFrame) : option PeriodSpan :=
  match timestamps df with
  | t :: ts => Some {| start_date := day_of (min_list t ts);
                       end_date := day_of (max_list t ts);
                       days := span_days t ts |}
  | [] => None
  end.

(** [total_reviews / days if days > 0 else 0] *)
Definition daily_avg_of (total_reviews : nat) (days : Z) : Q :=
  if (0 <? days)%Z then (inject_Z (Z.of_nat total_reviews) / inject_Z days)%Q
  else 0%Q.

(** [df['Rating'].mean() if 'Rating' in df.columns else 0] *)
Definition avg_rating_of (df : DataFrame) : pyfloat :=
  if has_Rating (columns df) then mean (column Rating df) else Fin 0.

Definition rating_change_of (df1 df2 : DataFrame) : pyfloat :=
  fsub (avg_rating_of df2) (avg_rating_of df1).

Definition both_labelled (df1 df2 : DataFrame) : bool :=
  has_sentiment_label (columns df1) && has_sentiment_label (columns df2).

(** The share of the records of [df] labelled [l], 0 unless both frames
    carry labels. *)
Definition share_of (labelled : bool) (l : string) (df : DataFrame) : Q :=
  if labelled then ratio (count_label l df) (len df) else 0%Q.

Definition avg_sentiment_of (labelled : bool) (df : DataFrame) : pyfloat :=
  if labelled && has_sentiment_score (columns df)
  then mean (column sentiment_score df) else Fin 0.

Definition sentiment_change_of (df1 df2 : DataFrame) : pyfloat :=
  fsub (avg_sentiment_of (both_labelled df1 df2) df2)
       (avg_sentiment_of (both_labelled df1 df2) df1).

Definition both_versioned (df1 df2 : DataFrame) : bool :=
  has_Version (columns df1) && has_Version (columns df2).

Definition main_version (versioned : bool) (df : DataFrame) : option string :=
  if versioned then main_version_of (value_counts String.eqb (column Version df))
  else None.

Definition version_changed_of (df1 df2 : DataFrame) : bool :=
  both_versioned df1 df2
  && negb (option_string_eqb (main_version (both_versioned df1 df2) df1)
                             (main_version (both_versioned df1 df2) df2)).

(** The result and the two frames of the caller after the call. *)
Definition compare_time_periods (df1 df2 : DataFrame)
  (period1_name period2_name : string)
  : Outcome ComparisonResult * (DataFrame * DataFrame) :=
  if empty df1 || empty df2 then (Ok Insufficient, (df1, df2))
  else
    (* 1. review volume *)
    let total_reviews1 := len df1 in
    let total_reviews2 := len df2 in
    let review_change := review_change_of total_reviews1 total_reviews2 in
    let df1 := ensure_datetime_inplace df1 in
    let df2 := ensure_datetime_inplace df2 in
    match span_of df1, span_of df2 with
    | Some span1, Some span2 =>
        let daily_avg1 := daily_avg_of total_reviews1 (days span1) in
        let daily_avg2 := daily_avg_of total_reviews2 (days span2) in
        let daily_avg_change :=
          if Qltb 0 daily_avg1 then Fin ((daily_avg2 - daily_avg1) / daily_avg1)%Q
          else PInf in
        (* 2. rating *)
        let avg_rating1 := avg_rating_of df1 in
        let avg_rating2 := avg_rating_of df2 in
        let rating_change := rating_change_of df1 df2 in
        (* 3. sentiment *)
        let labelled := both_labelled df1 df2 in
        let positive_ratio1 := share_of labelled "positive" df1 in
        let positive_ratio2 := share_of labelled "positive" df2 in
        let positive_ratio_change := (positive_ratio2 - positive_ratio1)%Q in
        let negative_ratio1 := share_of labelled "negative" df1 in
        let negative_ratio2 := share_of labelled "negative" df2 in
        let negative_ratio_change := (negative_ratio2 - negative_ratio1)%Q in
        let neutral_ratio1 := share_of labelled "neutral" df1 in
        let neutral_ratio2 := share_of labelled "neutral" df2 in
        let neutral_ratio_change := (neutral_ratio2 - neutral_ratio1)%Q in
        let avg_sentiment1 := avg_sentiment_of labelled df1 in
        let avg_sentiment2 := avg_sentiment_of labelled df2 in
        let sentiment_change := sentiment_change_of df1 df2 in
        (* 4. version *)
        let main_version1 := main_version (both_versioned df1 df2) df1 in
        let main_version2 := main_version (both_versioned df1 df2) df2 in
        let version_changed := version_changed_of df1 df2 in
        (* 5. summary *)
        let summary :=
          summary_rules review_change rating_change sentiment_change
                        version_changed main_version1 main_version2 in
        (* 6. detailed insights; the trend of each period is analysed again *)
        let '(trend1, df1) := analyze_sentiment_trend df1 in
        match trend1 ≫= direction_key with
        | Raise e => (Raise e, (df1, df2))
        | Ok trend_direction1 =>
            let '(trend2, df2) := analyze_sentiment_trend df2 in
            match trend2 ≫= direction_key with
            | Raise e => (Raise e, (df1, df2))
            | Ok trend_direction2 =>
                let detailed_insights :=
                  insight_rules review_change rating_change sentiment_change
                    positive_ratio_change negative_ratio_change neutral_ratio_change
                    version_changed main_version1 main_version2
                    trend_direction1 trend_direction2
                    summary total_reviews1 total_reviews2 avg_rating1 avg_rating2 in
                (Ok (Compared
                  {| time_periods :=
                       dict2 period1_name span1 period2_name span2;
                     review_volume :=
                       dict3 period1_name
                             (PeriodVolume total_reviews1 (round_q daily_avg1 2))
                             period2_name
                             (PeriodVolume total_reviews2 (round_q daily_avg2 2))
                             "change"
                             (VolumeChange (py_round (fscale review_change 100) 2)
                                (py_round (fscale daily_avg_change 100) 2));
                     rating :=
                       dict3 period1_name (PeriodRating (py_round avg_rating1 2))
                             period2_name (PeriodRating (py_round avg_rating2 2))
                             "change" (RatingChange (py_round rating_change 2));
                     sentiment :=
                       dict3 period1_name
                             (PeriodSentiment (round_q (positive_ratio1 * 100) 2)
                                (round_q (negative_ratio1 * 100) 2)
                                (round_q (neutral_ratio1 * 100) 2)
                                (py_round avg_sentiment1 4))
                             period2_name
                             (PeriodSentiment (round_q (positive_ratio2 * 100) 2)
                                (round_q (negative_ratio2 * 100) 2)
                                (round_q (neutral_ratio2 * 100) 2)
                                (py_round avg_sentiment2 4))
                             "change"
                             (SentimentChange (round_q (positive_ratio_change * 100) 2)
                                (round_q (negative_ratio_change * 100) 2)
                                (round_q (neutral_ratio_change * 100) 2)
                                (py_round sentiment_change 4));
                     version :=
                       dict3 period1_name (PeriodVersion main_version1)
                             period2_name (PeriodVersion main_version2)
                             "version_changed" (VersionChanged version_changed);
                     summary := summary;
                     detailed_insights := detailed_insights |}),
                 (df1, df2))
            end
        end
    | _, _ => (Raise ValueError, (df1, df2))  (* NaT.strftime *)
    end.

(* ================================================================== *)
(** * The comparison endpoint (src/api.py) *)
(* ================================================================== *)

(** [DataProcessor.get_data_stats] *)
Record DataStats : Type := mkStats {
  stats_total_reviews : nat;
  rating_distribution : list (Q * nat);
  stats_average_rating : pyfloat;
  date_range : option (Z * Z);
  version_distribution : list (string * nat)
}.

Definition get_data_stats (df : DataFrame) : Outcome DataStats :=
  if negb (has_Rating (columns df) && has_Version (columns df))
  then Raise KeyError
  else
    Ok {| stats_total_reviews := len df;
          rating_distribution := value_counts Qeq_bool (column Rating df);
          stats_average_rating := py_round (mean (column Rating df)) 2;
          date_range :=
            match timestamps df with
            | [] => None
            | t :: ts => Some (day_of (min_list t ts), day_of (max_list t ts))
            end;
          version_distribution := value_counts String.eqb (column Version df) |}.

Record ComparisonRequest : Type := mkRequest {
  period1_start : string;
  period1_end : string;
  period2_start : string;
  period2_end : string;
  period1_name : string;
  period2_name : string;
  output_format : string
}.

Record PeriodInfo : Type := mkInfo {
  review_count : nat;
  stats : DataStats;
  volume : VolumeResult;
  sentiment_info : DistributionResult;
  trend : TrendResult;
  topics : list (string * nat)
}.

(** The responses of [POST /api/comparison].
    - [Warning n1 n2]: status "warning", the two review counts and
      [comparison_result = {"warning": "資料量不足"}];
    - [Success]: status "success" with the full analysis;
    - [HTTP400], [HTTP500]: the two [HTTPException]s. *)
Inductive Response : Type :=
| Warning (review_count1 review_count2 : nat)
| Success (period1_info period2_info : PeriodInfo)
          (comparison_result : ComparisonResult) (report_path : option string)
| HTTP400
| HTTP500.

(** The report writers are outside the model: [generate_report fmt c]
    is the path returned for the lower-cased format [fmt]. *)
Variable generate_report : string -> ComparisonResult -> Outcome string.

Definition write_report (fmt : string) (c : ComparisonResult) : Outcome (option string) :=
  let fmt := lower fmt in
  if existsb (String.eqb fmt) ["json"; "text"; "html"]
  then path ← generate_report fmt c; Ok (Some path)
  else Ok None.

(** [except ValueError: 400], [except Exception: 500]. *)
Definition respond (r : Outcome Response) : Response :=
  match r with
  | Ok resp => resp
  | Raise ValueError => HTTP400
  | Raise _ => HTTP500
  end.

(** Lift a call that returns its result next to the frame it may have
    written to. *)
Definition through {A B : Type} (call : Outcome A * DataFrame)
  (k : A -> DataFrame -> Outcome B) : Outcome B :=
  match call with
  | (Ok a, df) => k a df
  | (Raise e, _) => Raise e
  end.

(** [compare_periods].  [raw_data] is what [pd.read_csv] returned (or the
    exception it raised); [schedule1] and [schedule2] are the completion
    orders of the two classification batches. *)
Definition compare_periods (raw_data : Outcome DataFrame)
  (sentiment_analyzer : SentimentAnalyzer) (schedule1 schedule2 : list nat)
  (request : ComparisonRequest) : Response :=
  respond (
    raw ← raw_data;
    df ← _clean_data raw;
    df_period1 ←
      filter_by_date_range (Some df) (period1_start request) (period1_end request);
    df_period2 ←
      filter_by_date_range (Some df) (period2_start request) (period2_end request);
    if (len df_period1 <? 10)%nat || (len df_period2 <? 10)%nat
    then Ok (Warning (len df_period1) (len df_period2))
    else
      let df1 := analyze_dataframe sentiment_analyzer schedule1 df_period1 in
      let df2 := analyze_dataframe sentiment_analyzer schedule2 df_period2 in
      period1_stats ← get_data_stats df1;
      period2_stats ← get_data_stats df2;
      through (analyze_review_volume df1) (fun period1_volume df1 =>
      through (analyze_review_volume df2) (fun period2_volume df2 =>
      period1_sentiment ← analyze_sentiment_distribution df1;
      period2_sentiment ← analyze_sentiment_distribution df2;
      through (analyze_sentiment_trend df1) (fun period1_trend df1 =>
      through (analyze_sentiment_trend df2) (fun period2_trend df2 =>
      let period1_topics := analyze_topics df1 20 in
      let period2_topics := analyze_topics df2 20 in
      comparison_result ←
        fst (compare_time_periods df1 df2 (period1_name request) (period2_name request));
      report_path ← write_report (output_format request) comparison_result;
      Ok (Success
            {| review_count := len df_period1; stats := period1_stats;
               volume := period1_volume; sentiment_info := period1_sentiment;
               trend := period1_trend; topics := period1_topics |}
            {| review_count := len df_period2; stats := period2_stats;
               volume := period2_volume; sentiment_info := period2_sentiment;
               trend := period2_trend; topics := period2_topics |}
            comparison_result report_path)))))).

(* ================================================================== *)
(** * The vocabulary of the properties *)
(* ================================================================== *)

(** ** Classification *)

(** The three labels of §3 of the specification. *)
Definition sentiment_labels : list string := ["positive"; "neutral"; "negative"].

(** The inputs on which [analyze_text] answers before looking at the
    scorer: everything but a non-empty [str]. *)
Definition is_text (text : pyvalue) : bool :=
  match text with
  | PyStr s => negb (String.eqb s EmptyString)
  | _ => false
  end.

(** What the collector stores for one future. *)
Definition settle (o : Outcome SentimentResult) : SentimentResult :=
  match o with
  | Ok r => r
  | Raise _ => neutral_sentinel
  end.

(** The sentiment attached to a row, if both cells are there. *)
Definition attached (row : Row) : option SentimentResult :=
  match sentiment_label row, sentiment_score row with
  | Some l, Some s => Some {| label := l; score := s |}
  | _, _ => None
  end.

(** The row after its own unit of work was settled and attached. *)
Definition attach (work : Row -> Outcome SentimentResult) (ir : Z * Row) : Z * Row :=
  (fst ir, set_sentiment (settle (work (snd ir))) (snd ir)).

(** One [.at] assignment seen from a single row. *)
Definition at_set_row (idx : Z) (r : SentimentResult) (ir : Z * Row) : Z * Row :=
  if Z.eqb (fst ir) idx then (fst ir, set_sentiment r (snd ir)) else ir.

(** The result [analyze_row] computes from one record's text. *)
Definition classify_record (self : SentimentAnalyzer) (cols : Columns) (row : Row)
  : SentimentResult :=
  if String.eqb (strip (combined_text cols row)) EmptyString then neutral_sentinel
  else analyze_text self (PyStr (combined_text cols row)).

(** The fields of a record that the classification must not touch. *)
Definition same_review (a b : Row) : Prop :=
  Country a = Country b /\ Rating a = Rating b /\ Date a = Date b
  /\ Version a = Version b /\ Title a = Title b /\ Content a = Content b.

(** The scorer raises on the text it is handed. *)
Definition scorer_raises (self : SentimentAnalyzer) (s : string) : Prop :=
  match analyzer self with
  | VADER polarity_scores => polarity_scores s = None
  | Transformers pipeline => pipeline (substring 0 512 s) = None
  end.

(** ** Periods and record sets *)

(** The two periods a request selects, once the data was loaded and
    cleaned and the four dates were parsed. *)
Definition periods_of (raw_data : Outcome DataFrame) (request : ComparisonRequest)
  (p1 p2 : DataFrame) : Prop :=
  exists raw df,
    raw_data = Ok raw
    /\ _clean_data raw = Ok df
    /\ filter_by_date_range (Some df) (period1_start request) (period1_end request)
       = Ok p1
    /\ filter_by_date_range (Some df) (period2_start request) (period2_end request)
       = Ok p2.

(** The number of occurrences of [k]. *)
Definition count_of (k : string) (values : list string) : nat :=
  length (List.filter (fun v => String.eqb k v) values).

Definition is_sentiment_label (l : string) : bool :=
  existsb (String.eqb l) sentiment_labels.

(** A scored record set: both sentiment columns are there and every
    record carries a score. *)
Definition is_scored (df : DataFrame) : bool :=
  has_sentiment_label (columns df) && has_sentiment_score (columns df)
  && forallb (fun ir : Z * Row => is_some (sentiment_score (snd ir))) (rows df).

(** A classified record set: a scored one in which every record carries
    one of the three labels. *)
Definition is_classified (df : DataFrame) : bool :=
  is_scored df
  && forallb (fun ir : Z * Row =>
                match sentiment_label (snd ir) with
                | Some l => is_sentiment_label l
                | None => false
                end)
             (rows df).

(** The rating and the score of every record, as [DataFrame.corr] sees
    them. *)
Definition pairs_of (df : DataFrame) : list (option Q * option Q) :=
  map (fun ir : Z * Row => (Rating (snd ir), sentiment_score (snd ir))) (rows df).

(** Every record carries a score. *)
Definition all_scored (df : DataFrame) : Prop :=
  forall ir, In ir (rows df) -> exists x, sentiment_score (snd ir) = Some x.

(** ** Trend *)

(** The series the trend is read from: the per-day means of the frame
    after its dates were parsed and the undated records dropped. *)
Definition trend_series (df : DataFrame) : list (Z * pyfloat) :=
  mean_by_day (fst (ensure_datetime df)).

(** The number of buckets with a defined mean. *)
Definition valid_buckets (df : DataFrame) : nat :=
  length (valid_entries (trend_series df)).

(** The position of a point, as a rational. *)
Definition xq (p : Z * Q) : Q := inject_Z (fst p).

(** The distance of a point from the line [a x + b]. *)
Definition residual (a b : Q) (p : Z * Q) : Q := (snd p - (a * xq p + b))%Q.

(** The sum of the squared distances of the points from the line. *)
Definition squared_error (pts : list (Z * Q)) (a b : Q) : Q :=
  Qsum (map (fun p => (residual a b p * residual a b p)%Q) pts).

(** The denominator of the slope: [n Σx² - (Σx)²]. *)
Definition spread (pts : list (Z * Q)) : Q :=
  (Qlen pts * Qsum (map (fun p => (xq p * xq p)%Q) pts)
   - Qsum (map xq pts) * Qsum (map xq pts))%Q.

(** [np.polyfit(x, y, 1)[1]] *)
Definition polyfit_intercept (pts : list (Z * Q)) : Q :=
  ((Qsum (map snd pts) - polyfit_slope pts * Qsum (map xq pts)) / Qlen pts)%Q.

(** ** Comparison *)

(** [x > c] and [x < c] on floats. *)
Definition above (x : pyfloat) (c : Q) : Prop :=
  match x with
  | Fin q => (c < q)%Q
  | PInf => True
  | NaN => False
  end.

Definition below (x : pyfloat) (c : Q) : Prop :=
  match x with
  | Fin q => (q < c)%Q
  | PInf => False
  | NaN => False
  end.

(** The kinds of bullet. *)
Definition is_volume_increased (b : Bullet) : bool :=
  match b with VolumeIncreased _ => true | _ => false end.

Definition is_volume_decreased (b : Bullet) : bool :=
  match b with VolumeDecreased _ => true | _ => false end.

Definition is_rating_improved (b : Bullet) : bool :=
  match b with RatingImproved _ => true | _ => false end.

Definition is_rating_declined (b : Bullet) : bool :=
  match b with RatingDeclined _ => true | _ => false end.

Definition is_sentiment_positive (b : Bullet) : bool :=
  match b with SentimentPositive => true | _ => false end.

Definition is_sentiment_negative (b : Bullet) : bool :=
  match b with SentimentNegative => true | _ => false end.

Definition is_version_updated (b : Bullet) : bool :=
  match b with VersionUpdated _ _ => true | _ => false end.

(** The summary contains a bullet of the given kind. *)
Definition mentions (kind : Bullet -> bool) (bullets : list Bullet) : Prop :=
  exists b, In b bullets /\ kind b = true.

(** A record of the frame has a date, once the column is parsed. *)
Definition has_dated_record (df : DataFrame) : bool :=
  existsb (fun ir : Z * Row => notna_date (coerce (Date (snd ir)))) (rows df).

(** A period: a scored record set with at least one dated record. *)
Definition is_period (df : DataFrame) : bool :=
  is_scored df && has_dated_record df.

(** The span of dates observed in the records of a period. *)
Definition observed_span (df : DataFrame) : option PeriodSpan :=
  span_of (coerce_Date df).


(* ================================================================== *)
(** * Sample data for the worked examples *)
(* ================================================================== *)

(** ** A reader of ISO dates

    [iso_to_datetime] reads "YYYY-MM-DD" as midnight of that day and
    rejects everything else; [pd.to_datetime] agrees with it on such
    strings. *)

Definition digit (c : ascii) : option Z :=
  let n := nat_of_ascii c in
  if (48 <=? n)%nat && (n <=? 57)%nat then Some (Z.of_nat n - 48) else None.

Definition number (cs : list ascii) : option Z :=
  fold_left (fun acc c =>
               match acc, digit c with
               | Some a, Some d => Some (10 * a + d)
               | _, _ => None
               end) cs (Some 0).

Definition is_leap (y : Z) : bool :=
  (((y mod 4 =? 0) && negb (y mod 100 =? 0)) || (y mod 400 =? 0))%Z.

Definition days_in_month (y m : Z) : Z :=
  if (m =? 2)%Z then (if is_leap y then 29 else 28)
  else if ((m =? 4) || (m =? 6) || (m =? 9) || (m =? 11))%Z then 30
  else 31.

(** Days from 1970-01-01 to the given civil date. *)
Definition days_from_civil (y m d : Z) : Z :=
  let y := if (m <=? 2)%Z then y - 1 else y in
  let era := y / 400 in
  let yoe := y - era * 400 in
  let doy := (153 * (if (2 <? m)%Z then m - 3 else m + 9) + 2) / 5 + d - 1 in
  let doe := yoe * 365 + yoe / 4 - yoe / 100 + doy in
  era * 146097 + doe - 719468.

Definition iso_to_datetime (s : string) : option Z :=
  match list_ascii_of_string s with
  | [y1; y2; y3; y4; "-"%char; m1; m2; "-"%char; d1; d2] =>
      match number [y1; y2; y3; y4], number [m1; m2], number [d1; d2] with
      | Some y, Some m, Some d =>
          if ((1 <=? m) && (m <=? 12) && (1 <=? d) && (d <=? days_in_month y m))%Z
          then Some (days_from_civil y m d * NS_PER_DAY)
          else None
      | _, _, _ => None
      end
  | _ => None
  end.

(** ** Stand-ins for the other externals *)

(** The examples never look at the two square-root statistics. *)
Definition no_statistic {A : Type} (cells : A) : pyfloat := NaN.

(** A report writer that always succeeds. *)
Definition report_to_disk (fmt : string) (c : ComparisonResult) : Outcome string :=
  Ok ("reports/comparison." ++ fmt)%string.

(** ** Reviews *)

(** The columns of the review file. *)
Definition csv_columns : Columns :=
  {| has_Country := true; has_Rating := true; has_Version := true;
     has_Title := true; has_Content := true;
     has_sentiment_label := false; has_sentiment_score := false |}.

(** The same columns after classification. *)
Definition classified_columns_of (c : Columns) : Columns := add_sentiment_columns c.

(** A row as [pd.read_csv] delivers it: the date is still a string. *)
Definition csv_review (date : string) (rating : Q) (version title content : string)
  : Row :=
  {| Country := Some "US"; Rating := Some rating; Date := DateStr date;
     Version := Some version; Title := Some title; Content := Some content;
     sentiment_label := None; sentiment_score := None |}.

(** The same row after cleaning. *)
Definition review (day : Z) (rating : Q) (version title content : string) : Row :=
  {| Country := Some "US"; Rating := Some rating;
     Date := Timestamp (day * NS_PER_DAY);
     Version := Some version; Title := Some title; Content := Some content;
     sentiment_label := None; sentiment_score := None |}.

(** A row with its sentiment attached. *)
Definition classified (r : Row) (l : string) (s : Q) : Row :=
  set_sentiment {| label := l; score := s |} r.

(** A review file of three lines. *)
Definition csv_reviews : DataFrame :=
  {| columns := csv_columns;
     rows := [(0, csv_review "2025-01-02" 5 "1.1.0" "Great game" "I love it");
              (1, csv_review "2025-01-03" 2 "1.1.0" "Terrible" "It crashes");
              (2, csv_review "2025-01-07" 4 "1.1.1" "Average" "It is okay")] |}.

(** The two periods of [january_request] in that file. *)
Definition first_week : DataFrame :=
  {| columns := csv_columns;
     rows := [(0, review 20090 5 "1.1.0" "Great game" "I love it");
              (1, review 20091 2 "1.1.0" "Terrible" "It crashes")] |}.

Definition second_week : DataFrame :=
  {| columns := csv_columns;
     rows := [(2, review 20095 4 "1.1.1" "Average" "It is okay")] |}.

(** The first two weeks (of five days) of January 2025. *)
Definition january_request : ComparisonRequest :=
  {| period1_start := "2025-01-01"; period1_end := "2025-01-05";
     period2_start := "2025-01-06"; period2_end := "2025-01-10";
     period1_name := "Period 1"; period2_name := "Period 2";
     output_format := "json" |}.

(** A lexicon scorer that knows three texts and raises on a fourth. *)
Definition sample_polarity (text : string) : option Q :=
  if String.eqb text "Great game. I love it" then Some (8 # 10)
  else if String.eqb text "Terrible. It crashes" then Some (- (7 # 10))%Q
  else if String.eqb text "Broken. ???" then None
  else Some 0%Q.

(** The lexicon strategy with the default threshold. *)
Definition vader_sample : SentimentAnalyzer :=
  {| analyzer := VADER sample_polarity; neutral_threshold := 15 # 100 |}.

(** Three records whose labels are not their positions, as in a filtered
    frame. *)
Definition inbox : DataFrame :=
  {| columns := csv_columns;
     rows := [(3, review 20090 5 "1.1.0" "Great game" "I love it");
              (7, review 20090 1 "1.1.0" "Broken" "???");
              (8, review 20091 2 "1.1.0" "Terrible" "It crashes")] |}.

(** The third future completes first. *)
Definition out_of_order : list nat := [2; 0; 1]%nat.

(** A classified record set. *)
Definition period_of (entries : list (Z * Row)) : DataFrame :=
  {| columns := classified_columns_of csv_columns; rows := entries |}.

(** Ten records over three days: 2025-01-01 to 2025-01-03. *)
Definition period_a : DataFrame :=
  period_of
    (imap (fun k day =>
             (Z.of_nat k,
              classified (review day 4 "1.1.0" "Fine" "It is fine") "positive" (5 # 10)))
          [20089; 20089; 20089; 20089; 20090; 20090; 20090; 20091; 20091; 20091]).

(** Twelve records on one day, 2025-01-07, of a later version. *)
Definition period_b : DataFrame :=
  period_of
    (imap (fun k day =>
             (Z.of_nat k + 10,
              classified (review day 5 "1.1.1" "Great" "I love it") "positive" (8 # 10)))
          (replicate 12 20095)).

(** The empty classified record set. *)
Definition no_reviews : DataFrame := period_of [].

(** Scores that climb by 0.3 a day: slope 0.3, direction "up". *)
Definition climbing : DataFrame :=
  period_of
    [(0, classified (review 20089 3 "1.1.0" "Meh" "It is okay") "neutral" (0 # 10));
     (1, classified (review 20090 4 "1.1.0" "Fine" "It is fine") "positive" (3 # 10));
     (2, classified (review 20092 5 "1.1.0" "Great" "I love it") "positive" (9 # 10))].

(** The sample file after its dates were parsed. *)
Definition parsed_reviews : DataFrame :=
  {| columns := csv_columns; rows := rows first_week ++ rows second_week |}.

(** A row with a label and no score. *)
Definition labelled (r : Row) (l : string) : Row :=
  {| Country := Country r; Rating := Rating r; Date := Date r;
     Version := Version r; Title := Title r; Content := Content r;
     sentiment_label := Some l; sentiment_score := None |}.

(** Two labelled reviews with ratings in a frame without a score column. *)
Definition labelled_only : DataFrame :=
  {| columns :=
       {| has_Country := true; has_Rating := true; has_Version := true;
          has_Title := true; has_Content := true;
          has_sentiment_label := true; has_sentiment_score := false |};
     rows := [(0, labelled (review 20089 5 "1.1.0" "Great" "I love it") "positive");
              (1, labelled (review 20090 1 "1.1.0" "Bad" "It crashes") "negative")] |}.

(* ================================================================== *)
(** * The rest of the data processor and of the endpoints *)
(* ================================================================== *)

(** ** Vocabulary for the data processor *)

(** The records of a frame, without their labels. *)
Definition records (df : DataFrame) : list Row := map snd (rows df).

(** A raw record that survives the four steps of [_clean_data]: it names
    a country, carries a rating between 1 and 5 and a content, and its
    date can be read. *)
Definition is_valid_review (r : Row) : bool :=
  is_some (Country r) && rating_in_range (Rating r) && is_some (Content r)
  && notna_date (coerce (Date r)).

(** A record with its date read. *)
Definition parse_Date (r : Row) : Row := set_Date (coerce (Date r)) r.

(** The sum of the counts of a [value_counts] dict. *)
Definition total_count {K : Type} (d : list (K * nat)) : nat :=
  fold_right Nat.add 0%nat (map snd d).

(** The counts of a dict never increase from one entry to the next. *)
Fixpoint descending {K : Type} (d : list (K * nat)) : Prop :=
  match d with
  | [] => True
  | kv :: d' =>
      match d' with
      | [] => True
      | kv' :: _ => (snd kv' <= snd kv)%nat
      end /\ descending d'
  end.

(** The number of records that carry a rating. *)
Definition rated (df : DataFrame) : nat :=
  length (List.filter (fun r => is_some (Rating r)) (records df)).

(** Every record of the frame carries a timestamp, as after cleaning. *)
Definition all_dated (df : DataFrame) : Prop :=
  forall r, In r (records df) -> notna_date (Date r) = true.

(** Every record of the frame carries a rating between 1 and 5, as after
    cleaning. *)
Definition all_rated (df : DataFrame) : Prop :=
  forall r, In r (records df) -> rating_in_range (Rating r) = true.

(** ** The other endpoints of src/api.py

    As in [compare_periods], [raw_data] is what [pd.read_csv] returned to
    [load_data], or the exception it raised. *)

(** The responses of [GET /api/data/status]: status "success" with the
    statistics, or the [HTTPException] with status 500. *)
Inductive StatusResponse : Type :=
| StatusSuccess (data_stats : DataStats)
| StatusHTTP500.

(** [get_data_status]: every exception becomes a 500. *)
Definition get_data_status (raw_data : Outcome DataFrame) : StatusResponse :=
  match (raw ← raw_data;
         df ← _clean_data raw;
         get_data_stats df) with
  | Ok stats => StatusSuccess stats
  | Raise _ => StatusHTTP500
  end.

(** The responses of [GET /api/data/date-range]; the two dates are days,
    [None] for an empty frame. *)
Inductive DateRangeResponse : Type :=
| DateRangeSuccess (min_date max_date : option Z)
| DateRangeHTTP500.

(** [get_date_range]: [df['Date'].min().strftime(...) if not df.empty
    else None]; [NaT.strftime] raises. *)
Definition get_date_range (raw_data : Outcome DataFrame) : DateRangeResponse :=
  match (raw ← raw_data;
         df ← _clean_data raw;
         if empty df then Ok (None, None)
         else
           match timestamps df with
           | t :: ts => Ok (Some (day_of (min_list t ts)), Some (day_of (max_list t ts)))
           | [] => Raise ValueError
           end) with
  | Ok (min_date, max_date) => DateRangeSuccess min_date max_date
  | Raise _ => DateRangeHTTP500
  end.

(** The responses of [GET /api/period-analysis].
    - [PeriodWarning n]: status "warning", the review count and
      [analysis_result = {"warning": "資料量不足"}];
    - [PeriodSuccess]: status "success" with the analysis of the period;
    - [PeriodHTTP400], [PeriodHTTP500]: the two [HTTPException]s. *)
Inductive PeriodResponse : Type :=
| PeriodWarning (review_count : nat)
| PeriodSuccess (period_info : PeriodInfo)
| PeriodHTTP400
| PeriodHTTP500.

(** [analyze_single_period]; [schedule] is the completion order of the
    classification batch. *)
Definition analyze_single_period (raw_data : Outcome DataFrame)
  (sentiment_analyzer : SentimentAnalyzer) (schedule : list nat)
  (start_date end_date : string) : PeriodResponse :=
  match (
    raw ← raw_data;
    df ← _clean_data raw;
    df_period ← filter_by_date_range (Some df) start_date end_date;
    if (len df_period <? 10)%nat
    then Ok (PeriodWarning (len df_period))
    else
      let df_period_with_sentiment :=
        analyze_dataframe sentiment_analyzer schedule df_period in
      period_stats ← get_data_stats df_period_with_sentiment;
      through (analyze_review_volume df_period_with_sentiment)
        (fun period_volume df_period_with_sentiment =>
      period_sentiment ← analyze_sentiment_distribution df_period_with_sentiment;
      through (analyze_sentiment_trend df_period_with_sentiment)
        (fun period_trend df_period_with_sentiment =>
      let period_topics := analyze_topics df_period_with_sentiment 20 in
      Ok (PeriodSuccess
            {| review_count := len df_period; stats := period_stats;
               volume := period_volume; sentiment_info := period_sentiment;
               trend := period_trend; topics := period_topics |})))) with
  | Ok response => response
  | Raise ValueError => PeriodHTTP400
  | Raise _ => PeriodHTTP500
  end.

(** The formats for which a report is written. *)
Definition report_formats : list string := ["json"; "text"; "html"].

(** ** Vocabulary for the period statistics *)

(** The calendar days from [lo] to [hi], both included. *)
Definition days_from_to (lo hi : Z) : list Z :=
  map (fun k => lo + Z.of_nat k) (seq 0 (Z.to_nat (hi - lo + 1))).

(** The timestamps of the records whose date can be read. *)
Definition readable_dates (df : DataFrame) : list Z := timestamps (coerce_Date df).

(** The number of those that fall on day [d]. *)
Definition reviews_on (df : DataFrame) (d : Z) : nat :=
  length (List.filter (fun t => (day_of t =? d)%Z) (readable_dates df)).

(** The words [analyze_topics] counts: the words of the lower-cased
    texts that are no stop words and longer than two characters. *)
Definition all_words (df : DataFrame) : list string :=
  flat_map (fun text => List.filter keep_word (split text))
           (map (fun ir : Z * Row => topic_text (columns df) (snd ir)) (rows df)).



(** [strictly_ascending l]: the days of [l] increase from one entry to
    the next. *)
Fixpoint strictly_ascending (l : list Z) : Prop :=
  match l with
  | [] => True
  | d :: l' =>
      match l' with
      | [] => True
      | d' :: _ => d < d'
      end /\ strictly_ascending l'
  end.

(** ** Vocabulary for the comparison *)

(** Two floats that are opposite numbers, or both [nan]. *)
Definition opposite (x y : pyfloat) : Prop :=
  match x, y with
  | Fin a, Fin b => (b == - a)%Q
  | NaN, NaN => True
  | _, _ => False
  end.

(** The kinds of insight on the review volume. *)
Definition is_volume_up_insight (i : Insight) : bool :=
  match i with VolumeSurge _ | VolumeRise _ => true | _ => false end.

Definition is_volume_down_insight (i : Insight) : bool :=
  match i with VolumeCollapse _ | VolumeDip _ => true | _ => false end.

Definition is_stable_data (i : Insight) : bool :=
  match i with StableData => true | _ => false end.

(** The insights contain a statement of the given kind. *)
Definition notes (kind : Insight -> bool) (insights : list Insight) : Prop :=
  exists i, In i insights /\ kind i = true.

(** Every dated record of the frame is stamped at midnight. *)
Definition at_midnight (df : DataFrame) : Prop :=
  forall t, In t (readable_dates df) -> t mod NS_PER_DAY = 0.

(* ================================================================== *)
(** * Further sample data *)
(* ================================================================== *)

(** A review file of 25 lines: eleven reviews in the first days of
    January 2025, a line with a rating out of range, a line whose date
    cannot be read, and twelve reviews of 2025-01-07. *)
Definition review_file : DataFrame :=
  {| columns := csv_columns;
     rows := imap (fun k r => (Z.of_nat k, r))
               (replicate 6 (csv_review "2025-01-02" 5 "1.1.0" "Great game" "I love it")
                ++ replicate 5 (csv_review "2025-01-04" 2 "1.1.0" "Terrible" "It crashes")
                ++ [csv_review "2025-01-05" 9 "1.1.0" "Odd" "A rating out of range";
                    csv_review "soon" 4 "1.1.0" "Undated" "No date to read"]
                ++ replicate 12 (csv_review "2025-01-07" 4 "1.1.1" "Average" "It is okay")) |}.

(** The same file after cleaning. *)
Definition loaded_reviews : DataFrame :=
  {| columns := csv_columns;
     rows := imap (fun k r => (Z.of_nat k, r))
               (replicate 6 (review 20090 5 "1.1.0" "Great game" "I love it")
                ++ replicate 5 (review 20092 2 "1.1.0" "Terrible" "It crashes")
                ++ replicate 12 (review 20095 4 "1.1.1" "Average" "It is okay")) |}.

(** Its reviews of the first and of the second period of
    [january_request]. *)
Definition early_reviews : DataFrame :=
  {| columns := csv_columns; rows := take 11 (rows loaded_reviews) |}.

Definition later_reviews : DataFrame :=
  {| columns := csv_columns; rows := drop 11 (rows loaded_reviews) |}.

(** The completion orders of the two batches: in order of submission. *)
Definition in_order (n : nat) : list nat := seq 0 n.

(** A request whose first date is no date, and one that asks for a
    format without a writer. *)
Definition vague_request : ComparisonRequest :=
  {| period1_start := "yesterday"; period1_end := "2025-01-05";
     period2_start := "2025-01-06"; period2_end := "2025-01-10";
     period1_name := "Period 1"; period2_name := "Period 2";
     output_format := "json" |}.

Definition pdf_request : ComparisonRequest :=
  {| period1_start := "2025-01-01"; period1_end := "2025-01-05";
     period2_start := "2025-01-06"; period2_end := "2025-01-10";
     period1_name := "Period 1"; period2_name := "Period 2";
     output_format := "PDF" |}.

(** Two reviews of 2025-01-05: one stamped at midnight, one at 18:00. *)
Definition morning_review : Row :=
  review 20093 4 "1.1.0" "Morning" "Stamped at midnight".

Definition evening_review : Row :=
  set_Date (Timestamp (20093 * NS_PER_DAY + 18 * 3600 * 1000000000))
           (review 20093 4 "1.1.0" "Evening" "Stamped at six").

Definition last_day_reviews : DataFrame :=
  {| columns := csv_columns; rows := [(0, morning_review); (1, evening_review)] |}.



(** Two frames put together without relabelling: both records carry the
    label 0. *)
Definition merged_reviews : DataFrame :=
  {| columns := csv_columns;
     rows := [(0, review 20090 5 "1.1.0" "Great game" "I love it");
              (0, review 20091 2 "1.1.0" "Terrible" "It crashes")] |}.

(* ================================================================== *)
(** * The names of the report files (src/report_generator.py) *)
(* ================================================================== *)

(** A Python [str] as the list of its code points: the functions below
    slice by position, and the period names need not be ASCII. *)
Definition pystr : Type := list N.

(** An ASCII literal. *)
Definition str (s : string) : pystr :=
  map (fun c => N.of_nat (nat_of_ascii c)) (list_ascii_of_string s).

(** [s.endswith(suffix)] *)
Definition endswith (s suffix : pystr) : bool :=
  bool_decide (drop (length s - length suffix) s = suffix).

(** [s.startswith(prefix)] *)
Definition startswith (s prefix : pystr) : bool :=
  bool_decide (take (length prefix) s = prefix).

(** [needle in hay] *)
Fixpoint contains (needle hay : pystr) : bool :=
  startswith hay needle
  || match hay with
     | [] => false
     | _ :: hay' => contains needle hay'
     end.

(** [s.lower()] and [s.upper()], on the ASCII range. *)
Definition lower_code (c : N) : N :=
  if (65 <=? c)%N && (c <=? 90)%N then (c + 32)%N else c.

Definition upper_code (c : N) : N :=
  if (97 <=? c)%N && (c <=? 122)%N then (c - 32)%N else c.

Definition pylower (s : pystr) : pystr := map lower_code s.
Definition pyupper (s : pystr) : pystr := map upper_code s.

(** [d.get(key, default)] for a dictionary written as a literal. *)
Definition literal_get (d : list (pystr * pystr)) (key default : pystr) : pystr :=
  match List.find (fun kv => bool_decide (fst kv = key)) d with
  | Some kv => snd kv
  | None => default
  end.

(** The characters the pattern of [re.sub] removes: backslash, slash,
    star, question mark, colon, double quote, less-than, greater-than
    and the vertical bar. *)
Definition forbidden : pystr := [92; 47; 42; 63; 58; 34; 60; 62; 124]%N.

Definition is_forbidden (c : N) : bool := existsb (N.eqb c) forbidden.

(** The closure [simplify_name]: the first two characters, without the
    characters a file name must not hold. *)
Definition simplify_name (name : pystr) : pystr :=
  let short_name := if (2 <=? length name)%nat then take 2 name else name in
  List.filter (fun c => negb (is_forbidden c)) short_name.

(** The closure [simplify_date]: "YYYY-MM-DD" becomes "MMDD"; a missing,
    empty or shorter value is returned as it is. *)
Definition simplify_date (date_str : option pystr) : option pystr :=
  match date_str with
  | Some s =>
      if negb (bool_decide (s = [])) && (10 <=? length s)%nat
      then Some (take 2 (drop 5 s) ++ take 2 (drop 8 s))
      else date_str
  | None => None
  end.

(** A value inside an f-string: [None] prints as "None". *)
Definition formatted (v : option pystr) : pystr :=
  match v with
  | Some s => s
  | None => str "None"
  end.

(** The literals of the function that are not ASCII: "評分", "情感",
    "趨勢", "每日" and the four kinds of chart "評分圖", "情感圖",
    "趨勢圖", "圖表". *)
Definition word_rating : pystr := [35413; 20998]%N.
Definition word_sentiment : pystr := [24773; 24863]%N.
Definition word_trend : pystr := [36264; 21218]%N.
Definition word_daily : pystr := [27599; 26085]%N.
Definition rating_chart : pystr := [35413; 20998; 22294]%N.
Definition sentiment_chart : pystr := [24773; 24863; 22294]%N.
Definition trend_chart : pystr := [36264; 21218; 22294]%N.
Definition other_chart : pystr := [22294; 34920]%N.

(** The dictionary of the abbreviations of the kinds of file. *)
Definition abbreviations : list (pystr * pystr) :=
  [(str "html", str "HTML"); (str "json", str "JSON");
   (str "txt", str "TXT"); (str "png", str "IMG")].

(** The abbreviation of the kind of file: the dictionary, then the
    special treatment of the pictures. *)
Definition type_abbr (extension description : pystr) : pystr :=
  let type_abbr := literal_get abbreviations (pylower extension) (pyupper extension) in
  if bool_decide (pylower extension = str "png") then
    if contains word_rating description then rating_chart
    else if contains word_sentiment description then sentiment_chart
    else if contains word_trend description || contains word_daily description
         then trend_chart
         else other_chart
  else type_abbr.

(** The entry of one period in [comparison_result["time_periods"]], as
    the report generator reads it. *)
Record PeriodDates : Type := mkDates {
  start_date_str : option pystr;
  end_date_str : option pystr
}.

(** [_generate_filename].  [time_periods] is
    [comparison_result["time_periods"]], [None] when the result has no
    such key; [now] is [datetime.now().strftime('%m%d%H%M')]. *)
Definition _generate_filename (time_periods : option (gmap pystr PeriodDates))
  (period1_name period2_name extension description now : pystr) : Outcome pystr :=
  match time_periods with
  | None => Raise KeyError
  | Some periods =>
      match periods !! period1_name, periods !! period2_name with
      | Some p1_info, Some p2_info =>
          let p1_short := simplify_name period1_name in
          let p2_short := simplify_name period2_name in
          let p1_start := simplify_date (start_date_str p1_info) in
          let p1_end := simplify_date (end_date_str p1_info) in
          let p2_start := simplify_date (start_date_str p2_info) in
          let p2_end := simplify_date (end_date_str p2_info) in
          Ok (str "PTCG_" ++ p1_short ++ formatted p1_start ++ str "-"
              ++ formatted p1_end ++ str "_vs_" ++ p2_short ++ formatted p2_start
              ++ str "-" ++ formatted p2_end ++ str "_"
              ++ type_abbr extension description ++ str "_" ++ now ++ str "."
              ++ extension)
      | _, _ => Raise KeyError
      end
  end.

(** The descriptions the report writers pass: "JSON報告", "文字報告",
    "HTML報告". *)
Definition json_description : pystr := [74; 83; 79; 78; 22577; 21578]%N.
Definition text_description : pystr := [25991; 23383; 22577; 21578]%N.
Definition html_description : pystr := [72; 84; 77; 76; 22577; 21578]%N.

(** The name of the file a report writer writes: the first lines of
    [generate_json_report], [generate_text_report] and
    [generate_html_report], which differ in the extension and the
    description only.  [filename] is the optional argument of the
    writer. *)
Definition report_filename (extension description : pystr)
  (time_periods : option (gmap pystr PeriodDates))
  (period1_name period2_name : pystr) (filename : option pystr) (now : pystr)
  : Outcome pystr :=
  filename ←
    match filename with
    | None => _generate_filename time_periods period1_name period2_name
                                 extension description now
    | Some given => Ok given
    end;
  Ok (if endswith filename (str "." ++ extension) then filename
      else filename ++ str "." ++ extension).

Definition json_report_filename := report_filename (str "json") json_description.
Definition text_report_filename := report_filename (str "txt") text_description.
Definition html_report_filename := report_filename (str "html") html_description.

(** The descriptions of the three placeholder charts that
    [generate_charts] draws for an empty frame:
    "rating_distribution圖表", "sentiment_distribution圖表" and
    "daily_review_trend圖表". *)
Definition placeholder_descriptions : list pystr :=
  [str "rating_distribution" ++ other_chart;
   str "sentiment_distribution" ++ other_chart;
   str "daily_review_trend" ++ other_chart].

(** A string without any of the forbidden characters, the two path
    separators among them. *)
Definition portable (s : pystr) : Prop :=
  forall c, In c s -> is_forbidden c = false.

(** The descriptions [generate_charts] passes for the three charts,
    "評分分佈圖", "情感分佈圖" and "每日評論趨勢圖", and the suffix
    "_錯誤" it appends for the chart drawn after a failure. *)
Definition chart_descriptions : list pystr :=
  [[35413; 20998; 20998; 20296; 22294];
   [24773; 24863; 20998; 20296; 22294];
   [27599; 26085; 35413; 35542; 36264; 21218; 22294]]%N.

Definition error_suffix : pystr := [95; 37679; 35492]%N.

(** ** [DataProcessor] as an object *)

(** The two attributes that [load_data] sets. *)
Record DataProcessor : Type := mkProcessor {
  raw_data : option DataFrame;
  processed_data : option DataFrame
}.

(** The processor [__init__] returns. *)
Definition new_processor : DataProcessor :=
  {| raw_data := None; processed_data := None |}.

(** [load_data]: [read_csv] is what [pd.read_csv] returns for the file
    (after the second attempt with another encoding, if the first
    failed to decode), or the exception it raises.  The result and the
    processor after the call. *)
Definition load_data (read_csv : Outcome DataFrame) (self : DataProcessor)
  : Outcome DataFrame * DataProcessor :=
  match read_csv with
  | Raise e => (Raise e, self)
  | Ok raw =>
      let self := {| raw_data := Some raw; processed_data := processed_data self |} in
      match _clean_data raw with
      | Raise e => (Raise e, self)
      | Ok cleaned =>
          (Ok cleaned, {| raw_data := raw_data self; processed_data := Some cleaned |})
      end
  end.

(** [get_data_stats(df=None)] as a method. *)
Definition get_data_stats_of (self : DataProcessor) (df : option DataFrame)
  : Outcome DataStats :=
  match df with
  | Some df => get_data_stats df
  | None =>
      match processed_data self with
      | None => Raise ValueError
      | Some df => get_data_stats df
      end
  end.

(** A processor on which [load_data] was called for each of the given
    reads in turn, whatever their outcome. *)
Definition after_loads (reads : list (Outcome DataFrame)) (self : DataProcessor)
  : DataProcessor :=
  fold_left (fun self read_csv => snd (load_data read_csv self)) reads self.

(** The frames that were read, and the frames that were read and
    cleaned, in the order of the calls. *)
Definition frames_read (reads : list (Outcome DataFrame)) : list DataFrame :=
  omap (fun read_csv => match read_csv with Ok raw => Some raw | Raise _ => None end)
       reads.

Definition frames_cleaned (reads : list (Outcome DataFrame)) : list DataFrame :=
  omap (fun read_csv => match read_csv ≫= _clean_data with
                        | Ok df => Some df
                        | Raise _ => None
                        end) reads.

(** The dates of two periods as [compare_time_periods] writes them; the
    name of the second period holds a path separator. *)
Definition sample_periods : gmap pystr PeriodDates :=
  <[str "A/B test" := {| start_date_str := Some (str "2025-02-01");
                         end_date_str := Some (str "2025-02-15") |}]>
  (<[str "before" := {| start_date_str := Some (str "2025-01-01");
                        end_date_str := Some (str "2025-01-15") |}]> ∅).

(* ================================================================== *)
(** * Proof conventions *)
(* ================================================================== *)

(** A proof that does not concern the externals starts by forgetting
    them, so that no automation drags them into the proof term. *)
Ltac drop_externals :=
  try clear generate_report; try clear corr; try clear std; try clear to_datetime.

Ltac open_outcome :=
  unfold mbind, Outcome_bind, through, respond, write_report.

Ltac split_matches :=
  repeat match goal with
         | |- context [match ?x with _ => _ end] => destruct x
         end.

(* ================================================================== *)
(** * Properties of [analyze_text] *)
(* ================================================================== *)

Lemma sentinel_label : In (label neutral_sentinel) sentiment_labels.
Proof. simpl. auto. Qed.

Lemma analyze_text_not_text self text :
  is_text text = false -> analyze_text self text = neutral_sentinel.
Proof.
  destruct text as [| s | | |]; simpl; try reflexivity.
  destruct (String.eqb s EmptyString); [reflexivity | discriminate].
Qed.

Lemma analyze_text_vader self polarity_scores text :
  analyzer self = VADER polarity_scores ->
  In (label (analyze_text self text)) sentiment_labels.
Proof.
  intros Hv. destruct text as [| s | | |]; simpl; auto.
  destruct (String.eqb s EmptyString); simpl; auto.
  rewrite Hv. destruct (polarity_scores s) as [c |]; simpl; auto.
  destruct (Qle_bool _ c); simpl; auto.
  destruct (Qle_bool c _); simpl; auto.
Qed.

Lemma analyze_text_transformers self pipeline s :
  analyzer self = Transformers pipeline ->
  s <> EmptyString ->
  analyze_text self (PyStr s) =
    match pipeline (substring 0 512 s) with
    | Some (l, sc) => {| label := lower l; score := sc |}
    | None => neutral_sentinel
    end.
Proof.
  intros Ht Hs. simpl. destruct (String.eqb_spec s EmptyString); [contradiction |].
  rewrite Ht. reflexivity.
Qed.

(** C3, as stated, fails: under the model strategy the label is the
    lower-cased label of the external model, whatever its vocabulary.  A
    pipeline that answers "LABEL_1" yields the label "label_1". *)
Lemma analyze_text_label_counterexample :
  ~ (forall self text, In (label (analyze_text self text)) sentiment_labels).
Proof.
  intros H.
  specialize (H {| analyzer := Transformers (fun _ => Some ("LABEL_1", 9 # 10)%Q);
                   neutral_threshold := (15 # 100)%Q |}
                (PyStr "good game")).
  simpl in H. intuition discriminate.
Qed.

(** C3 (amended): for every input, [analyze_text] returns a label and a
    rational score; an empty, absent or non-string input yields exactly
    [{neutral, 0.5}] under both strategies; under the lexicon strategy the
    label is one of positive, neutral, negative; under the model strategy
    the result is the sentinel when the model raises and otherwise the
    model's score with the model's label lower-cased, which is one of the
    three exactly when that lower-cased label is. *)
Theorem analyze_text_result (self : SentimentAnalyzer) (text : pyvalue) :
  (is_text text = false -> analyze_text self text = neutral_sentinel)
  /\ (use_transformers self = false ->
      In (label (analyze_text self text)) sentiment_labels)
  /\ (forall pipeline s,
        analyzer self = Transformers pipeline -> text = PyStr s ->
        is_text text = true ->
        (pipeline (substring 0 512 s) = None
         /\ analyze_text self text = neutral_sentinel)
        \/ (exists l sc,
              pipeline (substring 0 512 s) = Some (l, sc)
              /\ analyze_text self text = {| label := lower l; score := sc |})).
Proof.
  split; [apply analyze_text_not_text |]. split.
  - unfold use_transformers. destruct (analyzer self) as [ps | pipe] eqn:Ha;
      [intros _ | discriminate].
    eapply analyze_text_vader; eauto.
  - intros pipeline s Ha -> Ht. simpl in Ht.
    assert (Hs : s <> EmptyString).
    { intros ->. discriminate. }
    rewrite (analyze_text_transformers _ _ _ Ha Hs).
    destruct (pipeline (substring 0 512 s)) as [[l sc] |]; eauto.
Qed.

(* ================================================================== *)
(** * Properties of the batch classification *)
(* ================================================================== *)

Lemma attached_set_sentiment r row : attached (set_sentiment r row) = Some r.
Proof. destruct r. reflexivity. Qed.

Lemma collect_settle i o : collect (i, o) = (i, settle o).
Proof. destruct o; reflexivity. Qed.

Lemma as_completed_from {A : Type} (l pre : list A) :
  as_completed (pre ++ l) (seq (length pre) (length l)) = l.
Proof.
  unfold as_completed. revert pre.
  induction l as [| x l IH]; intros pre; [reflexivity |].
  simpl. rewrite list_lookup_middle by reflexivity. simpl. f_equal.
  specialize (IH (pre ++ [x])).
  rewrite <- app_assoc, length_app, Nat.add_comm in IH. exact IH.
Qed.

Lemma as_completed_all {A : Type} (l : list A) :
  as_completed l (seq 0 (length l)) = l.
Proof. apply (as_completed_from l []). Qed.

Lemma as_completed_perm {A : Type} (l : list A) (schedule : list nat) :
  Permutation schedule (seq 0 (length l)) ->
  Permutation (as_completed l schedule) l.
Proof.
  intros Hp. rewrite <- (as_completed_all l) at 2.
  unfold as_completed. apply omap_Permutation. exact Hp.
Qed.

Lemma rows_integrate results d :
  rows (integrate d results) =
  map (fun ir => fold_left (fun x res => at_set_row (fst res) (snd res) x) results ir)
      (rows d).
Proof.
  unfold integrate. revert d.
  induction results as [| res results IH]; intros d; simpl.
  - symmetry. apply map_id.
  - rewrite IH. simpl. rewrite map_map. reflexivity.
Qed.

Lemma columns_integrate results d :
  results <> [] ->
  columns (integrate d results) = add_sentiment_columns (columns d).
Proof.
  unfold integrate. revert d.
  induction results as [| res results IH]; intros d Hne; [contradiction |].
  simpl. destruct results as [| res' results'].
  - reflexivity.
  - rewrite IH by discriminate. reflexivity.
Qed.

Lemma fold_at_set_row_fst results ir :
  fst (fold_left (fun x res => at_set_row (fst res) (snd res) x) results ir) = fst ir.
Proof.
  revert ir. induction results as [| res results IH]; intros ir; simpl; [reflexivity |].
  rewrite IH. unfold at_set_row. destruct (Z.eqb _ _); reflexivity.
Qed.

Lemma fold_at_set_row_absent results ir :
  ~ In (fst ir) (map fst results) ->
  fold_left (fun x res => at_set_row (fst res) (snd res) x) results ir = ir.
Proof.
  revert ir. induction results as [| res results IH]; intros ir Hn; simpl; [reflexivity |].
  simpl in Hn. unfold at_set_row at 2.
  destruct (Z.eqb_spec (fst ir) (fst res)) as [E | E].
  - exfalso. apply Hn. left. symmetry. exact E.
  - apply IH. intros Hin. apply Hn. right. exact Hin.
Qed.

(** With pairwise distinct labels among the results, the row labelled
    [i] ends up with the one result tagged [i]. *)
Lemma fold_at_set_row_present results i row r :
  NoDup (map fst results) ->
  In (i, r) results ->
  fold_left (fun x res => at_set_row (fst res) (snd res) x) results (i, row)
  = (i, set_sentiment r row).
Proof.
  revert row. induction results as [| res results IH]; intros row Hnd Hin; [destruct Hin |].
  simpl in Hnd. apply NoDup_cons in Hnd as [Hfresh Hnd].
  destruct Hin as [-> | Hin]; simpl.
  - unfold at_set_row at 2. simpl. rewrite Z.eqb_refl.
    apply fold_at_set_row_absent. simpl.
    intros Hin. apply Hfresh. apply list_elem_of_In. exact Hin.
  - unfold at_set_row at 2. simpl.
    destruct (Z.eqb_spec i (fst res)) as [E | E].
    + exfalso. apply Hfresh. apply list_elem_of_In. subst i.
      apply (in_map fst) in Hin. exact Hin.
    + apply IH; assumption.
Qed.

(** The frame [run_batch] returns, whatever the completion order: every
    row keeps its place and its label and carries the settled result of
    its own unit of work. *)
Lemma rows_run_batch work schedule df :
  NoDup (index df) ->
  complete_schedule schedule df ->
  rows (run_batch work schedule df) = map (attach work) (rows df).
Proof.
  intros Hnd Hp. unfold run_batch.
  destruct (empty df) eqn:He.
  - unfold empty in He. destruct (rows df); [reflexivity | discriminate].
  - rewrite rows_integrate. apply map_ext_in. intros [i row] Hin.
    assert (Hperm : Permutation (map collect (as_completed (submit_all work df) schedule))
                                (map (fun ir : Z * Row => (fst ir, settle (work (snd ir))))
                                     (rows df))).
    { etransitivity.
      - apply Permutation_map. apply as_completed_perm.
        unfold submit_all. rewrite length_map. exact Hp.
      - unfold submit_all. rewrite map_map.
        erewrite map_ext; [reflexivity |].
        intros [j rw]. simpl. apply collect_settle. }
    unfold attach. simpl.
    apply fold_at_set_row_present.
    + rewrite Hperm, map_map. simpl. exact Hnd.
    + eapply Permutation_in; [symmetry; exact Hperm |].
      apply in_map_iff. exists (i, row). split; [reflexivity | exact Hin].
Qed.

Lemma columns_run_batch work schedule df :
  complete_schedule schedule df ->
  columns (run_batch work schedule df) =
  if empty df then columns df else add_sentiment_columns (columns df).
Proof.
  intros Hp. unfold run_batch. destruct (empty df) eqn:He; [reflexivity |].
  apply columns_integrate. intros Hnil.
  apply map_eq_nil in Hnil.
  assert (Hperm := as_completed_perm (submit_all work df) schedule).
  unfold submit_all in *. rewrite length_map in Hperm. specialize (Hperm Hp).
  rewrite Hnil in Hperm. apply Permutation_nil in Hperm.
  apply map_eq_nil in Hperm. unfold empty in He. rewrite Hperm in He. discriminate.
Qed.

Lemma len_run_batch work schedule df :
  NoDup (index df) -> complete_schedule schedule df ->
  len (run_batch work schedule df) = len df.
Proof.
  intros Hnd Hp. unfold len. rewrite rows_run_batch by assumption.
  apply length_map.
Qed.

Lemma index_run_batch work schedule df :
  NoDup (index df) -> complete_schedule schedule df ->
  index (run_batch work schedule df) = index df.
Proof.
  intros Hnd Hp. unfold index. rewrite rows_run_batch by assumption.
  rewrite map_map. reflexivity.
Qed.

Lemma analyze_row_ok self cols row :
  analyze_row self cols row = Ok (classify_record self cols row).
Proof.
  unfold analyze_row, classify_record.
  destruct (String.eqb _ _); reflexivity.
Qed.

Lemma same_review_set_sentiment r row : same_review (set_sentiment r row) row.
Proof. repeat split. Qed.

Lemma lookup_run_batch work schedule df k i row :
  NoDup (index df) -> complete_schedule schedule df ->
  rows df !! k = Some (i, row) ->
  rows (run_batch work schedule df) !! k
  = Some (i, set_sentiment (settle (work row)) row).
Proof.
  intros Hnd Hp Hk. rewrite rows_run_batch by assumption.
  change (map (attach work) (rows df)) with (attach work <$> rows df).
  rewrite list_lookup_fmap, Hk. reflexivity.
Qed.



Lemma analyze_text_recovers self s :
  scorer_raises self s -> analyze_text self (PyStr s) = neutral_sentinel.
Proof.
  unfold scorer_raises. simpl. intros H.
  destruct (String.eqb s EmptyString); [reflexivity |].
  destruct (analyzer self); rewrite H; reflexivity.
Qed.

Lemma classify_record_recovers self cols row :
  scorer_raises self (combined_text cols row) ->
  classify_record self cols row = neutral_sentinel.
Proof.
  intros H. unfold classify_record.
  destruct (String.eqb _ _); [reflexivity |].
  apply analyze_text_recovers. exact H.
Qed.

(** C8: a failure while one record is classified stays with that record.
    For every unit of work [work] (which may raise), every record set
    with distinct labels and every completion order, the batch returns a
    frame of the same cardinality in which each record carries the
    settled result of its own unit of work: the sentinel if that unit
    raised, and a result that is untouched by what the unit does on other
    records.  For the classifier itself, a scorer that raises on a text
    makes [analyze_text] return the sentinel, and the batch attaches the
    sentinel to that record. *)
Theorem batch_isolates_failures
  (self : SentimentAnalyzer) (work : Row -> Outcome SentimentResult)
  (schedule : list nat) (df : DataFrame) :
  NoDup (index df) ->
  complete_schedule schedule df ->
  len (run_batch work schedule df) = len df
  /\ (forall k i row,
        rows df !! k = Some (i, row) ->
        exists row',
          rows (run_batch work schedule df) !! k = Some (i, row')
          /\ same_review row' row
          /\ (forall e, work row = Raise e -> attached row' = Some neutral_sentinel)
          /\ (forall r, work row = Ok r -> attached row' = Some r)
          /\ (forall work',
                work' row = work row ->
                rows (run_batch work' schedule df) !! k = Some (i, row')))
  /\ (forall s, scorer_raises self s ->
                analyze_text self (PyStr s) = neutral_sentinel)
  /\ (forall k i row,
        rows df !! k = Some (i, row) ->
        scorer_raises self (combined_text (columns df) row) ->
        exists row',
          rows (analyze_dataframe self schedule df) !! k = Some (i, row')
          /\ attached row' = Some neutral_sentinel).
Proof.
  intros Hnd Hp. split; [| split; [| split]].
  - apply len_run_batch; assumption.
  - intros k i row Hk. eexists. split; [apply lookup_run_batch; eassumption |].
    split; [apply same_review_set_sentiment |].
    split; [| split].
    + intros e He. rewrite He. apply attached_set_sentiment.
    + intros r Hr. rewrite Hr. apply attached_set_sentiment.
    + intros work' Hw. rewrite <- Hw. apply lookup_run_batch; assumption.
  - apply analyze_text_recovers.
  - intros k i row Hk Hraise. eexists. split.
    + unfold analyze_dataframe. apply lookup_run_batch; eassumption.
    + rewrite analyze_row_ok. simpl.
      rewrite classify_record_recovers by exact Hraise.
      apply attached_set_sentiment.
Qed.

(* ================================================================== *)
(** * The admission gate of the comparison endpoint *)
(* ================================================================== *)

(** ** The frames the endpoint classifies have pairwise distinct labels *)

Lemma index_reset_index df :
  index (reset_index df) = map Z.of_nat (seq 0 (len df)).
Proof.
  unfold index, reset_index, len. simpl.
  change (map fst ?l) with (fst <$> l).
  rewrite fmap_imap.
  exact (imap_seq_0 (rows df) Z.of_nat).
Qed.

Lemma NoDup_index_reset_index df : NoDup (index (reset_index df)).
Proof.
  rewrite index_reset_index.
  apply (NoDup_fmap_2 Z.of_nat). apply NoDup_seq.
Qed.

Lemma NoDup_index_filter (keep : Z * Row -> bool) (rs : list (Z * Row)) :
  NoDup (map fst rs) -> NoDup (map fst (List.filter keep rs)).
Proof.
  induction rs as [| ir rs IH]; simpl; [trivial |].
  intros Hnd. apply NoDup_cons in Hnd as [Hfresh Hnd].
  destruct (keep ir); simpl; [| apply IH; exact Hnd].
  apply NoDup_cons. split; [| apply IH; exact Hnd].
  intros Hin. apply Hfresh.
  apply list_elem_of_In in Hin. apply list_elem_of_In.
  apply in_map_iff in Hin as (ir' & Hfst & Hin').
  apply filter_In in Hin' as [Hin' _].
  apply in_map_iff. exists ir'. split; assumption.
Qed.

Lemma clean_data_distinct_labels raw df :
  _clean_data raw = Ok df -> NoDup (index df).
Proof.
  unfold _clean_data. destruct (negb _); [discriminate |].
  intros [= <-]. apply NoDup_index_reset_index.
Qed.

Lemma filter_by_date_range_distinct_labels data start_date end_date p :
  NoDup (index data) ->
  filter_by_date_range (Some data) start_date end_date = Ok p ->
  NoDup (index p).
Proof.
  unfold filter_by_date_range. intros Hnd.
  destruct (to_datetime start_date); [| discriminate].
  destruct (to_datetime end_date); [| discriminate].
  intros [= <-]. unfold index. simpl. apply NoDup_index_filter. exact Hnd.
Qed.

Lemma periods_have_distinct_labels raw_data request p1 p2 :
  periods_of raw_data request p1 p2 -> NoDup (index p1) /\ NoDup (index p2).
Proof.
  intros (raw & df & _ & Hc & H1 & H2).
  pose proof (clean_data_distinct_labels raw df Hc) as Hnd.
  split; eapply filter_by_date_range_distinct_labels; eassumption.
Qed.

Lemma len_integrate d results : len (integrate d results) = len d.
Proof. unfold len. rewrite rows_integrate. apply length_map. Qed.

Lemma len_analyze_dataframe self schedule df :
  len (analyze_dataframe self schedule df) = len df.
Proof.
  unfold analyze_dataframe, run_batch.
  destruct (empty df); [reflexivity | apply len_integrate].
Qed.

Lemma empty_len df : empty df = true <-> len df = 0%nat.
Proof.
  unfold empty, len. destruct (rows df); simpl; split; congruence.
Qed.

Lemma compare_time_periods_not_insufficient df1 df2 name1 name2 :
  empty df1 = false -> empty df2 = false ->
  fst (compare_time_periods df1 df2 name1 name2) <> Ok Insufficient.
Proof.
  intros E1 E2. unfold compare_time_periods. rewrite E1, E2. simpl.
  open_outcome. split_matches; simpl; discriminate.
Qed.

Lemma compare_periods_below raw_data sa s1 s2 request p1 p2 :
  periods_of raw_data request p1 p2 ->
  ((len p1 <? 10)%nat || (len p2 <? 10)%nat = true) ->
  compare_periods raw_data sa s1 s2 request = Warning (len p1) (len p2).
Proof.
  intros (raw & df & -> & Hc & H1 & H2) Hlt.
  unfold compare_periods. open_outcome.
  rewrite Hc, H1, H2, Hlt. reflexivity.
Qed.

Lemma len_coerce_Date df : len (coerce_Date df) = len df.
Proof. unfold len, coerce_Date. simpl. apply length_map. Qed.

Lemma len_ensure_datetime df : len (snd (ensure_datetime df)) = len df.
Proof.
  unfold ensure_datetime. destruct (is_datetime64_dtype df); simpl;
    [reflexivity | apply len_coerce_Date].
Qed.

Lemma caller_frame_volume df :
  snd (analyze_review_volume df) = if empty df then df else snd (ensure_datetime df).
Proof.
  unfold analyze_review_volume. destruct (empty df); [reflexivity |].
  destruct (ensure_datetime df) as [local caller]. simpl.
  destruct (size_by_day local); reflexivity.
Qed.

Lemma caller_frame_trend df :
  snd (analyze_sentiment_trend df) =
  if empty df || negb (has_sentiment_label (columns df)) then df
  else snd (ensure_datetime df).
Proof.
  unfold analyze_sentiment_trend.
  destruct (empty df || negb (has_sentiment_label (columns df))); [reflexivity |].
  destruct (ensure_datetime df) as [local caller]. simpl.
  destruct (negb (has_sentiment_score (columns local))); [reflexivity |].
  destruct (mean_by_day local); [reflexivity |].
  destruct (valid_entries _); reflexivity.
Qed.

Lemma len_after_volume df : len (snd (analyze_review_volume df)) = len df.
Proof.
  rewrite caller_frame_volume. destruct (empty df);
    [reflexivity | apply len_ensure_datetime].
Qed.

Lemma len_after_trend df : len (snd (analyze_sentiment_trend df)) = len df.
Proof.
  rewrite caller_frame_trend. destruct (_ || _);
    [reflexivity | apply len_ensure_datetime].
Qed.

Lemma nonempty_len df : (0 < len df)%nat -> empty df = false.
Proof.
  intros H. destruct (empty df) eqn:E; [| reflexivity].
  apply empty_len in E. lia.
Qed.

Lemma compare_periods_at_or_above raw_data sa s1 s2 request p1 p2 :
  periods_of raw_data request p1 p2 ->
  ((len p1 <? 10)%nat || (len p2 <? 10)%nat = false) ->
  (forall n1 n2, compare_periods raw_data sa s1 s2 request <> Warning n1 n2)
  /\ (forall i1 i2 c path,
        compare_periods raw_data sa s1 s2 request = Success i1 i2 c path ->
        c <> Insufficient).
Proof.
  intros (raw & df & -> & Hc & H1 & H2) Hge.
  apply orb_false_iff in Hge as [G1 G2].
  unfold compare_periods. open_outcome.
  rewrite Hc, H1, H2, G1, G2. simpl.
  apply Nat.ltb_ge in G1, G2.
  set (a1 := analyze_dataframe sa s1 p1).
  set (a2 := analyze_dataframe sa s2 p2).
  assert (L1 : (0 < len a1)%nat) by (subst a1; rewrite len_analyze_dataframe; lia).
  assert (L2 : (0 < len a2)%nat) by (subst a2; rewrite len_analyze_dataframe; lia).
  clearbody a1 a2.
  destruct (get_data_stats a1) as [st1 | e];
    [| split; [intros n1 n2 | intros i1 i2 c' path]; destruct e; discriminate].
  destruct (get_data_stats a2) as [st2 | e];
    [| split; [intros n1 n2 | intros i1 i2 c' path]; destruct e; discriminate].
  rewrite <- (len_after_volume a1) in L1.
  rewrite <- (len_after_volume a2) in L2.
  destruct (analyze_review_volume a1) as [[v1 | e] d1];
    [| split; [intros n1 n2 | intros i1 i2 c' path]; destruct e; discriminate].
  destruct (analyze_review_volume a2) as [[v2 | e] d2];
    [| split; [intros n1 n2 | intros i1 i2 c' path]; destruct e; discriminate].
  simpl in L1, L2.
  destruct (analyze_sentiment_distribution d1) as [sd1 | e];
    [| split; [intros n1 n2 | intros i1 i2 c' path]; destruct e; discriminate].
  destruct (analyze_sentiment_distribution d2) as [sd2 | e];
    [| split; [intros n1 n2 | intros i1 i2 c' path]; destruct e; discriminate].
  rewrite <- (len_after_trend d1) in L1.
  rewrite <- (len_after_trend d2) in L2.
  destruct (analyze_sentiment_trend d1) as [[t1 | e] d1'];
    [| split; [intros n1 n2 | intros i1 i2 c' path]; destruct e; discriminate].
  destruct (analyze_sentiment_trend d2) as [[t2 | e] d2'];
    [| split; [intros n1 n2 | intros i1 i2 c' path]; destruct e; discriminate].
  simpl in L1, L2.
  assert (Hc' := compare_time_periods_not_insufficient d1' d2'
                   (period1_name request) (period2_name request)
                   (nonempty_len _ L1) (nonempty_len _ L2)).
  destruct (compare_time_periods d1' d2' _ _) as [[c | e] dfs]; simpl in Hc' |- *;
    [| split; [intros n1 n2 | intros i1 i2 c' path]; destruct e; discriminate].
  destruct (generate_report (lower (output_format request)) c) as [path' | e];
    match goal with |- context [if ?b then _ else _] => destruct b end.
  - split; [discriminate |]. intros i1 i2 c' path [= _ _ <- _]. congruence.
  - split; [discriminate |]. intros i1 i2 c' path [= _ _ <- _]. congruence.
  - split; [intros n1 n2 | intros i1 i2 c' path]; destruct e; discriminate.
  - split; [discriminate |]. intros i1 i2 c' path [= _ _ <- _]. congruence.
Qed.

(** C1: for every comparison request whose two periods were loaded, the
    endpoint answers with the insufficient-data warning, carrying the two
    review counts and no comparison, when both periods hold fewer than 10
    records; more precisely it answers so exactly when at least one
    period holds fewer than 10, and an answer with a full analysis never
    carries the analyzer's own insufficient-data result. *)
Theorem compare_periods_admission_gate
  (raw_data : Outcome DataFrame) (sa : SentimentAnalyzer) (s1 s2 : list nat)
  (request : ComparisonRequest) (p1 p2 : DataFrame) :
  periods_of raw_data request p1 p2 ->
  ((len p1 < 10)%nat -> (len p2 < 10)%nat ->
   compare_periods raw_data sa s1 s2 request = Warning (len p1) (len p2))
  /\ ((len p1 < 10)%nat \/ (len p2 < 10)%nat <->
      exists n1 n2, compare_periods raw_data sa s1 s2 request = Warning n1 n2)
  /\ (forall i1 i2 c path,
        compare_periods raw_data sa s1 s2 request = Success i1 i2 c path ->
        (10 <= len p1)%nat /\ (10 <= len p2)%nat /\ c <> Insufficient).
Proof.
  intros Hp.
  destruct ((len p1 <? 10)%nat || (len p2 <? 10)%nat) eqn:Hg.
  - assert (Hw := compare_periods_below raw_data sa s1 s2 request p1 p2 Hp Hg).
    apply orb_true_iff in Hg.
    rewrite !Nat.ltb_lt in Hg.
    split; [intros _ _; exact Hw |]. split.
    + split; [intros _; eauto | intros _; exact Hg].
    + intros i1 i2 c path Hs. rewrite Hw in Hs. discriminate.
  - destruct (compare_periods_at_or_above raw_data sa s1 s2 request p1 p2 Hp Hg)
      as [Hnw Hc].
    apply orb_false_iff in Hg as [G1 G2].
    apply Nat.ltb_ge in G1, G2.
    split; [intros; lia |]. split.
    + split; [intros [? | ?]; lia | intros (n1 & n2 & Hw); destruct (Hnw _ _ Hw)].
    + intros i1 i2 c path Hs. repeat split; try assumption.
      eapply Hc. exact Hs.
Qed.

(* ================================================================== *)
(** * Value counts *)
(* ================================================================== *)

Lemma count_of_cons k v values :
  count_of k (v :: values)
  = if String.eqb k v then S (count_of k values) else count_of k values.
Proof. unfold count_of. simpl. destruct (String.eqb k v); reflexivity. Qed.

Lemma dict_get_bump k k' d :
  dict_get k (bump String.eqb k' d)
  = if String.eqb k k' then S (dict_get k d) else dict_get k d.
Proof.
  induction d as [| [k0 n] d IH]; simpl.
  - destruct (String.eqb k k'); reflexivity.
  - destruct (String.eqb_spec k' k0) as [-> | Hne]; simpl.
    + destruct (String.eqb k k0); reflexivity.
    + destruct (String.eqb_spec k k0) as [-> | Hne'].
      * destruct (String.eqb_spec k0 k'); [congruence | reflexivity].
      * exact IH.
Qed.

Lemma dict_get_fold_bump k values d :
  dict_get k (fold_left (fun d v => bump String.eqb v d) values d)
  = (dict_get k d + count_of k values)%nat.
Proof.
  revert d. induction values as [| v values IH]; intros d; simpl.
  - unfold count_of. simpl. lia.
  - rewrite IH, dict_get_bump, count_of_cons.
    destruct (String.eqb k v); simpl; lia.
Qed.

Lemma dict_get_tally k values :
  dict_get k (tally String.eqb values) = count_of k values.
Proof. unfold tally. rewrite dict_get_fold_bump. reflexivity. Qed.

Lemma keys_bump k d :
  map fst (bump String.eqb k d) = map fst d
  \/ (~ In k (map fst d) /\ map fst (bump String.eqb k d) = map fst d ++ [k]).
Proof. drop_externals.
  induction d as [| [k0 n] d IH]; simpl.
  - right. split; [tauto | reflexivity].
  - destruct (String.eqb_spec k k0) as [-> | Hne]; simpl; [left; reflexivity |].
    destruct IH as [-> | [Hn ->]]; [left; reflexivity |].
    right. split; [| reflexivity]. intros [H | H]; [congruence | contradiction].
Qed.

Lemma NoDup_keys_bump k d :
  List.NoDup (map fst d) -> List.NoDup (map fst (bump String.eqb k d)).
Proof.
  intros Hnd. destruct (keys_bump k d) as [-> | [Hn ->]]; [exact Hnd |].
  apply NoDup_ListNoDup. apply NoDup_app. split; [| split].
  - apply NoDup_ListNoDup. exact Hnd.
  - intros x Hx Hx'. apply list_elem_of_In in Hx.
    apply list_elem_of_singleton in Hx'. subst x. contradiction.
  - apply NoDup_singleton.
Qed.

Lemma NoDup_keys_tally values : List.NoDup (map fst (tally String.eqb values)).
Proof.
  unfold tally.
  assert (H : forall d, List.NoDup (map fst d) ->
                        List.NoDup (map fst (fold_left (fun d v => bump String.eqb v d) values d))).
  { induction values as [| v values IH]; intros d Hd; simpl; [exact Hd |].
    apply IH. apply NoDup_keys_bump. exact Hd. }
  apply H. constructor.
Qed.

Lemma insert_desc_perm {K : Type} (kv : K * nat) d :
  Permutation (insert_desc kv d) (kv :: d).
Proof.
  induction d as [| kv' d IH]; simpl; [reflexivity |].
  destruct (snd kv' <? snd kv)%nat; [reflexivity |].
  rewrite IH. apply perm_swap.
Qed.

Lemma sort_desc_perm {K : Type} (d : list (K * nat)) : Permutation (sort_desc d) d.
Proof.
  unfold sort_desc.
  assert (H : forall acc, Permutation (fold_left (fun acc kv => insert_desc kv acc) d acc)
                                      (acc ++ d)).
  { induction d as [| kv d IH]; intros acc; simpl.
    - rewrite app_nil_r. reflexivity.
    - rewrite IH, insert_desc_perm. apply Permutation_middle. }
  apply (H []).
Qed.

Lemma dict_get_absent k d : ~ In k (map fst d) -> dict_get k d = 0%nat.
Proof. drop_externals.
  induction d as [| [k0 n] d IH]; simpl; [reflexivity |].
  intros Hn. destruct (String.eqb_spec k k0) as [-> | Hne]; [tauto |].
  apply IH. tauto.
Qed.

Lemma dict_get_present k n d :
  List.NoDup (map fst d) -> In (k, n) d -> dict_get k d = n.
Proof. drop_externals.
  induction d as [| [k0 n0] d IH]; simpl; [tauto |].
  intros Hnd Hin. inversion Hnd as [| ? ? Hfresh Hnd']; subst.
  destruct Hin as [[= -> ->] | Hin].
  - rewrite String.eqb_refl. reflexivity.
  - destruct (String.eqb_spec k k0) as [-> | Hne].
    + exfalso. apply Hfresh. apply (in_map fst) in Hin. exact Hin.
    + apply IH; assumption.
Qed.

Lemma dict_get_perm k d d' :
  List.NoDup (map fst d) -> Permutation d d' -> dict_get k d = dict_get k d'.
Proof.
  intros Hnd Hp.
  assert (Hnd' : List.NoDup (map fst d')).
  { eapply Permutation_NoDup; [apply Permutation_map; exact Hp | exact Hnd]. }
  destruct (in_dec string_dec k (map fst d)) as [Hin | Hn].
  - apply in_map_iff in Hin as ([k0 n] & Hk & Hin). simpl in Hk. subst k0.
    rewrite (dict_get_present k n d Hnd Hin).
    symmetry. apply dict_get_present; [exact Hnd' |].
    eapply Permutation_in; eassumption.
  - rewrite (dict_get_absent k d Hn). symmetry. apply dict_get_absent.
    intros Hin. apply Hn.
    eapply Permutation_in; [apply Permutation_map; symmetry; exact Hp | exact Hin].
Qed.

(** [value_counts(...).get(k, 0)] is the number of cells equal to [k]. *)
Lemma dict_get_value_counts k cells :
  dict_get k (value_counts String.eqb cells) = count_of k (omap id cells).
Proof.
  unfold value_counts. rewrite <- dict_get_tally.
  symmetry. apply dict_get_perm; [apply NoDup_keys_tally |].
  symmetry. apply sort_desc_perm.
Qed.

(* ================================================================== *)
(** * Properties of [analyze_sentiment_distribution] *)
(* ================================================================== *)

Lemma classified_scored df : is_classified df = true -> is_scored df = true.
Proof. unfold is_classified. intros H. apply andb_true_iff in H as [H _]. exact H. Qed.

Lemma scored_columns df :
  is_scored df = true ->
  has_sentiment_label (columns df) = true /\ has_sentiment_score (columns df) = true.
Proof.
  unfold is_scored. intros H.
  apply andb_true_iff in H as [H _]. apply andb_true_iff in H. exact H.
Qed.

Lemma count_three_labels (cells : list (option string)) :
  forallb (fun c => match c with Some l => is_sentiment_label l | None => false end)
          cells = true ->
  (count_of "positive" (omap id cells) + count_of "negative" (omap id cells)
   + count_of "neutral" (omap id cells))%nat = length cells.
Proof.
  induction cells as [| c cells IH]; [reflexivity |].
  intros H. cbn [forallb] in H.
  apply andb_true_iff in H as [Hc Hcs]. specialize (IH Hcs).
  destruct c as [l |]; [| discriminate].
  cbn [omap list_omap id length]. change (list_omap _ _ id cells) with (omap id cells).
  rewrite !count_of_cons.
  unfold is_sentiment_label, sentiment_labels in Hc. cbn [existsb] in Hc.
  destruct (String.eqb_spec l "positive") as [-> | ?].
  { rewrite String.eqb_refl.
    change (String.eqb "negative" "positive") with false.
    change (String.eqb "neutral" "positive") with false. lia. }
  destruct (String.eqb_spec l "neutral") as [-> | ?].
  { rewrite String.eqb_refl.
    change (String.eqb "positive" "neutral") with false.
    change (String.eqb "negative" "neutral") with false. lia. }
  destruct (String.eqb_spec l "negative") as [-> | ?].
  { rewrite String.eqb_refl.
    change (String.eqb "positive" "negative") with false.
    change (String.eqb "neutral" "negative") with false. lia. }
  discriminate.
Qed.

Lemma classified_labels df :
  is_classified df = true ->
  forallb (fun c => match c with Some l => is_sentiment_label l | None => false end)
          (column sentiment_label df) = true.
Proof.
  unfold is_classified, column. intros H.
  apply andb_true_iff in H as [_ H].
  rewrite forallb_forall in *. intros c Hc.
  apply in_map_iff in Hc as (ir & <- & Hin).
  apply (H ir Hin).
Qed.

Lemma ratio_sum (a b c n : nat) :
  (0 < n)%nat -> (a + b + c)%nat = n ->
  (ratio a n + ratio b n + ratio c n == 1)%Q.
Proof.
  intros Hn Hs. unfold ratio.
  destruct (Nat.ltb_spec 0 n) as [_ | ?]; [| lia].
  assert (Hq : ~ (inject_Z (Z.of_nat n) == 0)%Q).
  { unfold Qeq. simpl. lia. }
  rewrite <- Hs in *.
  rewrite !Nat2Z.inj_add, !inject_Z_plus in *.
  field. exact Hq.
Qed.

(** What the function returns on a non-empty frame with both sentiment
    columns. *)
Lemma analyze_sentiment_distribution_scored df :
  empty df = false ->
  has_sentiment_label (columns df) = true ->
  has_sentiment_score (columns df) = true ->
  exists s,
    analyze_sentiment_distribution df = Ok (Distribution s)
    /\ positive_ratio s
       = ratio (dict_get "positive" (value_counts String.eqb (column sentiment_label df)))
               (len df)
    /\ negative_ratio s
       = ratio (dict_get "negative" (value_counts String.eqb (column sentiment_label df)))
               (len df)
    /\ neutral_ratio s
       = ratio (dict_get "neutral" (value_counts String.eqb (column sentiment_label df)))
               (len df)
    /\ rating_sentiment_correlation s
       = if has_Rating (columns df) && (1 <? len df)%nat then corr (pairs_of df)
         else Fin 0.
Proof.
  intros He Hl Hs. unfold analyze_sentiment_distribution.
  rewrite He, Hl, Hs. simpl.
  destruct (has_Rating (columns df) && (1 <? len df)%nat); simpl;
    eexists; repeat split; reflexivity.
Qed.

(** C6 (amended): for every classified record set with at least one
    record, the three ratios of the sentiment distribution add up to 1;
    for the empty record set the function returns the bare
    [{"sentiment_distribution": {}}], which carries no ratio at all. *)
Theorem sentiment_ratios_sum_to_one (df : DataFrame) :
  is_classified df = true ->
  ((0 < len df)%nat ->
   exists s,
     analyze_sentiment_distribution df = Ok (Distribution s)
     /\ (positive_ratio s + negative_ratio s + neutral_ratio s == 1)%Q)
  /\ (len df = 0%nat -> analyze_sentiment_distribution df = Ok NoDistribution).
Proof.
  intros Hc. split.
  - intros Hlen.
    destruct (scored_columns df (classified_scored df Hc)) as [Hl Hs].
    destruct (analyze_sentiment_distribution_scored df (nonempty_len _ Hlen) Hl Hs)
      as (s & Hres & Hp & Hn & Hu & _).
    exists s. split; [exact Hres |].
    rewrite Hp, Hn, Hu, !dict_get_value_counts.
    apply ratio_sum; [exact Hlen |].
    rewrite (count_three_labels _ (classified_labels df Hc)).
    unfold column, len. apply length_map.
  - intros Hlen. unfold analyze_sentiment_distribution.
    apply empty_len in Hlen. rewrite Hlen. reflexivity.
Qed.

(** The case the correlation line does not guard: a rating column, two
    rows or more, and no [sentiment_score] column. *)
Lemma correlation_without_score_column df :
  empty df = false ->
  has_sentiment_label (columns df) = true ->
  has_sentiment_score (columns df) = false ->
  has_Rating (columns df) = true ->
  (1 < len df)%nat ->
  analyze_sentiment_distribution df = Raise KeyError.
Proof.
  intros He Hl Hs Hr Hlen. unfold analyze_sentiment_distribution.
  rewrite He, Hl, Hs, Hr. simpl.
  destruct (Nat.ltb_spec 1 (len df)); [reflexivity | lia].
Qed.


(* ================================================================== *)
(** * What the statistics do to the frame they are handed *)
(* ================================================================== *)

Lemma is_datetime_coerce d : is_datetime_cell (coerce d) = true.
Proof.
  destruct d as [s | t |]; simpl; try reflexivity.
  destruct (to_datetime s); reflexivity.
Qed.

Lemma coerce_datetime d : is_datetime_cell d = true -> coerce d = d.
Proof. destruct d; simpl; [discriminate | reflexivity | reflexivity]. Qed.

Lemma coerce_raw_changes s : coerce (DateStr s) <> DateStr s.
Proof. simpl. destruct (to_datetime s); discriminate. Qed.

Lemma is_datetime64_coerce_Date df : is_datetime64_dtype (coerce_Date df) = true.
Proof.
  unfold is_datetime64_dtype, coerce_Date. simpl.
  apply forallb_forall. intros ir Hin.
  apply in_map_iff in Hin as (ir' & <- & _). simpl. apply is_datetime_coerce.
Qed.

(** Converting a column that holds a raw value changes the frame. *)
Lemma coerce_Date_changes df :
  is_datetime64_dtype df = false -> coerce_Date df <> df.
Proof.
  unfold is_datetime64_dtype, coerce_Date. destruct df as [cols rs]. simpl.
  intros Hraw Heq. injection Heq as Heq.
  induction rs as [| [i r] rs IH]; simpl in *; [discriminate |].
  injection Heq as Hr Hrs.
  destruct (Date r) as [s | t |] eqn:Hd; simpl in Hraw.
  - apply (f_equal Date) in Hr. simpl in Hr. rewrite Hd in Hr.
    apply (coerce_raw_changes s). exact Hr.
  - apply IH; assumption.
  - apply IH; assumption.
Qed.

(** The conversion touches nothing but the [Date] cells. *)
Lemma coerce_Date_elsewhere df :
  columns (coerce_Date df) = columns df
  /\ index (coerce_Date df) = index df
  /\ (forall k i row,
        rows df !! k = Some (i, row) ->
        rows (coerce_Date df) !! k = Some (i, set_Date (coerce (Date row)) row)).
Proof.
  unfold coerce_Date, index. simpl. split; [reflexivity |]. split.
  - rewrite map_map. reflexivity.
  - intros k i row Hk.
    change (map ?f (rows df)) with (f <$> rows df).
    rewrite list_lookup_fmap, Hk. reflexivity.
Qed.

Lemma ensure_datetime_caller df :
  snd (ensure_datetime df) = if is_datetime64_dtype df then df else coerce_Date df.
Proof. unfold ensure_datetime. destruct (is_datetime64_dtype df); reflexivity. Qed.

(** The frame the caller holds after [analyze_review_volume] and after
    [analyze_sentiment_trend]. *)
Lemma frame_after_volume df :
  snd (analyze_review_volume df) =
  if empty df || is_datetime64_dtype df then df else coerce_Date df.
Proof.
  rewrite caller_frame_volume, ensure_datetime_caller.
  destruct (empty df); reflexivity.
Qed.

Lemma frame_after_trend df :
  snd (analyze_sentiment_trend df) =
  if empty df || negb (has_sentiment_label (columns df)) || is_datetime64_dtype df
  then df else coerce_Date df.
Proof.
  rewrite caller_frame_trend, ensure_datetime_caller.
  destruct (empty df || negb (has_sentiment_label (columns df))); reflexivity.
Qed.

(** With a parsed [Date] column both leave the frame alone. *)
Lemma volume_keeps_datetime_frame df :
  is_datetime64_dtype df = true -> snd (analyze_review_volume df) = df.
Proof. intros H. rewrite frame_after_volume, H, orb_true_r. reflexivity. Qed.

Lemma trend_keeps_datetime_frame df :
  is_datetime64_dtype df = true -> snd (analyze_sentiment_trend df) = df.
Proof. intros H. rewrite frame_after_trend, H, orb_true_r. reflexivity. Qed.

(** With a raw [Date] column both overwrite it in the caller's frame. *)
Lemma volume_rewrites_raw_dates df :
  empty df = false -> is_datetime64_dtype df = false ->
  snd (analyze_review_volume df) = coerce_Date df
  /\ snd (analyze_review_volume df) <> df.
Proof.
  intros He Hd. rewrite frame_after_volume, He, Hd. simpl.
  split; [reflexivity | apply coerce_Date_changes; exact Hd].
Qed.

Lemma trend_rewrites_raw_dates df :
  empty df = false -> has_sentiment_label (columns df) = true ->
  is_datetime64_dtype df = false ->
  snd (analyze_sentiment_trend df) = coerce_Date df
  /\ snd (analyze_sentiment_trend df) <> df.
Proof.
  intros He Hl Hd. rewrite frame_after_trend, He, Hl, Hd. simpl.
  split; [reflexivity | apply coerce_Date_changes; exact Hd].
Qed.

(* ================================================================== *)
(** * Days, bins and means *)
(* ================================================================== *)

Lemma Qltb_lt a b : Qltb a b = true <-> (a < b)%Q.
Proof.
  unfold Qltb. rewrite negb_true_iff.
  split.
  - intros H. apply Qnot_le_lt. intros Hle.
    apply Qle_bool_iff in Hle. congruence.
  - intros H. destruct (Qle_bool b a) eqn:E; [| reflexivity].
    apply Qle_bool_iff in E. exfalso. apply (Qlt_not_le _ _ H E).
Qed.

Lemma Qltb_ge a b : Qltb a b = false <-> (b <= a)%Q.
Proof.
  unfold Qltb. rewrite negb_false_iff. apply Qle_bool_iff.
Qed.

Lemma min_list_le x l : min_list x l <= x.
Proof.
  unfold min_list. revert x. induction l as [| y l IH]; intros x; simpl; [lia |].
  specialize (IH (Z.min x y)). lia.
Qed.

Lemma max_list_ge x l : x <= max_list x l.
Proof.
  unfold max_list. revert x. induction l as [| y l IH]; intros x; simpl; [lia |].
  specialize (IH (Z.max x y)). lia.
Qed.

Lemma min_list_lower x l y : In y l -> min_list x l <= y.
Proof.
  unfold min_list. revert x. induction l as [| z l IH]; intros x; simpl; [tauto |].
  intros [-> | Hin].
  - pose proof (min_list_le (Z.min x y) l) as H. unfold min_list in H. lia.
  - apply IH. exact Hin.
Qed.

Lemma max_list_upper x l y : In y l -> y <= max_list x l.
Proof.
  unfold max_list. revert x. induction l as [| z l IH]; intros x; simpl; [tauto |].
  intros [-> | Hin].
  - pose proof (max_list_ge (Z.max x y) l) as H. unfold max_list in H. lia.
  - apply IH. exact Hin.
Qed.

(** The extremes are elements of the list. *)
Lemma min_list_in x l : In (min_list x l) (x :: l).
Proof.
  unfold min_list. revert x. induction l as [| y l IH]; intros x; simpl; [auto |].
  destruct (IH (Z.min x y)) as [H | H].
  - rewrite <- H. destruct (Z.min_spec x y) as [[_ ->] | [_ ->]]; auto.
  - auto.
Qed.

Lemma max_list_in x l : In (max_list x l) (x :: l).
Proof.
  unfold max_list. revert x. induction l as [| y l IH]; intros x; simpl; [auto |].
  destruct (IH (Z.max x y)) as [H | H].
  - rewrite <- H. destruct (Z.max_spec x y) as [[_ ->] | [_ ->]]; auto.
  - auto.
Qed.

Lemma in_bins lo hi d :
  lo <= d <= hi ->
  In d (map (fun k => lo + Z.of_nat k) (seq 0 (Z.to_nat (hi - lo + 1)))).
Proof.
  intros H. apply in_map_iff. exists (Z.to_nat (d - lo)). split; [lia |].
  apply in_seq. lia.
Qed.

(** Every day on which the frame has a record is one of its bins. *)
Lemma day_in_bins df t :
  In t (timestamps df) -> In (day_of t) (day_bins df).
Proof.
  unfold day_bins. intros Hin.
  apply (in_map day_of) in Hin.
  destruct (map day_of (timestamps df)) as [| d ds]; [destruct Hin |].
  apply in_bins. destruct Hin as [<- | Hin].
  - split; [apply min_list_le | apply max_list_ge].
  - split; [apply min_list_lower | apply max_list_upper]; exact Hin.
Qed.

Lemma timestamps_row df t :
  In t (timestamps df) <->
  exists ir, In ir (rows df) /\ Date (snd ir) = Timestamp t.
Proof.
  unfold timestamps. rewrite <- list_elem_of_In, list_elem_of_omap.
  split.
  - intros (ir & Hin & Hd). exists ir. split; [apply list_elem_of_In; exact Hin |].
    destruct (Date (snd ir)); congruence.
  - intros (ir & Hin & Hd). exists ir. split; [apply list_elem_of_In; exact Hin |].
    rewrite Hd. reflexivity.
Qed.

Lemma bins_nonempty_timestamp df :
  day_bins df <> [] -> exists t, In t (timestamps df).
Proof.
  unfold day_bins. destruct (timestamps df) as [| t ts]; [intros H; destruct H; reflexivity |].
  intros _. exists t. left. reflexivity.
Qed.

Lemma mean_some cells x : In (Some x) cells -> exists m, mean cells = Fin m.
Proof.
  intros Hin. unfold mean.
  assert (Hx : x ∈ omap id cells).
  { apply list_elem_of_omap. exists (Some x). split; [apply list_elem_of_In; exact Hin | reflexivity]. }
  destruct (omap id cells) as [| y ys]; [inversion Hx | eauto].
Qed.

Lemma valid_entries_in d m series :
  In (d, Fin m) series -> In (d, m) (valid_entries series).
Proof.
  intros Hin. unfold valid_entries. apply list_elem_of_In, list_elem_of_omap.
  exists (d, Fin m). split; [apply list_elem_of_In; exact Hin | reflexivity].
Qed.

Lemma scored_day_has_mean df t :
  all_scored df -> In t (timestamps df) ->
  exists m, In (day_of t, Fin m) (mean_by_day df).
Proof.
  intros Hs Ht. unfold mean_by_day.
  apply timestamps_row in Ht as Hrow. destruct Hrow as (ir & Hin & Hd).
  destruct (Hs ir Hin) as [x Hx].
  destruct (mean_some (map sentiment_score (rows_of_day df (day_of t))) x) as [m Hm].
  { apply in_map_iff. exists (snd ir). split; [exact Hx |].
    unfold rows_of_day. apply filter_In. split.
    - apply in_map. exact Hin.
    - apply bool_decide_eq_true. unfold row_day. rewrite Hd. reflexivity. }
  exists m. apply in_map_iff. exists (day_of t). split; [rewrite Hm; reflexivity |].
  apply day_in_bins. exact Ht.
Qed.

Lemma scored_series_valid df :
  all_scored df -> mean_by_day df <> [] -> valid_entries (mean_by_day df) <> [].
Proof.
  intros Hs Hne.
  assert (Hb : day_bins df <> []).
  { intros Hb. apply Hne. unfold mean_by_day. rewrite Hb. reflexivity. }
  destruct (bins_nonempty_timestamp df Hb) as [t Ht].
  destruct (scored_day_has_mean df t Hs Ht) as [m Hm].
  apply valid_entries_in in Hm. intros Hnil. rewrite Hnil in Hm. destruct Hm.
Qed.

Lemma all_scored_coerce_Date df : all_scored df -> all_scored (coerce_Date df).
Proof.
  intros Hs ir Hin. unfold coerce_Date in Hin. simpl in Hin.
  apply in_map_iff in Hin as (ir' & <- & Hin'). simpl. apply Hs. exact Hin'.
Qed.

Lemma all_scored_dropna_Date df : all_scored df -> all_scored (dropna_Date df).
Proof.
  intros Hs ir Hin. unfold dropna_Date in Hin. simpl in Hin.
  apply filter_In in Hin as [Hin _]. apply Hs. exact Hin.
Qed.

Lemma all_scored_local df : all_scored df -> all_scored (fst (ensure_datetime df)).
Proof.
  intros Hs. unfold ensure_datetime. destruct (is_datetime64_dtype df); simpl; [exact Hs |].
  apply all_scored_dropna_Date, all_scored_coerce_Date. exact Hs.
Qed.

Lemma scored_all_scored df : is_scored df = true -> all_scored df.
Proof.
  unfold is_scored. intros H ir Hin.
  apply andb_true_iff in H as [_ H]. rewrite forallb_forall in H.
  specialize (H ir Hin).
  destruct (sentiment_score (snd ir)) as [x |]; [eauto | discriminate].
Qed.

Lemma columns_local df : columns (fst (ensure_datetime df)) = columns df.
Proof. unfold ensure_datetime. destruct (is_datetime64_dtype df); reflexivity. Qed.

(* ================================================================== *)
(** * Properties of [analyze_sentiment_trend] *)
(* ================================================================== *)

Lemma length_valid_points series :
  length (valid_points series) = length (valid_entries series).
Proof.
  unfold valid_points, valid_entries.
  assert (H : forall (f : nat -> Z * pyfloat -> nat * (Z * pyfloat)),
             (forall k y, snd (f k y) = y) ->
             length (omap (fun ky : nat * (Z * pyfloat) =>
                             match snd (snd ky) with
                             | Fin y => Some (Z.of_nat (fst ky), y)
                             | _ => None
                             end)
                          (imap f series))
             = length (omap (fun dy : Z * pyfloat =>
                               match snd dy with
                               | Fin y => Some (fst dy, y)
                               | _ => None
                               end) series)).
  { induction series as [| [d y] series IH]; intros f Hf; [reflexivity |].
    cbn [imap omap list_omap].
    rewrite (Hf 0%nat (d, y)). cbn [snd].
    specialize (IH (f ∘ S) (fun k y => Hf (S k) y)).
    destruct y; cbn [length]; rewrite <- IH; reflexivity. }
  apply H. reflexivity.
Qed.

Lemma length_valid_le series :
  (length (valid_entries series) <= length series)%nat.
Proof.
  unfold valid_entries, omap.
  induction series as [| [d y] series IH]; simpl; [lia |].
  destruct y; simpl; lia.
Qed.

Lemma slope_of_cases series :
  slope_of series =
  if (1 <? length (valid_entries series))%nat
  then polyfit_slope (valid_points series) else 0%Q.
Proof.
  unfold slope_of. rewrite length_valid_points.
  pose proof (length_valid_le series) as Hle.
  destruct (Nat.ltb_spec 1 (length series)) as [H1 | H1]; [reflexivity |].
  destruct (Nat.ltb_spec 1 (length (valid_entries series))); [lia | reflexivity].
Qed.

Lemma direction_of_spec slope :
  (direction_of slope = Up <-> (1 # 100 < slope)%Q)
  /\ (direction_of slope = Down <-> (slope < - (1 # 100))%Q)
  /\ (direction_of slope = Stable <-> (- (1 # 100) <= slope <= 1 # 100)%Q).
Proof.
  unfold direction_of.
  destruct (Qltb (1 # 100) slope) eqn:Hup;
    [apply Qltb_lt in Hup | apply Qltb_ge in Hup];
    (destruct (Qltb slope (- (1 # 100))) eqn:Hdown;
     [apply Qltb_lt in Hdown | apply Qltb_ge in Hdown]).
  - repeat split; intros; try discriminate; try assumption; lra.
  - repeat split; intros; try discriminate; try assumption; lra.
  - repeat split; intros; try discriminate; try assumption; lra.
  - repeat split; intros; try discriminate; try assumption; lra.
Qed.

(** On a frame with both sentiment columns in which every record carries
    a score, the function returns a full trend. *)
Lemma analyze_sentiment_trend_scored df :
  empty df = false ->
  has_sentiment_label (columns df) = true ->
  has_sentiment_score (columns df) = true ->
  all_scored df ->
  exists t,
    fst (analyze_sentiment_trend df) = Ok (Trend t)
    /\ sentiment_trend t = valid_entries (trend_series df)
    /\ trend_slope t = slope_of (trend_series df)
    /\ trend_direction t = direction_of (trend_slope t).
Proof.
  intros He Hl Hs Hall. unfold analyze_sentiment_trend, trend_series.
  rewrite He, Hl. simpl.
  pose proof (columns_local df) as Hcols.
  pose proof (all_scored_local df Hall) as Hloc.
  destruct (ensure_datetime df) as [local caller]. simpl in *.
  rewrite Hcols, Hs. simpl.
  destruct (mean_by_day local) as [| e es] eqn:Hseries.
  - eexists. simpl. repeat split; reflexivity.
  - pose proof (scored_series_valid local Hloc) as Hv.
    rewrite Hseries in Hv. specialize (Hv ltac:(discriminate)).
    destruct (valid_entries (e :: es)) as [| v vs] eqn:Hvalid; [contradiction |].
    eexists. simpl. repeat split; reflexivity.
Qed.

(* ================================================================== *)
(** * The fitted slope is the least-squares slope *)
(* ================================================================== *)

Lemma Qlen_cons {A : Type} (x : A) (l : list A) : (Qlen (x :: l) == 1 + Qlen l)%Q.
Proof.
  unfold Qlen. simpl length. rewrite Nat2Z.inj_succ.
  unfold Z.succ. rewrite inject_Z_plus. ring.
Qed.

Lemma Qlen_nonneg {A : Type} (l : list A) : (0 <= Qlen l)%Q.
Proof.
  unfold Qlen. change 0%Q with (inject_Z 0). rewrite <- Zle_Qle. lia.
Qed.

Lemma Qsum_nonneg l : (forall x, In x l -> (0 <= x)%Q) -> (0 <= Qsum l)%Q.
Proof.
  induction l as [| x l IH]; simpl; intros H; [apply Qle_refl |].
  assert (0 <= x)%Q by (apply H; left; reflexivity).
  assert (0 <= Qsum l)%Q by (apply IH; intros y Hy; apply H; right; exact Hy).
  lra.
Qed.

Lemma Qsquare_nonneg x : (0 <= x * x)%Q.
Proof.
  destruct (Qlt_le_dec x 0) as [Hneg | Hpos].
  - assert (E : (x * x == (- x) * (- x))%Q) by ring. rewrite E.
    apply Qmult_le_0_compat; lra.
  - apply Qmult_le_0_compat; assumption.
Qed.

Lemma sum_residual a b pts :
  (Qsum (map (residual a b) pts)
   == Qsum (map snd pts) - a * Qsum (map xq pts) - Qlen pts * b)%Q.
Proof.
  drop_externals.
  induction pts as [| p pts IH].
  - unfold Qlen. simpl. ring.
  - rewrite Qlen_cons. simpl. rewrite IH. unfold residual. ring.
Qed.

Lemma sum_x_residual a b pts :
  (Qsum (map (fun p => xq p * residual a b p) pts)
   == Qsum (map (fun p => xq p * snd p) pts)
      - a * Qsum (map (fun p => xq p * xq p) pts)
      - b * Qsum (map xq pts))%Q.
Proof.
  drop_externals.
  induction pts as [| p pts IH]; simpl.
  - ring.
  - rewrite IH. unfold residual. ring.
Qed.

Lemma squared_error_expand a b a' b' pts :
  (squared_error pts a' b'
   == squared_error pts a b
      + Qsum (map (fun p => ((a - a') * xq p + (b - b'))
                            * ((a - a') * xq p + (b - b'))) pts)
      + 2 * (a - a') * Qsum (map (fun p => xq p * residual a b p) pts)
      + 2 * (b - b') * Qsum (map (residual a b) pts))%Q.
Proof.
  drop_externals.
  unfold squared_error. induction pts as [| p pts IH]; simpl.
  - ring.
  - rewrite IH. unfold residual. ring.
Qed.

Lemma polyfit_slope_unfold pts :
  (polyfit_slope pts
   == (Qlen pts * Qsum (map (fun p => xq p * snd p) pts)
       - Qsum (map xq pts) * Qsum (map snd pts)) / spread pts)%Q.
Proof.
  unfold polyfit_slope, spread, xq. rewrite map_map. reflexivity.
Qed.

(** The normal equations. *)
Lemma normal_equations pts :
  ~ (Qlen pts == 0)%Q -> ~ (spread pts == 0)%Q ->
  (Qsum (map (residual (polyfit_slope pts) (polyfit_intercept pts)) pts) == 0)%Q
  /\ (Qsum (map (fun p => xq p * residual (polyfit_slope pts) (polyfit_intercept pts) p)
                pts) == 0)%Q.
Proof.
  drop_externals.
  intros Hn Hd. rewrite sum_residual, sum_x_residual.
  unfold polyfit_intercept. rewrite polyfit_slope_unfold.
  unfold spread in *.
  set (n := Qlen pts) in *.
  set (sx := Qsum (map xq pts)) in *.
  set (sy := Qsum (map snd pts)) in *.
  set (sxx := Qsum (map (fun p => (xq p * xq p)%Q) pts)) in *.
  set (sxy := Qsum (map (fun p => (xq p * snd p)%Q) pts)) in *.
  split; field; split; assumption.
Qed.

(** No line has a smaller squared error than the fitted one. *)
Lemma polyfit_least_squares pts a' b' :
  ~ (Qlen pts == 0)%Q -> ~ (spread pts == 0)%Q ->
  (squared_error pts (polyfit_slope pts) (polyfit_intercept pts)
   <= squared_error pts a' b')%Q.
Proof.
  drop_externals.
  intros Hn Hd.
  destruct (normal_equations pts Hn Hd) as [He Hxe].
  rewrite (squared_error_expand (polyfit_slope pts) (polyfit_intercept pts) a' b').
  rewrite He, Hxe.
  match goal with
  | |- (_ <= _ + Qsum ?l + _ + _)%Q =>
      assert (Hs : (0 <= Qsum l)%Q)
  end.
  { apply Qsum_nonneg. intros x Hx.
    apply in_map_iff in Hx as (p & <- & _). apply Qsquare_nonneg. }
  lra.
Qed.

(** ** The spread of distinct positions is positive *)

Lemma sum_square_distance x pts :
  (Qsum (map (fun q => (x - xq q) * (x - xq q)) pts)
   == Qlen pts * (x * x) - 2 * x * Qsum (map xq pts)
      + Qsum (map (fun p => xq p * xq p) pts))%Q.
Proof.
  drop_externals.
  induction pts as [| p pts IH].
  - unfold Qlen. simpl. ring.
  - rewrite Qlen_cons. simpl. rewrite IH. ring.
Qed.

Lemma spread_cons p pts :
  (spread (p :: pts)
   == spread pts + Qsum (map (fun q => (xq p - xq q) * (xq p - xq q)) pts))%Q.
Proof.
  drop_externals.
  rewrite sum_square_distance. unfold spread.
  rewrite Qlen_cons. simpl. ring.
Qed.

Lemma sum_square_distance_nonneg x pts :
  (0 <= Qsum (map (fun q => (x - xq q) * (x - xq q)) pts))%Q.
Proof.
  apply Qsum_nonneg. intros y Hy.
  apply in_map_iff in Hy as (q & <- & _). apply Qsquare_nonneg.
Qed.

Lemma spread_nonneg pts : (0 <= spread pts)%Q.
Proof.
  drop_externals.
  induction pts as [| p pts IH].
  - unfold spread, Qlen. simpl. lra.
  - rewrite spread_cons.
    pose proof (sum_square_distance_nonneg (xq p) pts). lra.
Qed.

Lemma Qsquare_pos x : ~ (x == 0)%Q -> (0 < x * x)%Q.
Proof.
  intros Hx. destruct (Qlt_le_dec x 0) as [Hneg | Hpos].
  - assert (E : (x * x == (- x) * (- x))%Q) by ring. rewrite E.
    apply Qmult_lt_0_compat; lra.
  - assert (0 < x)%Q.
    { apply Qle_lteq in Hpos as [H | H]; [exact H |]. exfalso. apply Hx. symmetry. exact H. }
    apply Qmult_lt_0_compat; assumption.
Qed.

Lemma spread_positive p q pts :
  fst p <> fst q -> (0 < spread (p :: q :: pts))%Q.
Proof.
  drop_externals.
  intros Hne. rewrite spread_cons. simpl.
  pose proof (spread_nonneg (q :: pts)).
  pose proof (sum_square_distance_nonneg (xq p) pts).
  assert (0 < (xq p - xq q) * (xq p - xq q))%Q.
  { apply Qsquare_pos. unfold xq. intros Hzero. apply Hne.
    assert (Heq : (inject_Z (fst p) == inject_Z (fst q))%Q) by lra.
    unfold Qeq in Heq. simpl in Heq. lia. }
  lra.
Qed.

(** The positions of the valid points are pairwise distinct. *)
Lemma valid_points_from f off (series : list (Z * pyfloat)) :
  (forall k y, f k y = ((off + k)%nat, y)) ->
  let xs := map fst
              (omap (fun ky : nat * (Z * pyfloat) =>
                       match snd (snd ky) with
                       | Fin y => Some (Z.of_nat (fst ky), y)
                       | _ => None
                       end)
                    (imap f series)) in
  Forall (fun x => Z.of_nat off <= x) xs /\ NoDup xs.
Proof.
  drop_externals.
  revert f off. induction series as [| [d y] series IH]; intros f off Hf xs.
  - subst xs. simpl. split; constructor.
  - subst xs. cbn [imap omap list_omap].
    destruct (IH (f ∘ S) (S off)) as [Hge Hnd].
    { intros k y'. unfold compose. rewrite Hf. f_equal. lia. }
    rewrite Hf. cbn [snd fst].
    assert (Hge' : Forall (fun x => Z.of_nat off <= x)
                     (map fst
                        (omap (fun ky : nat * (Z * pyfloat) =>
                                 match snd (snd ky) with
                                 | Fin y0 => Some (Z.of_nat (fst ky), y0)
                                 | _ => None
                                 end) (imap (f ∘ S) series)))).
    { eapply Forall_impl; [exact Hge |]. intros x Hx. simpl in Hx. lia. }
    destruct y as [v | |]; cbn [map fst]; try (split; assumption).
    split.
    + constructor; [lia | exact Hge'].
    + apply NoDup_cons. split; [| exact Hnd].
      intros Hin. rewrite Forall_forall in Hge. specialize (Hge _ Hin). lia.
Qed.

Lemma NoDup_valid_points series : NoDup (map fst (valid_points series)).
Proof.
  unfold valid_points.
  apply (valid_points_from (fun k y => (k, y)) 0%nat series). reflexivity.
Qed.

Lemma spread_valid_points series :
  (1 < length (valid_points series))%nat -> (0 < spread (valid_points series))%Q.
Proof.
  intros Hlen. pose proof (NoDup_valid_points series) as Hnd.
  destruct (valid_points series) as [| p [| q pts]]; simpl in Hlen; try lia.
  apply spread_positive. simpl in Hnd.
  apply NoDup_cons in Hnd as [Hp _]. intros Heq. apply Hp. rewrite Heq. left.
Qed.

(** With two valid buckets or more, the slope the trend reports is that
    of a line no other line beats on squared error. *)
Lemma slope_of_least_squares series a' b' :
  (1 < length (valid_entries series))%nat ->
  slope_of series = polyfit_slope (valid_points series)
  /\ (squared_error (valid_points series) (polyfit_slope (valid_points series))
                    (polyfit_intercept (valid_points series))
      <= squared_error (valid_points series) a' b')%Q.
Proof.
  intros Hlen. split.
  - rewrite slope_of_cases. destruct (Nat.ltb_spec 1 (length (valid_entries series)));
      [reflexivity | lia].
  - rewrite <- length_valid_points in Hlen.
    pose proof (spread_valid_points series Hlen) as Hs.
    apply polyfit_least_squares.
    + unfold Qlen. intros H0. unfold Qeq in H0. simpl in H0. lia.
    + intros H0. rewrite H0 in Hs. apply (Qlt_irrefl 0). exact Hs.
Qed.

(** C7 (amended): for every scored record set (so for every classified
    one) with at least one record, the trend's slope is the least-squares slope over the bucket
    positions of the buckets with a defined mean when there are at least
    two of them, and 0 otherwise; the direction is "up" exactly when the
    slope is above 0.01, "down" exactly when it is below -0.01 and
    "stable" exactly when it lies in between, both bounds included; with
    fewer than two valid buckets the direction is "stable".  With two or
    more, the fitted line is a least-squares line: no slope and
    intercept give a smaller sum of squared distances to the bucket
    means. *)
Theorem trend_direction_from_slope (df : DataFrame) :
  is_scored df = true ->
  (0 < len df)%nat ->
  exists t,
    fst (analyze_sentiment_trend df) = Ok (Trend t)
    /\ trend_slope t
       = (if (1 <? valid_buckets df)%nat
          then polyfit_slope (valid_points (trend_series df)) else 0%Q)
    /\ (trend_direction t = Up <-> (1 # 100 < trend_slope t)%Q)
    /\ (trend_direction t = Down <-> (trend_slope t < - (1 # 100))%Q)
    /\ (trend_direction t = Stable <->
        (- (1 # 100) <= trend_slope t <= 1 # 100)%Q)
    /\ ((valid_buckets df < 2)%nat ->
        trend_slope t = 0%Q /\ trend_direction t = Stable)
    /\ ((2 <= valid_buckets df)%nat ->
        forall a' b',
          (squared_error (valid_points (trend_series df)) (trend_slope t)
                         (polyfit_intercept (valid_points (trend_series df)))
           <= squared_error (valid_points (trend_series df)) a' b')%Q).
Proof.
  intros Hc Hlen.
  destruct (scored_columns df Hc) as [Hl Hs].
  destruct (analyze_sentiment_trend_scored df (nonempty_len _ Hlen) Hl Hs
              (scored_all_scored df Hc))
    as (t & Hres & _ & Hslope & Hdir).
  exists t. split; [exact Hres |].
  rewrite slope_of_cases in Hslope. fold (valid_buckets df) in Hslope.
  split; [exact Hslope |].
  rewrite Hdir.
  destruct (direction_of_spec (trend_slope t)) as (Hu & Hd & Hst).
  split; [exact Hu |]. split; [exact Hd |]. split; [exact Hst |].
  split.
  - intros Hfew.
    destruct (Nat.ltb_spec 1 (valid_buckets df)); [lia |].
    split; [exact Hslope |]. rewrite Hslope. reflexivity.
  - intros Hmany a' b'. rewrite Hslope.
    destruct (Nat.ltb_spec 1 (valid_buckets df)) as [Hlt | ?]; [| lia].
    apply (slope_of_least_squares (trend_series df) a' b' Hlt).
Qed.

(* ================================================================== *)
(** * Properties of [compare_time_periods] *)
(* ================================================================== *)

Lemma fgt_above x c : fgt x c = true <-> above x c.
Proof.
  destruct x; simpl; [apply Qltb_lt | tauto | split; [discriminate | tauto]].
Qed.

Lemma flt_below x c : flt x c = true <-> below x c.
Proof.
  destruct x; simpl; [apply Qltb_lt | |]; split; (discriminate || tauto).
Qed.

Lemma fgt_excludes_flt x a b :
  (b <= a)%Q -> fgt x a = true -> flt x b = false.
Proof.
  intros Hba Hg. destruct (flt x b) eqn:Hl; [| reflexivity].
  apply fgt_above in Hg. apply flt_below in Hl.
  destruct x; simpl in *; [lra | contradiction | contradiction].
Qed.

Lemma mentions_existsb kind bullets :
  mentions kind bullets <-> existsb kind bullets = true.
Proof. unfold mentions. symmetry. apply existsb_exists. Qed.

(** The rule table, rule by rule. *)
Lemma summary_rules_spec review_change rating_change sentiment_change
  version_changed v1 v2 :
  let bullets := summary_rules review_change rating_change sentiment_change
                               version_changed v1 v2 in
  (mentions is_volume_increased bullets <-> above review_change (2 # 10))
  /\ (mentions is_volume_decreased bullets <-> below review_change (- (2 # 10)))
  /\ (mentions is_rating_improved bullets <-> above rating_change (5 # 10))
  /\ (mentions is_rating_declined bullets <-> below rating_change (- (5 # 10)))
  /\ (mentions is_sentiment_positive bullets <-> above sentiment_change (2 # 10))
  /\ (mentions is_sentiment_negative bullets <-> below sentiment_change (- (2 # 10)))
  /\ (mentions is_version_updated bullets <-> version_changed = true)
  /\ (mentions is_no_difference bullets <->
      ~ above review_change (2 # 10) /\ ~ below review_change (- (2 # 10))
      /\ ~ above rating_change (5 # 10) /\ ~ below rating_change (- (5 # 10))
      /\ ~ above sentiment_change (2 # 10) /\ ~ below sentiment_change (- (2 # 10))
      /\ version_changed = false).
Proof.
  intros bullets. subst bullets.
  rewrite !mentions_existsb, <- !fgt_above, <- !flt_below.
  unfold summary_rules, when.
  pose proof (fgt_excludes_flt review_change (2 # 10) (- (2 # 10)) ltac:(lra)) as X1.
  pose proof (fgt_excludes_flt rating_change (5 # 10) (- (5 # 10)) ltac:(lra)) as X2.
  pose proof (fgt_excludes_flt sentiment_change (2 # 10) (- (2 # 10)) ltac:(lra)) as X3.
  destruct (fgt review_change (2 # 10)), (flt review_change (- (2 # 10)));
    try (specialize (X1 eq_refl); discriminate); clear X1;
    (destruct (fgt rating_change (5 # 10)), (flt rating_change (- (5 # 10)));
     try (specialize (X2 eq_refl); discriminate); clear X2);
    (destruct (fgt sentiment_change (2 # 10)), (flt sentiment_change (- (2 # 10)));
     try (specialize (X3 eq_refl); discriminate); clear X3);
    destruct version_changed; cbn;
    intuition congruence.
Qed.

(** ** The conversion of the dates leaves every other column alone *)

Lemma set_Date_same r : set_Date (Date r) r = r.
Proof. destruct r; reflexivity. Qed.

Lemma coerce_Date_datetime df : is_datetime64_dtype df = true -> coerce_Date df = df.
Proof.
  unfold is_datetime64_dtype, coerce_Date, with_rows. destruct df as [cols rs]. simpl.
  intros H. f_equal.
  induction rs as [| [i r] rs IH]; simpl in *; [reflexivity |].
  apply andb_true_iff in H as [Hr Hrs].
  rewrite (coerce_datetime _ Hr), set_Date_same, (IH Hrs). reflexivity.
Qed.

Lemma ensure_datetime_inplace_coerce df : ensure_datetime_inplace df = coerce_Date df.
Proof.
  unfold ensure_datetime_inplace.
  destruct (is_datetime64_dtype df) eqn:H; [| reflexivity].
  symmetry. apply coerce_Date_datetime. exact H.
Qed.

Lemma column_coerce_Date {A : Type} (f : Row -> A) df :
  (forall d r, f (set_Date d r) = f r) ->
  column f (coerce_Date df) = column f df.
Proof.
  intros Hf. unfold column, coerce_Date. simpl. rewrite map_map.
  apply map_ext. intros [i r]. simpl. apply Hf.
Qed.

Lemma count_label_coerce_Date l df :
  count_label l (coerce_Date df) = count_label l df.
Proof.
  unfold count_label, coerce_Date. simpl.
  induction (rows df) as [| [i r] rs IH]; simpl; [reflexivity |].
  destruct (bool_decide (sentiment_label r = Some l)); simpl; rewrite IH; reflexivity.
Qed.

Lemma avg_rating_coerce_Date df : avg_rating_of (coerce_Date df) = avg_rating_of df.
Proof.
  unfold avg_rating_of. rewrite column_coerce_Date by reflexivity. reflexivity.
Qed.

Lemma rating_change_coerce_Date df1 df2 :
  rating_change_of (coerce_Date df1) (coerce_Date df2) = rating_change_of df1 df2.
Proof. unfold rating_change_of. rewrite !avg_rating_coerce_Date. reflexivity. Qed.

Lemma sentiment_change_coerce_Date df1 df2 :
  sentiment_change_of (coerce_Date df1) (coerce_Date df2) = sentiment_change_of df1 df2.
Proof.
  unfold sentiment_change_of, avg_sentiment_of, both_labelled.
  rewrite !column_coerce_Date by reflexivity. reflexivity.
Qed.

Lemma main_version_coerce_Date v df :
  main_version v (coerce_Date df) = main_version v df.
Proof. unfold main_version. rewrite column_coerce_Date by reflexivity. reflexivity. Qed.

Lemma version_changed_coerce_Date df1 df2 :
  version_changed_of (coerce_Date df1) (coerce_Date df2) = version_changed_of df1 df2.
Proof.
  unfold version_changed_of, both_versioned.
  rewrite !main_version_coerce_Date. reflexivity.
Qed.

(** ** Periods *)

Lemma period_nonempty df : is_period df = true -> empty df = false.
Proof.
  unfold is_period, has_dated_record, empty. intros H.
  apply andb_true_iff in H as [_ H].
  destruct (rows df); [discriminate | reflexivity].
Qed.

Lemma period_scored df : is_period df = true -> is_scored df = true.
Proof. unfold is_period. intros H. apply andb_true_iff in H as [H _]. exact H. Qed.

Lemma period_has_span df :
  is_period df = true -> exists span, observed_span df = Some span.
Proof.
  unfold is_period, has_dated_record, observed_span, span_of. intros H.
  apply andb_true_iff in H as [_ H].
  apply existsb_exists in H as (ir & Hin & Hd).
  destruct (coerce (Date (snd ir))) as [s | t |] eqn:Hc; try discriminate.
  assert (Ht : In t (timestamps (coerce_Date df))).
  { apply timestamps_row. exists (fst ir, set_Date (Timestamp t) (snd ir)).
    split; [| reflexivity].
    unfold coerce_Date. simpl. apply in_map_iff. exists ir.
    rewrite Hc. split; [reflexivity | exact Hin]. }
  destruct (timestamps (coerce_Date df)); [destruct Ht | eauto].
Qed.

Lemma scored_coerce_Date df :
  is_scored df = true -> is_scored (coerce_Date df) = true.
Proof.
  unfold is_scored, coerce_Date. simpl. intros H.
  apply andb_true_iff in H as [Hc H]. rewrite Hc. simpl.
  rewrite forallb_forall in *. intros ir Hin.
  apply in_map_iff in Hin as (ir' & <- & Hin'). simpl. apply H. exact Hin'.
Qed.

Lemma empty_coerce_Date df : empty (coerce_Date df) = empty df.
Proof. unfold empty, coerce_Date. simpl. destruct (rows df); reflexivity. Qed.

(** The trend of a period whose dates are parsed: a direction, and the
    frame is left alone. *)
Lemma period_trend_direction df :
  is_period df = true ->
  exists t,
    analyze_sentiment_trend (coerce_Date df) = (Ok (Trend t), coerce_Date df).
Proof.
  intros Hp.
  pose proof (scored_coerce_Date df (period_scored df Hp)) as Hc.
  destruct (scored_columns _ Hc) as [Hl Hs].
  destruct (analyze_sentiment_trend_scored (coerce_Date df)) as (t & Ht & _);
    [rewrite empty_coerce_Date; apply period_nonempty; exact Hp
    | exact Hl | exact Hs | apply scored_all_scored; exact Hc |].
  exists t.
  pose proof (trend_keeps_datetime_frame (coerce_Date df)
                (is_datetime64_coerce_Date df)) as Hf.
  destruct (analyze_sentiment_trend (coerce_Date df)) as [o d]. simpl in *.
  congruence.
Qed.

(** What [compare_time_periods] returns on two periods. *)
Lemma compare_time_periods_periods df1 df2 name1 name2 :
  is_period df1 = true -> is_period df2 = true ->
  exists c span1 span2 change,
    compare_time_periods df1 df2 name1 name2
    = (Ok (Compared c), (coerce_Date df1, coerce_Date df2))
    /\ observed_span df1 = Some span1
    /\ observed_span df2 = Some span2
    /\ summary c
       = summary_rules (review_change_of (len df1) (len df2))
                       (rating_change_of df1 df2) (sentiment_change_of df1 df2)
                       (version_changed_of df1 df2)
                       (main_version (both_versioned df1 df2) df1)
                       (main_version (both_versioned df1 df2) df2)
    /\ review_volume c
       = dict3 name1
               (PeriodVolume (len df1) (round_q (daily_avg_of (len df1) (days span1)) 2))
               name2
               (PeriodVolume (len df2) (round_q (daily_avg_of (len df2) (days span2)) 2))
               "change" change.
Proof.
  intros Hp1 Hp2.
  destruct (period_has_span df1 Hp1) as [span1 Hs1].
  destruct (period_has_span df2 Hp2) as [span2 Hs2].
  destruct (period_trend_direction df1 Hp1) as [t1 Ht1].
  destruct (period_trend_direction df2 Hp2) as [t2 Ht2].
  unfold compare_time_periods.
  rewrite (period_nonempty df1 Hp1), (period_nonempty df2 Hp2). simpl.
  rewrite !ensure_datetime_inplace_coerce.
  unfold observed_span in Hs1, Hs2. rewrite Hs1, Hs2, Ht1. simpl. rewrite Ht2. simpl.
  eexists _, span1, span2, _. split; [reflexivity |].
  split; [exact Hs1 |]. split; [exact Hs2 |]. simpl.
  rewrite rating_change_coerce_Date, sentiment_change_coerce_Date,
    version_changed_coerce_Date, !main_version_coerce_Date.
  split; reflexivity.
Qed.


(* ================================================================== *)
(** * The periods of the endpoint are periods *)
(* ================================================================== *)

Lemma dated_reset_index df :
  Forall (fun ir : Z * Row => notna_date (Date (snd ir)) = true) (rows df) ->
  Forall (fun ir : Z * Row => notna_date (Date (snd ir)) = true)
         (rows (reset_index df)).
Proof.
  unfold reset_index. simpl. rewrite !Forall_forall. intros H ir Hin.
  apply list_elem_of_lookup in Hin as [k Hk].
  rewrite list_lookup_imap in Hk.
  destruct (rows df !! k) as [ir' |] eqn:Hk'; [| discriminate].
  injection Hk as <-. simpl. apply H.
  apply list_elem_of_lookup. eauto.
Qed.

Lemma clean_data_dated raw df :
  _clean_data raw = Ok df ->
  Forall (fun ir : Z * Row => notna_date (Date (snd ir)) = true) (rows df).
Proof.
  unfold _clean_data. destruct (negb _); [discriminate |].
  intros [= <-]. apply dated_reset_index.
  unfold dropna_Date. simpl. apply Forall_forall. intros ir Hin.
  apply list_elem_of_In, filter_In in Hin as [_ H]. exact H.
Qed.

Lemma filter_by_date_range_dated data start_date end_date p :
  Forall (fun ir : Z * Row => notna_date (Date (snd ir)) = true) (rows data) ->
  filter_by_date_range (Some data) start_date end_date = Ok p ->
  Forall (fun ir : Z * Row => notna_date (Date (snd ir)) = true) (rows p).
Proof.
  unfold filter_by_date_range. intros Hd.
  destruct (to_datetime start_date); [| discriminate].
  destruct (to_datetime end_date); [| discriminate].
  intros [= <-]. simpl. rewrite Forall_forall in *. intros ir Hin.
  apply list_elem_of_In, filter_In in Hin as [Hin _]. apply Hd.
  apply list_elem_of_In. exact Hin.
Qed.

(** A non-empty frame with distinct labels and dated records is a period
    once it is classified, whatever the completion order. *)
Lemma analyze_dataframe_is_period self schedule df :
  NoDup (index df) ->
  complete_schedule schedule df ->
  (0 < len df)%nat ->
  Forall (fun ir : Z * Row => notna_date (Date (snd ir)) = true) (rows df) ->
  is_period (analyze_dataframe self schedule df) = true.
Proof.
  intros Hnd Hp Hlen Hd. unfold analyze_dataframe.
  pose proof (rows_run_batch (analyze_row self (columns df)) schedule df Hnd Hp) as Hr.
  pose proof (columns_run_batch (analyze_row self (columns df)) schedule df Hp) as Hc.
  rewrite (nonempty_len df Hlen) in Hc.
  unfold is_period, is_scored, has_dated_record.
  rewrite Hc, Hr. simpl.
  apply andb_true_iff. split.
  - apply forallb_forall. intros ir Hin.
    apply in_map_iff in Hin as (ir' & <- & _). reflexivity.
  - unfold len in Hlen. destruct (rows df) as [| ir rs]; [simpl in Hlen; lia |].
    apply Forall_cons in Hd as [Hir _]. simpl.
    destruct (Date (snd ir)); try discriminate. reflexivity.
Qed.

(** The endpoint hands [compare_time_periods] two periods. *)
Lemma endpoint_periods raw_data request p1 p2 self schedule1 schedule2 :
  periods_of raw_data request p1 p2 ->
  complete_schedule schedule1 p1 -> complete_schedule schedule2 p2 ->
  (0 < len p1)%nat -> (0 < len p2)%nat ->
  is_period (analyze_dataframe self schedule1 p1) = true
  /\ is_period (analyze_dataframe self schedule2 p2) = true.
Proof.
  intros Hper Hs1 Hs2 H1 H2.
  destruct (periods_have_distinct_labels _ _ _ _ Hper) as [Hn1 Hn2].
  destruct Hper as (raw & df & _ & Hc & Hf1 & Hf2).
  pose proof (clean_data_dated raw df Hc) as Hd.
  split; apply analyze_dataframe_is_period; try assumption;
    eapply filter_by_date_range_dated; eassumption.
Qed.

(* ================================================================== *)
(** * Rounding and the daily average *)
(* ================================================================== *)

Lemma round_half_even_exact x z : (x == inject_Z z)%Q -> round_half_even x = z.
Proof.
  intros Hx. unfold round_half_even.
  assert (Hf : Qfloor x = z).
  { rewrite (Qfloor_comp _ _ Hx). apply Qfloor_Z. }
  rewrite Hf.
  assert (Hr : (x - inject_Z z == 0)%Q) by (rewrite Hx; ring).
  rewrite (Qcompare_comp _ _ Hr (1 # 2) (1 # 2) (Qeq_refl _)).
  reflexivity.
Qed.





Lemma span_days_positive t ts : 0 < span_days t ts.
Proof.
  unfold span_days.
  pose proof (min_list_le t ts). pose proof (max_list_ge t ts).
  assert (0 <= (max_list t ts - min_list t ts) / NS_PER_DAY).
  { apply Z.div_pos; [lia | reflexivity]. }
  lia.
Qed.

Lemma day_of_bounds t d :
  day_of t = d -> NS_PER_DAY * d <= t < NS_PER_DAY * d + NS_PER_DAY.
Proof.
  unfold day_of. intros <-.
  pose proof (Z.mul_div_le t NS_PER_DAY ltac:(reflexivity)).
  pose proof (Z.mul_succ_div_gt t NS_PER_DAY ltac:(reflexivity)).
  lia.
Qed.






Lemma lookup_dict3_second {V : Type} name1 (v1 : V) name2 v2 key v :
  name2 <> key ->
  dict3 name1 v1 name2 v2 key v !! name2 = Some v2.
Proof.
  intros H2k. unfold dict3.
  rewrite lookup_insert_ne by congruence.
  apply lookup_insert_eq.
Qed.

(** Two periods of the same name share one entry: the second period's. *)
Lemma lookup_dict3_collision {V : Type} name (v1 : V) v2 key v :
  name <> key ->
  dict3 name v1 name v2 key v !! name = Some v2.
Proof. apply lookup_dict3_second. Qed.


(* ================================================================== *)
(** * The data processor: cleaning, selecting, counting *)
(* ================================================================== *)

(** ** Lists *)

Lemma filter_all {A : Type} (p : A -> bool) (l : list A) :
  (forall x, In x l -> p x = true) -> List.filter p l = l.
Proof.
  induction l as [| x l IH]; simpl; [reflexivity |].
  intros H. rewrite (H x (or_introl eq_refl)). f_equal.
  apply IH. intros y Hy. apply H. right. exact Hy.
Qed.

Lemma filter_filter {A : Type} (p q : A -> bool) (l : list A) :
  List.filter p (List.filter q l) = List.filter (fun x => q x && p x) l.
Proof.
  induction l as [| x l IH]; simpl; [reflexivity |].
  destruct (q x); simpl; [destruct (p x) |]; rewrite IH; reflexivity.
Qed.

Lemma filter_map_comm {A B : Type} (f : A -> B) (p : B -> bool) (l : list A) :
  List.filter p (map f l) = map f (List.filter (fun x => p (f x)) l).
Proof.
  induction l as [| x l IH]; simpl; [reflexivity |].
  destruct (p (f x)); simpl; rewrite IH; reflexivity.
Qed.

Lemma records_with_rows df rs : records (with_rows df rs) = map snd rs.
Proof. reflexivity. Qed.

Lemma records_reset_index df : records (reset_index df) = records df.
Proof.
  unfold records, reset_index. simpl.
  change (map snd ?l) with (snd <$> l).
  rewrite fmap_imap. apply imap_const.
Qed.

Lemma len_reset_index df : len (reset_index df) = len df.
Proof. unfold len, reset_index. simpl. apply length_imap. Qed.


(** ** [_clean_data] *)

(** The raw date of a record is gone exactly when it is [NaT]; a date
    that can be read is not. *)
Lemma notna_coerce_raw d : notna_date (coerce d) = true -> notna_raw_date d = true.
Proof. destruct d; simpl; [reflexivity | reflexivity | discriminate]. Qed.

Lemma is_valid_review_steps r :
  is_valid_review r
  = (is_some (Country r) && is_some (Rating r) && notna_raw_date (Date r)
     && is_some (Content r))
    && rating_in_range (Rating r)
    && notna_date (Date (parse_Date r)).
Proof.
  unfold is_valid_review, parse_Date. destruct r as [c ra d v t co l s]. simpl.
  destruct c, ra as [x |], co; simpl; try reflexivity;
    rewrite ?andb_false_r; try reflexivity.
  destruct (Qle_bool 1 x && Qle_bool x 5); simpl; [| rewrite ?andb_false_r; reflexivity].
  destruct d as [s' | t' |]; simpl; try reflexivity.
Qed.

Lemma clean_data_records raw df :
  _clean_data raw = Ok df ->
  columns df = columns raw
  /\ index df = map Z.of_nat (seq 0 (len df))
  /\ records df = map parse_Date (List.filter is_valid_review (records raw)).
Proof.
  unfold _clean_data. destruct (negb _); [discriminate |].
  intros [= <-]. split; [reflexivity |].
  split; [rewrite index_reset_index, len_reset_index; reflexivity |].
  rewrite records_reset_index. unfold dropna_Date, coerce_Date.
  rewrite !records_with_rows. simpl.
  rewrite filter_map_comm, map_map. simpl.
  rewrite !filter_filter.
  unfold records. rewrite filter_map_comm, !map_map.
  rewrite (filter_ext _ (fun x : Z * Row => is_valid_review (snd x))).
  - reflexivity.
  - intros [i r]. simpl. rewrite is_valid_review_steps.
    rewrite <- !andb_assoc. reflexivity.
Qed.

Lemma valid_review_parsed r :
  is_valid_review r = true ->
  is_some (Country (parse_Date r)) = true
  /\ is_some (Content (parse_Date r)) = true
  /\ rating_in_range (Rating (parse_Date r)) = true
  /\ notna_date (Date (parse_Date r)) = true.
Proof.
  unfold is_valid_review, parse_Date. simpl. intros H.
  apply andb_true_iff in H as [H Hd].
  apply andb_true_iff in H as [H Hc].
  apply andb_true_iff in H as [Hco Hr].
  auto.
Qed.

Lemma clean_data_valid raw df r :
  _clean_data raw = Ok df -> In r (records df) ->
  is_some (Country r) = true /\ is_some (Content r) = true
  /\ rating_in_range (Rating r) = true /\ notna_date (Date r) = true.
Proof.
  intros Hc Hin. destruct (clean_data_records raw df Hc) as (_ & _ & Hrec).
  rewrite Hrec in Hin. apply in_map_iff in Hin as (r0 & <- & Hin).
  apply filter_In in Hin as [_ Hv]. apply valid_review_parsed. exact Hv.
Qed.

Lemma rating_in_range_bounds r :
  rating_in_range r = true -> exists x, r = Some x /\ (1 <= x <= 5)%Q.
Proof.
  destruct r as [x |]; simpl; [| discriminate].
  intros H. apply andb_true_iff in H as [H1 H5].
  apply Qle_bool_iff in H1, H5. eauto.
Qed.

Lemma notna_date_timestamp d : notna_date d = true -> exists t, d = Timestamp t.
Proof. destruct d; simpl; try discriminate. eauto. Qed.

(** X1: what [_clean_data] returns.  The cleaned frame has the columns of
    the raw one; its records are the raw records that name a country,
    carry a rating between 1 and 5 and a content and whose date can be
    read, in their original order and with the date read; they are
    labelled 0, 1, 2, ... anew.  So every cleaned record has a country, a
    content, a rating between 1 and 5 and a timestamp. *)
Theorem clean_data_keeps_valid_reviews (raw df : DataFrame) :
  _clean_data raw = Ok df ->
  columns df = columns raw
  /\ index df = map Z.of_nat (seq 0 (len df))
  /\ records df = map parse_Date (List.filter is_valid_review (records raw))
  /\ (forall r, In r (records df) ->
        is_some (Country r) = true /\ is_some (Content r) = true
        /\ (exists x, Rating r = Some x /\ (1 <= x <= 5)%Q)
        /\ (exists t, Date r = Timestamp t)).
Proof.
  intros Hc. destruct (clean_data_records raw df Hc) as (Hcols & Hidx & Hrec).
  repeat split; try assumption;
    destruct (clean_data_valid raw df r Hc H) as (H1 & H2 & H3 & H4);
    try assumption.
  - apply rating_in_range_bounds. exact H3.
  - apply notna_date_timestamp. exact H4.
Qed.






(** ** [filter_by_date_range] *)

Lemma sublist_filter_rows {A : Type} (p : A -> bool) (l : list A) :
  sublist (List.filter p l) l.
Proof.
  induction l as [| x l IH]; simpl; [constructor |].
  destruct (p x); [apply sublist_skip | apply sublist_cons]; exact IH.
Qed.

Lemma in_range_spec s e d :
  in_range s e d = true <-> exists t, d = Timestamp t /\ s <= t <= e.
Proof.
  destruct d as [str | t |]; simpl.
  - split; [discriminate | intros (t & Ht & _); discriminate].
  - rewrite andb_true_iff, !Z.leb_le. split.
    + intros H. exists t. split; [reflexivity | exact H].
    + intros (t' & [= <-] & H). exact H.
  - split; [discriminate | intros (t & Ht & _); discriminate].
Qed.

Lemma filter_by_date_range_rows data start_date end_date s e :
  to_datetime start_date = Some s -> to_datetime end_date = Some e ->
  filter_by_date_range (Some data) start_date end_date
  = Ok (with_rows data
          (List.filter (fun ir : Z * Row => in_range s e (Date (snd ir))) (rows data))).
Proof. intros Hs He. unfold filter_by_date_range. rewrite Hs, He. reflexivity. Qed.

(** X3: what [filter_by_date_range] selects.  On loaded data, whose dates
    are timestamps, and when both dates of the request can be read, the
    function returns the records whose timestamp lies between the two,
    both ends included; they keep their order, their index labels and
    the columns.  A range whose end lies before its start selects
    nothing. *)
Theorem filter_by_date_range_selects
  (data : DataFrame) (start_date end_date : string) (s e : Z) :
  is_datetime64_dtype data = true ->
  to_datetime start_date = Some s ->
  to_datetime end_date = Some e ->
  exists p,
    filter_by_date_range (Some data) start_date end_date = Ok p
    /\ columns p = columns data
    /\ sublist (rows p) (rows data)
    /\ (forall ir, In ir (rows p) <->
                   In ir (rows data)
                   /\ exists t, Date (snd ir) = Timestamp t /\ s <= t <= e)
    /\ (e < s -> rows p = []).
Proof.
  intros _ Hs He. eexists. split; [apply filter_by_date_range_rows; eassumption |].
  simpl. split; [reflexivity |]. split; [apply sublist_filter_rows |].
  assert (Hin : forall ir,
             In ir (List.filter (fun ir : Z * Row => in_range s e (Date (snd ir)))
                                (rows data))
             <-> In ir (rows data)
                 /\ exists t, Date (snd ir) = Timestamp t /\ s <= t <= e).
  { intros ir. rewrite filter_In, in_range_spec. reflexivity. }
  split; [exact Hin |].
  intros Hinv.
  destruct (List.filter _ (rows data)) as [| ir rs] eqn:Hf; [reflexivity |].
  assert (H : In ir (ir :: rs)) by (left; reflexivity).
  apply Hin in H as (_ & t & _ & Ht). lia.
Qed.

(** X4: the end of the range is an instant, not a day.  When the end date
    of the request is read as midnight of day [d], a record of the loaded
    data stamped on day [d], at or after the start, is selected exactly
    when it is stamped at that midnight: reviews written later on the
    last day are left out. *)
Theorem filter_by_date_range_cuts_last_day
  (data p : DataFrame) (start_date end_date : string) (s d : Z)
  (ir : Z * Row) (t : Z) :
  is_datetime64_dtype data = true ->
  to_datetime start_date = Some s ->
  to_datetime end_date = Some (d * NS_PER_DAY) ->
  filter_by_date_range (Some data) start_date end_date = Ok p ->
  In ir (rows data) ->
  Date (snd ir) = Timestamp t ->
  day_of t = d ->
  s <= t ->
  (In ir (rows p) <-> t = d * NS_PER_DAY).
Proof.
  intros _ Hs He Hf Hin Hd Hday Hst.
  rewrite (filter_by_date_range_rows _ _ _ _ _ Hs He) in Hf.
  injection Hf as <-. simpl. rewrite filter_In, in_range_spec.
  pose proof (day_of_bounds t d Hday) as Hb.
  split.
  - intros (_ & t' & Ht' & Hr). rewrite Hd in Ht'. injection Ht' as <-. lia.
  - intros ->. split; [exact Hin |]. exists (d * NS_PER_DAY). split; [exact Hd | lia].
Qed.

(** ** [get_data_stats] *)

Lemma total_count_bump {K : Type} (eqb : K -> K -> bool) k (d : list (K * nat)) :
  total_count (bump eqb k d) = S (total_count d).
Proof.
  unfold total_count. induction d as [| [k' n] d IH]; simpl; [reflexivity |].
  destruct (eqb k k'); simpl; [reflexivity |]. rewrite IH. lia.
Qed.

Lemma total_count_tally {K : Type} (eqb : K -> K -> bool) (values : list K) :
  total_count (tally eqb values) = length values.
Proof.
  unfold tally.
  assert (H : forall d, total_count (fold_left (fun d k => bump eqb k d) values d)
                        = (total_count d + length values)%nat).
  { induction values as [| v values IH]; intros d; simpl; [lia |].
    rewrite IH, total_count_bump. lia. }
  rewrite H. reflexivity.
Qed.

Lemma total_count_perm {K : Type} (d d' : list (K * nat)) :
  Permutation d d' -> total_count d = total_count d'.
Proof.
  unfold total_count. induction 1; simpl; lia.
Qed.

Lemma total_count_value_counts {K : Type} (eqb : K -> K -> bool) cells :
  total_count (value_counts eqb cells) = length (omap id cells).
Proof.
  unfold value_counts.
  rewrite (total_count_perm _ _ (sort_desc_perm _)). apply total_count_tally.
Qed.

Lemma descending_cons {K : Type} (kv : K * nat) (d : list (K * nat)) :
  descending (kv :: d)
  <-> (forall kv', In kv' d -> (snd kv' <= snd kv)%nat) /\ descending d.
Proof.
  revert kv. induction d as [| kv0 d IH]; intros kv; simpl.
  - split; [intros _; split; [intros ? [] | exact I] | tauto].
  - specialize (IH kv0). simpl in IH. split.
    + intros [Hle Hd]. split; [| exact Hd].
      intros kv' [<- | Hin]; [exact Hle |].
      apply IH in Hd as [Hall _]. specialize (Hall kv' Hin). lia.
    + intros [Hall Hd]. split; [| exact Hd]. apply Hall. left. reflexivity.
Qed.

Lemma descending_insert_desc {K : Type} (kv : K * nat) (d : list (K * nat)) :
  descending d -> descending (insert_desc kv d).
Proof.
  induction d as [| kv0 d IH]; intros Hd.
  - simpl. tauto.
  - cbn [insert_desc]. destruct (Nat.ltb_spec (snd kv0) (snd kv)) as [Hlt | Hge].
    + apply descending_cons. split; [| exact Hd].
      apply descending_cons in Hd as [Hall _].
      intros kv' [<- | Hin]; [lia |]. specialize (Hall kv' Hin). lia.
    + apply descending_cons in Hd as [Hall Hd].
      apply descending_cons. split; [| apply IH; exact Hd].
      intros kv' Hin.
      apply (Permutation_in _ (insert_desc_perm kv d)) in Hin.
      destruct Hin as [<- | Hin]; [exact Hge | apply Hall; exact Hin].
Qed.

Lemma descending_sort_desc {K : Type} (d : list (K * nat)) : descending (sort_desc d).
Proof.
  unfold sort_desc.
  assert (H : forall acc, descending acc ->
                          descending (fold_left (fun acc kv => insert_desc kv acc) d acc)).
  { induction d as [| kv d IH]; intros acc Hacc; simpl; [exact Hacc |].
    apply IH. apply descending_insert_desc. exact Hacc. }
  apply H. exact I.
Qed.

Lemma length_present {A : Type} (cells : list (option A)) :
  length (omap id cells) = length (List.filter is_some cells).
Proof.
  unfold omap. induction cells as [| [x |] cells IH]; simpl; [reflexivity | |];
    rewrite ?IH; reflexivity.
Qed.

Lemma rated_column df : length (omap id (column Rating df)) = rated df.
Proof.
  rewrite length_present. unfold rated, records, column.
  rewrite <- (map_map snd Rating), filter_map_comm, length_map. reflexivity.
Qed.

Lemma get_data_stats_ok df st :
  get_data_stats df = Ok st ->
  st = {| stats_total_reviews := len df;
          rating_distribution := value_counts Qeq_bool (column Rating df);
          stats_average_rating := py_round (mean (column Rating df)) 2;
          date_range :=
            match timestamps df with
            | [] => None
            | t :: ts => Some (day_of (min_list t ts), day_of (max_list t ts))
            end;
          version_distribution := value_counts String.eqb (column Version df) |}.
Proof.
  unfold get_data_stats. destruct (negb _); [discriminate |].
  intros [= <-]. reflexivity.
Qed.

Lemma length_filter_le {A : Type} (p : A -> bool) (l : list A) :
  (length (List.filter p l) <= length l)%nat.
Proof. induction l as [| x l IH]; simpl; [lia |]. destruct (p x); simpl; lia. Qed.

(** X5: the counts of [get_data_stats] add up.  Whenever the statistics
    are computed, [total_reviews] is the number of records; the counts of
    [rating_distribution] add up to the number of records that carry a
    rating, hence to [total_reviews] when every record is rated, as after
    cleaning; the counts of [version_distribution] add up to at most
    [total_reviews]; both distributions list their entries by descending
    count, and no version is listed twice. *)
Theorem data_stats_counts_add_up (df : DataFrame) (st : DataStats) :
  get_data_stats df = Ok st ->
  stats_total_reviews st = len df
  /\ total_count (rating_distribution st) = rated df
  /\ (all_rated df -> total_count (rating_distribution st) = stats_total_reviews st)
  /\ (total_count (version_distribution st) <= stats_total_reviews st)%nat
  /\ descending (rating_distribution st)
  /\ descending (version_distribution st)
  /\ List.NoDup (map fst (version_distribution st)).
Proof.
  intros Hst. rewrite (get_data_stats_ok df st Hst). simpl.
  split; [reflexivity |].
  split; [rewrite total_count_value_counts; apply rated_column |].
  split.
  { intros Hall. rewrite total_count_value_counts, rated_column.
    unfold rated, len. rewrite filter_all; [apply length_map |].
    intros r Hin. destruct (rating_in_range_bounds _ (Hall r Hin)) as (x & -> & _).
    reflexivity. }
  split.
  { rewrite total_count_value_counts, length_present.
    unfold len, column. rewrite <- (length_map (fun ir : Z * Row => Version (snd ir)) (rows df)).
    apply length_filter_le. }
  split; [apply descending_sort_desc |].
  split; [apply descending_sort_desc |].
  unfold value_counts.
  eapply Permutation_NoDup; [apply Permutation_map; symmetry; apply sort_desc_perm |].
  apply NoDup_keys_tally.
Qed.

(** The mean of numbers between two bounds lies between them. *)
Lemma Qsum_bounds (a b : Q) (xs : list Q) :
  (forall x, In x xs -> (a <= x <= b)%Q) ->
  (a * Qlen xs <= Qsum xs <= b * Qlen xs)%Q.
Proof.
  induction xs as [| x xs IH]; intros H.
  - change (Qlen (@nil Q)) with 0%Q. simpl. lra.
  - rewrite Qlen_cons. simpl.
    destruct (H x (or_introl eq_refl)) as [Ha Hb].
    destruct IH as [IHa IHb]; [intros y Hy; apply H; right; exact Hy |]. lra.
Qed.

Lemma Qlen_pos {A : Type} (x : A) (xs : list A) : (0 < Qlen (x :: xs))%Q.
Proof. rewrite Qlen_cons. pose proof (Qlen_nonneg xs). lra. Qed.

Lemma mean_bounds (a b : Q) (cells : list (option Q)) :
  (forall x, In (Some x) cells -> (a <= x <= b)%Q) ->
  (exists x, In (Some x) cells) ->
  exists q, mean cells = Fin q /\ (a <= q <= b)%Q.
Proof.
  intros Hall [x0 Hx0]. unfold mean.
  assert (Hin : forall x, In x (omap id cells) -> (a <= x <= b)%Q).
  { intros x Hx. apply Hall. apply list_elem_of_In in Hx.
    apply list_elem_of_In. apply list_elem_of_omap in Hx as (c & Hc & Hid).
    simpl in Hid. subst c. exact Hc. }
  assert (Hne : In x0 (omap id cells)).
  { apply list_elem_of_In. apply list_elem_of_omap. exists (Some x0).
    split; [apply list_elem_of_In; exact Hx0 | reflexivity]. }
  destruct (omap id cells) as [| x xs] eqn:E; [destruct Hne |].
  eexists. split; [reflexivity |].
  pose proof (Qsum_bounds a b (x :: xs) Hin) as [Hlo Hhi].
  pose proof (Qlen_pos x xs) as Hpos.
  split.
  - apply Qle_shift_div_l; [exact Hpos | exact Hlo].
  - apply Qle_shift_div_r; [exact Hpos | exact Hhi].
Qed.

(** Rounding does not cross a whole number. *)
Lemma round_half_even_ge x z : (inject_Z z <= x)%Q -> z <= round_half_even x.
Proof.
  intros H. unfold round_half_even.
  assert (Hf : z <= Qfloor x).
  { rewrite <- (Qfloor_Z z). apply Qfloor_resp_le. exact H. }
  destruct (Qcompare _ _); [destruct (Z.even _) | |]; lia.
Qed.

Lemma round_half_even_le x z : (x <= inject_Z z)%Q -> round_half_even x <= z.
Proof.
  intros H.
  destruct (Qlt_le_dec x (inject_Z z)) as [Hlt | Hge].
  - unfold round_half_even.
    assert (Hf : Qfloor x < z).
    { apply Z.lt_nge. intros Hzf.
      pose proof (Qfloor_le x) as Hfl.
      assert (inject_Z z <= inject_Z (Qfloor x))%Q by (rewrite <- Zle_Qle; exact Hzf).
      lra. }
    destruct (Qcompare _ _); [destruct (Z.even _) | |]; lia.
  - rewrite (round_half_even_exact x z); [lia |]. lra.
Qed.

Lemma round_q_bounds (a b : Z) x :
  (inject_Z a <= x <= inject_Z b)%Q ->
  (inject_Z a <= round_q x 2 <= inject_Z b)%Q.
Proof.
  intros [Ha Hb]. unfold round_q. change (pow10 2) with 100%Q.
  assert (Hlo : a * 100 <= round_half_even (x * 100)).
  { apply round_half_even_ge. rewrite inject_Z_mult.
    change (inject_Z 100) with 100%Q. lra. }
  assert (Hhi : round_half_even (x * 100) <= b * 100).
  { apply round_half_even_le. rewrite inject_Z_mult.
    change (inject_Z 100) with 100%Q. lra. }
  rewrite Zle_Qle in Hlo, Hhi. rewrite inject_Z_mult in Hlo, Hhi.
  change (inject_Z 100) with 100%Q in Hlo, Hhi.
  split.
  - apply Qle_shift_div_l; [reflexivity | exact Hlo].
  - apply Qle_shift_div_r; [reflexivity | exact Hhi].
Qed.

Lemma mean_nothing cells :
  (forall x, ~ In (Some x) cells) -> mean cells = NaN.
Proof.
  intros H. unfold mean.
  destruct (omap id cells) as [| x xs] eqn:E; [reflexivity |].
  exfalso. apply (H x). apply list_elem_of_In.
  assert (Hx : x ∈ omap id cells) by (rewrite E; left).
  apply list_elem_of_omap in Hx as (c & Hc & Hid). simpl in Hid. subst c. exact Hc.
Qed.

Lemma in_column {A : Type} (f : Row -> A) df x :
  In x (column f df) <-> exists r, In r (records df) /\ f r = x.
Proof.
  unfold column, records. rewrite in_map_iff. split.
  - intros (ir & Hf & Hin). exists (snd ir). split; [apply in_map; exact Hin | exact Hf].
  - intros (r & Hin & Hf). apply in_map_iff in Hin as (ir & <- & Hin).
    exists ir. split; assumption.
Qed.

(** X6: the average rating of [get_data_stats].  On a frame without a
    rated record the reported average is [nan]; on a non-empty frame
    whose ratings all lie between 1 and 5, as after cleaning, it is a
    number between 1 and 5, rounding included. *)
Theorem data_stats_average_rating (df : DataFrame) (st : DataStats) :
  get_data_stats df = Ok st ->
  (rated df = 0%nat -> stats_average_rating st = NaN)
  /\ ((0 < len df)%nat -> all_rated df ->
      exists q, stats_average_rating st = Fin q /\ (1 <= q <= 5)%Q).
Proof.
  intros Hst. rewrite (get_data_stats_ok df st Hst). simpl. split.
  - intros Hr. rewrite mean_nothing; [reflexivity |].
    intros x Hin. apply in_column in Hin as (r & Hin & Hx).
    unfold rated in Hr.
    assert (Hf : In r (List.filter (fun r => is_some (Rating r)) (records df))).
    { apply filter_In. split; [exact Hin | rewrite Hx; reflexivity]. }
    destruct (List.filter _ (records df)); [destruct Hf | discriminate].
  - intros Hlen Hall.
    destruct (mean_bounds 1 5 (column Rating df)) as (q & Hq & Hb).
    + intros x Hin. apply in_column in Hin as (r & Hin & Hx).
      destruct (rating_in_range_bounds _ (Hall r Hin)) as (y & Hy & Hb).
      congruence.
    + unfold len in Hlen. destruct (rows df) as [| [i r] rs] eqn:E; [simpl in Hlen; lia |].
      destruct (rating_in_range_bounds (Rating r)) as (y & Hy & _).
      { apply Hall. unfold records. rewrite E. left. reflexivity. }
      exists y. apply in_column. exists r. split; [| exact Hy].
      unfold records. rewrite E. left. reflexivity.
    + rewrite Hq. simpl. eexists. split; [reflexivity |].
      apply (round_q_bounds 1 5). exact Hb.
Qed.

Lemma day_of_mono t u : t <= u -> day_of t <= day_of u.
Proof. intros H. unfold day_of. apply Z.div_le_mono; [reflexivity | exact H]. Qed.

Lemma timestamps_records df t :
  In t (timestamps df) <-> exists r, In r (records df) /\ Date r = Timestamp t.
Proof.
  unfold timestamps, records. split.
  - intros H. apply list_elem_of_In in H.
    apply list_elem_of_omap in H as (ir & Hin & Hd).
    destruct (Date (snd ir)) eqn:E; try discriminate. injection Hd as ->.
    exists (snd ir). split; [apply in_map; apply list_elem_of_In; exact Hin | exact E].
  - intros (r & Hin & Hd). apply in_map_iff in Hin as (ir & <- & Hin).
    apply list_elem_of_In. apply list_elem_of_omap. exists ir.
    split; [apply list_elem_of_In; exact Hin | rewrite Hd; reflexivity].
Qed.

Lemma dated_timestamps df :
  all_dated df -> timestamps df = [] -> rows df = [].
Proof.
  intros Hall Ht. destruct (rows df) as [| [i r] rs] eqn:E; [reflexivity |].
  assert (Hin : In r (records df)) by (unfold records; rewrite E; left; reflexivity).
  destruct (notna_date_timestamp _ (Hall r Hin)) as [t Hd].
  assert (H : In t (timestamps df)) by (apply timestamps_records; eauto).
  rewrite Ht in H. destruct H.
Qed.

(** The span of days of the timestamps [t :: ts]. *)
Lemma day_span_covers t ts :
  day_of (min_list t ts) <= day_of (max_list t ts)
  /\ (forall u, In u (t :: ts) ->
        day_of (min_list t ts) <= day_of u <= day_of (max_list t ts))
  /\ In (min_list t ts) (t :: ts) /\ In (max_list t ts) (t :: ts).
Proof.
  pose proof (min_list_le t ts). pose proof (max_list_ge t ts).
  split; [apply day_of_mono; lia |].
  split; [| split; [apply min_list_in | apply max_list_in]].
  intros u Hu. split; apply day_of_mono.
  - destruct Hu as [<- | Hu]; [assumption | apply min_list_lower; exact Hu].
  - destruct Hu as [<- | Hu]; [assumption | apply max_list_upper; exact Hu].
Qed.

(** X7: the date range of [get_data_stats].  On a frame whose records all
    carry a timestamp, as after cleaning, the range is missing exactly
    when the frame is empty; otherwise it names the days of two records
    of the frame, the first not after the second, and the day of every
    record lies between them. *)
Theorem data_stats_date_range (df : DataFrame) (st : DataStats) :
  get_data_stats df = Ok st ->
  all_dated df ->
  match date_range st with
  | None => len df = 0%nat
  | Some (lo, hi) =>
      (0 < len df)%nat /\ lo <= hi
      /\ (forall r t, In r (records df) -> Date r = Timestamp t ->
                      lo <= day_of t <= hi)
      /\ (exists r t, In r (records df) /\ Date r = Timestamp t /\ day_of t = lo)
      /\ (exists r t, In r (records df) /\ Date r = Timestamp t /\ day_of t = hi)
  end.
Proof.
  intros Hst Hall. rewrite (get_data_stats_ok df st Hst). simpl.
  destruct (timestamps df) as [| t ts] eqn:E.
  - unfold len. rewrite (dated_timestamps df Hall E). reflexivity.
  - destruct (day_span_covers t ts) as (Hle & Hcov & Hlo & Hhi).
    rewrite <- E in Hlo, Hhi.
    apply timestamps_records in Hlo as (rlo & Hrlo & Hdlo).
    apply timestamps_records in Hhi as (rhi & Hrhi & Hdhi).
    split.
    { unfold len, records in *. destruct (rows df); [destruct Hrlo | simpl; lia]. }
    split; [exact Hle |]. split; [| split; eauto 6].
    intros r u Hin Hd. apply Hcov. rewrite <- E.
    apply timestamps_records. eauto.
Qed.

(* ================================================================== *)
(** * The endpoints *)
(* ================================================================== *)

(** Split on the innermost computation a hypothesis or the goal is
    waiting for. *)
Ltac next_step_in H :=
  match type of H with
  | context [match ?x with _ => _ end] =>
      lazymatch x with
      | context [match _ with _ => _ end] => fail
      | _ => destruct x eqn:?
      end
  end.

Ltac next_step :=
  match goal with
  | |- context [match ?x with _ => _ end] =>
      lazymatch x with
      | context [match _ with _ => _ end] => fail
      | _ => destruct x eqn:?
      end
  end.

Ltac open_endpoint :=
  unfold compare_periods, analyze_single_period, get_data_status, get_date_range;
  open_outcome.

(** ** [GET /api/period-analysis] *)

Lemma analyze_single_period_below raw_data sa schedule start_date end_date raw df p :
  raw_data = Ok raw -> _clean_data raw = Ok df ->
  filter_by_date_range (Some df) start_date end_date = Ok p ->
  (len p <? 10)%nat = true ->
  analyze_single_period raw_data sa schedule start_date end_date
  = PeriodWarning (len p).
Proof.
  intros -> Hc Hf Hlt. open_endpoint. rewrite Hc, Hf, Hlt. reflexivity.
Qed.

Lemma analyze_single_period_above raw_data sa schedule start_date end_date raw df p :
  raw_data = Ok raw -> _clean_data raw = Ok df ->
  filter_by_date_range (Some df) start_date end_date = Ok p ->
  (len p <? 10)%nat = false ->
  (forall n, analyze_single_period raw_data sa schedule start_date end_date
             <> PeriodWarning n)
  /\ (forall info,
        analyze_single_period raw_data sa schedule start_date end_date
        = PeriodSuccess info ->
        review_count info = len p /\ stats_total_reviews (stats info) = len p).
Proof.
  intros -> Hc Hf Hge. open_endpoint. rewrite Hc, Hf, Hge. simpl.
  destruct (get_data_stats (analyze_dataframe sa schedule p)) as [st | e] eqn:Hst;
    [| split; [intros n | intros info]; destruct e; discriminate].
  apply get_data_stats_ok in Hst.
  destruct (analyze_review_volume _) as [[v | e] d];
    [| split; [intros n | intros info]; destruct e; discriminate].
  destruct (analyze_sentiment_distribution d) as [sd | e];
    [| split; [intros n | intros info]; destruct e; discriminate].
  destruct (analyze_sentiment_trend d) as [[t | e] d'];
    [| split; [intros n | intros info]; destruct e; discriminate].
  split; [discriminate |].
  intros info [= <-]. simpl. split; [reflexivity |].
  rewrite Hst. simpl. apply len_analyze_dataframe.
Qed.

(** X8: the admission gate of the single-period endpoint.  Once the data
    is loaded and the two dates are read, [GET /api/period-analysis]
    answers with the warning, carrying the review count and no analysis,
    exactly when the period holds fewer than 10 records; an answer with
    an analysis reports the number of records of the period, at least
    10, both as [review_count] and as [total_reviews] of its
    statistics. *)
Theorem analyze_single_period_admission_gate
  (raw_data : Outcome DataFrame) (sa : SentimentAnalyzer) (schedule : list nat)
  (start_date end_date : string) (raw df p : DataFrame) :
  raw_data = Ok raw ->
  _clean_data raw = Ok df ->
  filter_by_date_range (Some df) start_date end_date = Ok p ->
  ((len p < 10)%nat ->
   analyze_single_period raw_data sa schedule start_date end_date
   = PeriodWarning (len p))
  /\ ((len p < 10)%nat <->
      exists n, analyze_single_period raw_data sa schedule start_date end_date
                = PeriodWarning n)
  /\ (forall info,
        analyze_single_period raw_data sa schedule start_date end_date
        = PeriodSuccess info ->
        (10 <= len p)%nat /\ review_count info = len p
        /\ stats_total_reviews (stats info) = len p).
Proof.
  intros Hraw Hc Hf.
  destruct (len p <? 10)%nat eqn:Hg.
  - pose proof (analyze_single_period_below raw_data sa schedule start_date end_date
                  raw df p Hraw Hc Hf Hg) as Hw.
    apply Nat.ltb_lt in Hg.
    split; [intros _; exact Hw |]. split.
    + split; [intros _; eauto | intros _; exact Hg].
    + intros info Hs. rewrite Hw in Hs. discriminate.
  - destruct (analyze_single_period_above raw_data sa schedule start_date end_date
                raw df p Hraw Hc Hf Hg) as [Hnw Hs].
    apply Nat.ltb_ge in Hg.
    split; [intros; lia |]. split.
    + split; [intros; lia | intros (n & Hw); destruct (Hnw _ Hw)].
    + intros info Hi. destruct (Hs info Hi). auto.
Qed.


(** ** Errors of the request *)

Lemma filter_by_date_range_unreadable data start_date end_date :
  to_datetime start_date = None \/ to_datetime end_date = None ->
  filter_by_date_range (Some data) start_date end_date = Raise ValueError.
Proof.
  unfold filter_by_date_range. intros [-> | ->]; [reflexivity |].
  destruct (to_datetime start_date); reflexivity.
Qed.

Lemma filter_by_date_range_outcome data start_date end_date :
  (exists p, filter_by_date_range (Some data) start_date end_date = Ok p)
  \/ filter_by_date_range (Some data) start_date end_date = Raise ValueError.
Proof.
  unfold filter_by_date_range.
  destruct (to_datetime start_date), (to_datetime end_date); eauto.
Qed.

(** X10: a date that cannot be read is a client error.  Once the data is
    loaded, a request one of whose dates makes [pd.to_datetime] raise is
    answered with status 400 by both [POST /api/comparison] and
    [GET /api/period-analysis], whatever the other dates and however
    many records the periods hold. *)
Theorem unreadable_date_is_bad_request
  (raw_data : Outcome DataFrame) (sa : SentimentAnalyzer) (s1 s2 : list nat)
  (request : ComparisonRequest) (raw df : DataFrame) :
  raw_data = Ok raw ->
  _clean_data raw = Ok df ->
  (to_datetime (period1_start request) = None
   \/ to_datetime (period1_end request) = None ->
   compare_periods raw_data sa s1 s2 request = HTTP400
   /\ analyze_single_period raw_data sa s1
        (period1_start request) (period1_end request) = PeriodHTTP400)
  /\ (to_datetime (period2_start request) = None
      \/ to_datetime (period2_end request) = None ->
      compare_periods raw_data sa s1 s2 request = HTTP400
      /\ analyze_single_period raw_data sa s2
           (period2_start request) (period2_end request) = PeriodHTTP400).
Proof.
  intros -> Hc. split; intros Hbad.
  - pose proof (filter_by_date_range_unreadable df _ _ Hbad) as Hf.
    open_endpoint. rewrite Hc, Hf. split; reflexivity.
  - pose proof (filter_by_date_range_unreadable df _ _ Hbad) as Hf.
    open_endpoint. rewrite Hc, Hf. split; [| reflexivity].
    destruct (filter_by_date_range_outcome df (period1_start request)
                (period1_end request)) as [[p1 ->] | ->]; reflexivity.
Qed.

(** ** The report of the comparison *)

Lemma write_report_path fmt c path :
  write_report fmt c = Ok path ->
  (path = None <-> ~ In (lower fmt) report_formats).
Proof.
  unfold write_report, report_formats. open_outcome.
  destruct (existsb (String.eqb (lower fmt)) ["json"; "text"; "html"]) eqn:E.
  - apply existsb_exists in E as (f & Hin & Hf). apply String.eqb_eq in Hf. subst f.
    destruct (generate_report (lower fmt) c); [| discriminate].
    intros [= <-]. split; [discriminate | contradiction].
  - intros [= <-]. split; [| reflexivity]. intros _ Hin.
    assert (H : existsb (String.eqb (lower fmt)) ["json"; "text"; "html"] = true).
    { apply existsb_exists. exists (lower fmt). split; [exact Hin | apply String.eqb_refl]. }
    congruence.
Qed.

(** X11: the report format.  In an answer of [POST /api/comparison] with
    a full analysis, [report_path] is missing exactly when the requested
    format, lower-cased, is none of "json", "text" and "html": an unknown
    format is no error, the analysis is returned without a report; for
    the three known formats the path is the one the report writer
    returned for the lower-cased format. *)
Theorem comparison_report_format
  (raw_data : Outcome DataFrame) (sa : SentimentAnalyzer) (s1 s2 : list nat)
  (request : ComparisonRequest) (i1 i2 : PeriodInfo) (c : ComparisonResult)
  (path : option string) :
  compare_periods raw_data sa s1 s2 request = Success i1 i2 c path ->
  (path = None <-> ~ In (lower (output_format request)) report_formats)
  /\ (forall file, path = Some file ->
        generate_report (lower (output_format request)) c = Ok file).
Proof.
  unfold compare_periods. unfold mbind, Outcome_bind, through, respond. intros H.
  destruct raw_data as [raw | e]; [| destruct e; discriminate].
  destruct (_clean_data raw) as [df | e]; [| destruct e; discriminate].
  destruct (filter_by_date_range (Some df) (period1_start request) _) as [p1 | e];
    [| destruct e; discriminate].
  destruct (filter_by_date_range (Some df) (period2_start request) _) as [p2 | e];
    [| destruct e; discriminate].
  destruct (len p1 <? 10)%nat; [discriminate |].
  destruct (len p2 <? 10)%nat; [discriminate |]. cbn [orb] in H.
  destruct (get_data_stats (analyze_dataframe sa s1 p1)) as [st1 | e];
    [| destruct e; discriminate].
  destruct (get_data_stats (analyze_dataframe sa s2 p2)) as [st2 | e];
    [| destruct e; discriminate].
  destruct (analyze_review_volume (analyze_dataframe sa s1 p1)) as [[v1 | e] d1];
    [| destruct e; discriminate].
  destruct (analyze_review_volume (analyze_dataframe sa s2 p2)) as [[v2 | e] d2];
    [| destruct e; discriminate].
  destruct (analyze_sentiment_distribution d1) as [sd1 | e];
    [| destruct e; discriminate].
  destruct (analyze_sentiment_distribution d2) as [sd2 | e];
    [| destruct e; discriminate].
  destruct (analyze_sentiment_trend d1) as [[t1 | e] d1'];
    [| destruct e; discriminate].
  destruct (analyze_sentiment_trend d2) as [[t2 | e] d2'];
    [| destruct e; discriminate].
  destruct (fst (compare_time_periods d1' d2' _ _)) as [c' | e];
    [| destruct e; discriminate].
  destruct (write_report (output_format request) c') as [path' | e] eqn:Hw;
    [| destruct e; discriminate].
  injection H as _ _ <- <-.
  split; [apply (write_report_path _ _ _ Hw) |].
  intros file ->. revert Hw. unfold write_report. unfold mbind, Outcome_bind.
  destruct (existsb _ _); [| discriminate].
  destruct (generate_report _ c'); [| discriminate].
  intros [= <-]. reflexivity.
Qed.

(** ** [GET /api/data/status] and [GET /api/data/date-range] *)

Lemma clean_data_all_rated raw df : _clean_data raw = Ok df -> all_rated df.
Proof. intros Hc r Hin. apply (clean_data_valid raw df r Hc Hin). Qed.

Lemma clean_data_all_dated raw df : _clean_data raw = Ok df -> all_dated df.
Proof. intros Hc r Hin. apply (clean_data_valid raw df r Hc Hin). Qed.

Lemma empty_no_timestamps df : empty df = true -> timestamps df = [].
Proof.
  unfold empty, timestamps. destruct (rows df); [reflexivity | discriminate].
Qed.

(** X12: the two data endpoints agree on the dates.  Once the review
    file is read and has the columns that cleaning needs,
    [GET /api/data/date-range] always succeeds: it reports no dates
    exactly when no record survives cleaning, and otherwise the days of
    two cleaned records, the first not after the second, between which
    the day of every cleaned record lies.  Whenever
    [GET /api/data/status] succeeds on the same file, its [date_range]
    holds the same two days. *)
Theorem date_range_endpoint_covers_the_data
  (raw_data : Outcome DataFrame) (raw df : DataFrame) :
  raw_data = Ok raw ->
  _clean_data raw = Ok df ->
  exists min_date max_date,
    get_date_range raw_data = DateRangeSuccess min_date max_date
    /\ (min_date = None <-> len df = 0%nat)
    /\ (max_date = None <-> len df = 0%nat)
    /\ (forall lo hi, min_date = Some lo -> max_date = Some hi ->
          lo <= hi
          /\ (forall r t, In r (records df) -> Date r = Timestamp t ->
                          lo <= day_of t <= hi)
          /\ (exists r t, In r (records df) /\ Date r = Timestamp t /\ day_of t = lo)
          /\ (exists r t, In r (records df) /\ Date r = Timestamp t /\ day_of t = hi))
    /\ (forall st, get_data_status raw_data = StatusSuccess st ->
          match date_range st with
          | Some (lo, hi) => min_date = Some lo /\ max_date = Some hi
          | None => min_date = None /\ max_date = None
          end).
Proof.
  intros -> Hc. pose proof (clean_data_all_dated raw df Hc) as Hall.
  open_endpoint. rewrite Hc.
  destruct (empty df) eqn:He.
  - pose proof (proj1 (empty_len df) He) as Hlen.
    exists None, None. split; [reflexivity |].
    split; [tauto |]. split; [tauto |]. split; [discriminate |].
    intros st Hst. destruct (get_data_stats df) as [st' | e] eqn:Hs; [| discriminate].
    injection Hst as <-. rewrite (get_data_stats_ok df st' Hs). simpl.
    rewrite (empty_no_timestamps df He). split; reflexivity.
  - assert (Hlen : len df <> 0%nat).
    { intros H. apply empty_len in H. congruence. }
    destruct (timestamps df) as [| t ts] eqn:E.
    { exfalso. apply Hlen. unfold len. rewrite (dated_timestamps df Hall E). reflexivity. }
    eexists _, _. split; [reflexivity |].
    split; [split; [discriminate | contradiction] |].
    split; [split; [discriminate | contradiction] |].
    split.
    + intros lo hi [= <-] [= <-].
      destruct (day_span_covers t ts) as (Hle & Hcov & Hlo & Hhi).
      rewrite <- E in Hlo, Hhi.
      apply timestamps_records in Hlo as (rlo & Hrlo & Hdlo).
      apply timestamps_records in Hhi as (rhi & Hrhi & Hdhi).
      split; [exact Hle |]. split; [| split; eauto 6].
      intros r u Hin Hd. apply Hcov. rewrite <- E. apply timestamps_records. eauto.
    + intros st Hst. destruct (get_data_stats df) as [st' | e] eqn:Hs; [| discriminate].
      injection Hst as <-. rewrite (get_data_stats_ok df st' Hs). simpl.
      rewrite E. split; reflexivity.
Qed.

(** X13: what [GET /api/data/status] reports.  A failure of the read,
    of the cleaning or of the statistics is answered with status 500.
    In a successful answer
    the statistics describe the cleaned file: [total_reviews] is the
    number of records that survived cleaning, the counts of
    [rating_distribution] add up to it, and [average_rating] is a number
    between 1 and 5 unless no record survived, in which case it is
    [nan]. *)
Theorem data_status_describes_cleaned_file (raw_data : Outcome DataFrame) :
  (forall e, raw_data = Raise e -> get_data_status raw_data = StatusHTTP500)
  /\ (forall raw e, raw_data = Ok raw -> _clean_data raw = Raise e ->
        get_data_status raw_data = StatusHTTP500)
  /\ (forall raw df e, raw_data = Ok raw -> _clean_data raw = Ok df ->
        get_data_stats df = Raise e ->
        get_data_status raw_data = StatusHTTP500)
  /\ (forall st, get_data_status raw_data = StatusSuccess st ->
        exists raw df,
          raw_data = Ok raw /\ _clean_data raw = Ok df
          /\ stats_total_reviews st
             = length (List.filter is_valid_review (records raw))
          /\ total_count (rating_distribution st) = stats_total_reviews st
          /\ (stats_total_reviews st = 0%nat -> stats_average_rating st = NaN)
          /\ ((0 < stats_total_reviews st)%nat ->
              exists q, stats_average_rating st = Fin q /\ (1 <= q <= 5)%Q)).
Proof.
  split; [intros e ->; reflexivity |].
  split; [intros raw e -> Hc; open_endpoint; rewrite Hc; reflexivity |].
  split; [intros raw df e -> Hc Hs; open_endpoint; rewrite Hc; simpl;
          rewrite Hs; reflexivity |].
  intros st. open_endpoint.
  destruct raw_data as [raw | e]; [| discriminate].
  destruct (_clean_data raw) as [df | e] eqn:Hc; [| discriminate].
  destruct (get_data_stats df) as [st' | e] eqn:Hs; [| discriminate].
  intros [= <-]. exists raw, df. split; [reflexivity |]. split; [exact Hc |].
  pose proof (clean_data_all_rated raw df Hc) as Hall.
  destruct (clean_data_records raw df Hc) as (_ & _ & Hrec).
  assert (Hrated : rated df = len df).
  { unfold rated, len. rewrite filter_all; [apply length_map |].
    intros r Hin. destruct (rating_in_range_bounds _ (Hall r Hin)) as (x & -> & _).
    reflexivity. }
  rewrite (get_data_stats_ok df st' Hs). simpl.
  split.
  { unfold len. rewrite <- (length_map snd (rows df)).
    change (map snd (rows df)) with (records df).
    rewrite Hrec. apply length_map. }
  split; [rewrite total_count_value_counts, rated_column; exact Hrated |].
  split.
  - intros Hz. rewrite mean_nothing; [reflexivity |].
    intros x Hin. apply in_column in Hin as (r & Hin & _).
    unfold len, records in *. destruct (rows df); [destruct Hin | discriminate].
  - intros Hpos.
    destruct (mean_bounds 1 5 (column Rating df)) as (q & Hq & Hb).
    + intros x Hin. apply in_column in Hin as (r & Hin & Hx).
      destruct (rating_in_range_bounds _ (Hall r Hin)) as (y & Hy & Hb).
      congruence.
    + unfold len in Hpos. destruct (rows df) as [| [i r] rs] eqn:E; [simpl in Hpos; lia |].
      destruct (rating_in_range_bounds (Rating r)) as (y & Hy & _).
      { apply Hall. unfold records. rewrite E. left. reflexivity. }
      exists y. apply in_column. exists r. split; [| exact Hy].
      unfold records. rewrite E. left. reflexivity.
    + rewrite Hq. simpl. eexists. split; [reflexivity |].
      apply (round_q_bounds 1 5). exact Hb.
Qed.

(* ================================================================== *)
(** * More on the classifier *)
(* ================================================================== *)

(** ** [analyze_text] *)



(** X15: under the lexicon strategy the sentinel tells a fallback.  With
    a neutral threshold of at most 0.5 (the default is 0.15),
    [analyze_text] returns exactly [{"label": "neutral", "score": 0.5}]
    if and only if the input was not a non-empty string or the scorer
    raised on it: a text the scorer scored never gets that result, since
    a score of 0.5 is labelled positive. *)
Theorem lexicon_sentinel_means_fallback
  (self : SentimentAnalyzer) (polarity_scores : string -> option Q)
  (text : pyvalue) :
  analyzer self = VADER polarity_scores ->
  (neutral_threshold self <= 1 # 2)%Q ->
  (analyze_text self text = neutral_sentinel
   <-> is_text text = false
       \/ exists s, text = PyStr s /\ polarity_scores s = None).
Proof.
  intros Ha Hth. split.
  - intros Hres. destruct text as [| s | | |]; try (left; reflexivity).
    simpl. destruct (String.eqb_spec s EmptyString) as [-> | Hne];
      [left; reflexivity | right].
    exists s. split; [reflexivity |].
    revert Hres. unfold analyze_text. rewrite Ha.
    destruct (String.eqb_spec s EmptyString) as [E | _]; [contradiction |].
    destruct (polarity_scores s) as [compound |]; [| reflexivity].
    unfold neutral_sentinel. intros [= Hl Hs]. exfalso. subst compound.
    destruct (Qle_bool (neutral_threshold self) (1 # 2)) eqn:E; [discriminate |].
    apply Qle_bool_iff in Hth. congruence.
  - intros [Hnt | (s & -> & Hnone)].
    + destruct text as [| s | | |]; try reflexivity.
      simpl in Hnt. unfold analyze_text.
      destruct (String.eqb s EmptyString); [reflexivity | discriminate].
    + unfold analyze_text. rewrite Ha, Hnone.
      destruct (String.eqb s EmptyString); reflexivity.
Qed.

(** ** [analyze_dataframe] *)

Lemma set_sentiment_twice r r' row :
  set_sentiment r (set_sentiment r' row) = set_sentiment r row.
Proof. reflexivity. Qed.

Lemma combined_text_classified cols r row :
  combined_text (add_sentiment_columns cols) (set_sentiment r row)
  = combined_text cols row.
Proof. reflexivity. Qed.

Lemma add_sentiment_columns_twice cols :
  add_sentiment_columns (add_sentiment_columns cols) = add_sentiment_columns cols.
Proof. reflexivity. Qed.

Lemma attach_classified self cols ir :
  attach (analyze_row self (add_sentiment_columns cols))
         (attach (analyze_row self cols) ir)
  = attach (analyze_row self cols) ir.
Proof.
  unfold attach. simpl. rewrite set_sentiment_twice.
  unfold analyze_row. rewrite combined_text_classified. reflexivity.
Qed.

Lemma complete_schedule_len schedule df df' :
  len df' = len df -> complete_schedule schedule df -> complete_schedule schedule df'.
Proof. unfold complete_schedule. intros ->. trivial. Qed.

(** X16: classifying twice changes nothing.  For a record set with
    pairwise distinct index labels, [analyze_dataframe] applied to its
    own result returns that result again, whatever the completion orders
    of the two batches: the sentiment of a record is computed from its
    title and content only. *)
Theorem analyze_dataframe_idempotent
  (self : SentimentAnalyzer) (schedule schedule' : list nat) (df : DataFrame) :
  NoDup (index df) ->
  complete_schedule schedule df ->
  complete_schedule schedule' df ->
  analyze_dataframe self schedule' (analyze_dataframe self schedule df)
  = analyze_dataframe self schedule df.
Proof.
  intros Hnd Hp Hp'. unfold analyze_dataframe.
  set (work := analyze_row self (columns df)).
  pose proof (rows_run_batch work schedule df Hnd Hp) as Hrows.
  pose proof (columns_run_batch work schedule df Hp) as Hcols.
  pose proof (index_run_batch work schedule df Hnd Hp) as Hidx.
  pose proof (len_run_batch work schedule df Hnd Hp) as Hlen.
  set (df' := run_batch work schedule df) in *.
  assert (Hnd' : NoDup (index df')) by (rewrite Hidx; exact Hnd).
  assert (Hq : complete_schedule schedule' df')
    by (apply (complete_schedule_len schedule' df df' Hlen Hp')).
  pose proof (rows_run_batch (analyze_row self (columns df')) schedule' df' Hnd' Hq)
    as Hrows'.
  pose proof (columns_run_batch (analyze_row self (columns df')) schedule' df' Hq)
    as Hcols'.
  assert (He : empty df' = empty df).
  { unfold empty. rewrite Hrows. destruct (rows df); reflexivity. }
  rewrite He in Hcols'.
  destruct (run_batch (analyze_row self (columns df')) schedule' df') as [c2 r2].
  simpl in Hrows', Hcols'. subst c2 r2.
  destruct df' as [c1 r1] eqn:Hdf'. simpl in *. subst c1 r1.
  destruct (empty df) eqn:Hemp.
  - f_equal. unfold empty in Hemp. destruct (rows df); [reflexivity | discriminate].
  - f_equal. rewrite map_map. apply map_ext. intros ir.
    apply attach_classified.
Qed.

(** The last result tagged [i] is the one every row labelled [i] ends
    up with. *)
Lemma fold_at_set_row_last results i :
  In i (map fst results) ->
  exists r,
    In (i, r) results
    /\ forall row,
         fold_left (fun x res => at_set_row (fst res) (snd res) x) results (i, row)
         = (i, set_sentiment r row).
Proof.
  induction results as [| [j r0] results IH]; intros Hin; [destruct Hin |].
  destruct (in_dec Z.eq_dec i (map fst results)) as [Hrest | Hrest].
  - destruct (IH Hrest) as (r & Hr & Hfold).
    exists r. split; [right; exact Hr |].
    intros row. simpl. unfold at_set_row at 2. simpl.
    destruct (Z.eqb i j); rewrite Hfold; reflexivity.
  - destruct Hin as [Hj | Hin]; [| contradiction]. simpl in Hj. subst j.
    exists r0. split; [left; reflexivity |].
    intros row. simpl. unfold at_set_row at 2. simpl. rewrite Z.eqb_refl.
    apply fold_at_set_row_absent. exact Hrest.
Qed.

Lemma results_of_batch work schedule df :
  complete_schedule schedule df ->
  Permutation (map collect (as_completed (submit_all work df) schedule))
              (map (fun ir : Z * Row => (fst ir, settle (work (snd ir)))) (rows df)).
Proof.
  intros Hp. etransitivity.
  - apply Permutation_map. apply as_completed_perm.
    unfold submit_all. rewrite length_map. exact Hp.
  - unfold submit_all. rewrite map_map.
    erewrite map_ext; [reflexivity |].
    intros [j rw]. simpl. apply collect_settle.
Qed.

(** X17: records that share an index label share their sentiment.  When
    two records of the input carry the same label, [run_batch] attaches
    to both of them the settled result of one record carrying that label
    (the one whose future completed last), whatever their own texts:
    attaching by label is attaching by record only if the labels are
    pairwise distinct. *)
Theorem shared_label_shares_sentiment
  (work : Row -> Outcome SentimentResult) (schedule : list nat) (df : DataFrame)
  (k1 k2 : nat) (i : Z) (row1 row2 : Row) :
  complete_schedule schedule df ->
  rows df !! k1 = Some (i, row1) ->
  rows df !! k2 = Some (i, row2) ->
  exists row,
    In (i, row) (rows df)
    /\ rows (run_batch work schedule df) !! k1
       = Some (i, set_sentiment (settle (work row)) row1)
    /\ rows (run_batch work schedule df) !! k2
       = Some (i, set_sentiment (settle (work row)) row2).
Proof.
  intros Hp H1 H2. unfold run_batch.
  destruct (empty df) eqn:He.
  { unfold empty in He. destruct (rows df); [discriminate H1 | discriminate He]. }
  pose proof (results_of_batch work schedule df Hp) as Hperm.
  set (results := map collect (as_completed (submit_all work df) schedule)) in *.
  assert (Hin : In i (map fst results)).
  { eapply Permutation_in; [apply Permutation_map; symmetry; exact Hperm |].
    rewrite map_map. simpl. apply in_map_iff. exists (i, row1).
    split; [reflexivity |]. apply list_elem_of_In.
    apply list_elem_of_lookup. eauto. }
  destruct (fold_at_set_row_last results i Hin) as (r & Hr & Hfold).
  apply (Permutation_in _ Hperm) in Hr.
  apply in_map_iff in Hr as ([j row] & [= -> <-] & Hrow).
  exists row. split; [exact Hrow |].
  rewrite rows_integrate.
  change (map ?f ?l) with (f <$> l).
  rewrite !list_lookup_fmap, H1, H2. simpl. rewrite !Hfold. split; reflexivity.
Qed.

(* ================================================================== *)
(** * More on the period statistics *)
(* ================================================================== *)

(** ** The first best entry *)

Section FirstBest.

Context {A : Type}.
Variable better : A -> A -> bool.
Hypothesis better_trans :
  forall a b c, better a b = true -> better b c = true -> better a c = true.
Hypothesis better_over :
  forall a b c, better a b = true -> better c b = false -> better a c = true.

(** [first_best] returns an entry that is strictly better than every
    entry before it and not worse than any entry behind it. *)
Lemma first_best_split (best : Z * A) (l : list (Z * A)) :
  exists pre post,
    best :: l = pre ++ first_best better best l :: post
    /\ (forall y, In y pre -> better (snd (first_best better best l)) (snd y) = true)
    /\ (forall y, In y post -> better (snd y) (snd (first_best better best l)) = false).
Proof using better_trans better_over.
  assert (H : forall l pre best mid,
             (forall y, In y pre -> better (snd best) (snd y) = true) ->
             (forall y, In y mid -> better (snd y) (snd best) = false) ->
             exists pre' post,
               pre ++ best :: mid ++ l = pre' ++ first_best better best l :: post
               /\ (forall y, In y pre' ->
                     better (snd (first_best better best l)) (snd y) = true)
               /\ (forall y, In y post ->
                     better (snd y) (snd (first_best better best l)) = false)).
  { clear best l. induction l as [| x l IH]; intros pre best mid Hpre Hmid.
    - exists pre, mid. rewrite app_nil_r. simpl. auto.
    - simpl. destruct (better (snd x) (snd best)) eqn:Hx.
      + destruct (IH (pre ++ best :: mid) x []) as (pre' & post & Heq & H1 & H2).
        * intros y Hy. apply in_app_or in Hy as [Hy | [<- | Hy]].
          -- eapply better_trans; [exact Hx | apply Hpre; exact Hy].
          -- exact Hx.
          -- eapply better_over; [exact Hx | apply Hmid; exact Hy].
        * intros y [].
        * exists pre', post. split; [| split; assumption].
          rewrite <- Heq. rewrite <- !app_assoc. simpl. reflexivity.
      + destruct (IH pre best (mid ++ [x])) as (pre' & post & Heq & H1 & H2).
        * exact Hpre.
        * intros y Hy. apply in_app_or in Hy as [Hy | [<- | []]];
            [apply Hmid; exact Hy | exact Hx].
        * exists pre', post. split; [| split; assumption].
          rewrite <- Heq. rewrite <- !app_assoc. simpl. reflexivity. }
  destruct (H l [] best []) as (pre' & post & Heq & H1 & H2);
    [intros y [] | intros y [] |].
  exists pre', post. auto.
Qed.

End FirstBest.

Lemma more_trans a b c :
  (b <? a)%nat = true -> (c <? b)%nat = true -> (c <? a)%nat = true.
Proof. rewrite !Nat.ltb_lt. lia. Qed.

Lemma more_over a b c :
  (b <? a)%nat = true -> (b <? c)%nat = false -> (c <? a)%nat = true.
Proof. rewrite !Nat.ltb_lt, Nat.ltb_ge. lia. Qed.

(** ** Days and bins *)

Lemma strictly_ascending_from lo n k :
  strictly_ascending (map (fun j => lo + Z.of_nat j) (seq k n)).
Proof.
  revert k. induction n as [| n IH]; intros k; simpl; [exact I |].
  split; [| apply IH]. destruct n; simpl; [exact I | lia].
Qed.

Lemma strictly_ascending_days lo hi : strictly_ascending (days_from_to lo hi).
Proof. apply strictly_ascending_from. Qed.

Lemma strictly_ascending_cons d l :
  strictly_ascending (d :: l) <-> (forall d', In d' l -> d < d') /\ strictly_ascending l.
Proof.
  revert d. induction l as [| d0 l IH]; intros d; simpl.
  - split; [intros _; split; [intros ? [] | exact I] | tauto].
  - specialize (IH d0). simpl in IH. split.
    + intros [Hlt Hs]. split; [| exact Hs].
      intros d' [<- | Hin]; [exact Hlt |].
      apply IH in Hs as [Hall _]. specialize (Hall d' Hin). lia.
    + intros [Hall Hs]. split; [| exact Hs]. apply Hall. left. reflexivity.
Qed.

(** In an ascending list, what stands behind is later. *)
Lemma strictly_ascending_split pre d post d' :
  strictly_ascending (pre ++ d :: post) -> In d' post -> d < d'.
Proof.
  induction pre as [| x pre IH]; simpl app; intros Hs Hin.
  - apply strictly_ascending_cons in Hs as [Hall _]. apply Hall. exact Hin.
  - apply strictly_ascending_cons in Hs as [_ Hs]. apply IH; assumption.
Qed.

Lemma strictly_ascending_NoDup l : strictly_ascending l -> List.NoDup l.
Proof.
  induction l as [| d l IH]; intros Hs; [constructor |].
  apply strictly_ascending_cons in Hs as [Hall Hs].
  constructor; [| apply IH; exact Hs].
  intros Hin. specialize (Hall d Hin). lia.
Qed.

Lemma day_bins_days df :
  day_bins df
  = match map day_of (timestamps df) with
    | [] => []
    | d :: ds => days_from_to (min_list d ds) (max_list d ds)
    end.
Proof. reflexivity. Qed.

(** The timestamps of the frame the statistics read are the readable
    dates of the frame they were handed. *)
Lemma timestamps_dropna_Date df : timestamps (dropna_Date df) = timestamps df.
Proof.
  unfold timestamps, dropna_Date, omap. simpl.
  induction (rows df) as [| [i r] rs IH]; simpl; [reflexivity |].
  destruct (Date r) eqn:E; simpl; rewrite ?E, IH; reflexivity.
Qed.

Lemma timestamps_local df : timestamps (fst (ensure_datetime df)) = readable_dates df.
Proof.
  unfold ensure_datetime, readable_dates.
  destruct (is_datetime64_dtype df) eqn:E; simpl.
  - rewrite (coerce_Date_datetime df E). reflexivity.
  - apply timestamps_dropna_Date.
Qed.

Lemma length_rows_of_day df d :
  length (rows_of_day df d)
  = length (List.filter (fun t => (day_of t =? d)%Z) (timestamps df)).
Proof.
  unfold rows_of_day, timestamps, omap.
  induction (rows df) as [| [i r] rs IH]; simpl; [reflexivity |].
  destruct (decide (row_day r = Some d)) as [Hd | Hd].
  - rewrite (bool_decide_eq_true_2 _ Hd). unfold row_day in Hd.
    destruct (Date r) as [s | t |]; try discriminate.
    injection Hd as Hd. simpl. rewrite <- Hd, Z.eqb_refl. simpl.
    rewrite Hd, IH. reflexivity.
  - rewrite (bool_decide_eq_false_2 _ Hd). unfold row_day in Hd.
    destruct (Date r) as [s | t |]; try exact IH.
    simpl. destruct (Z.eqb_spec (day_of t) d) as [E | E]; [congruence | exact IH].
Qed.

(** Every timestamp is counted in exactly one of the days of a list
    without repetition that holds its day. *)
Lemma count_over_days (days : list Z) (ts : list Z) :
  List.NoDup days ->
  (forall t, In t ts -> In (day_of t) days) ->
  fold_right Nat.add 0%nat
    (map (fun d => length (List.filter (fun t => (day_of t =? d)%Z) ts)) days)
  = length ts.
Proof.
  intros Hnd. induction ts as [| t ts IH]; intros Hin.
  - simpl. clear. induction days; simpl; [reflexivity | assumption].
  - change (length (t :: ts)) with (S (length ts)).
    rewrite <- IH by (intros u Hu; apply Hin; right; exact Hu).
    assert (Hd : In (day_of t) days) by (apply Hin; left; reflexivity).
    clear IH Hin. revert Hd. induction Hnd as [| d days Hfresh Hnd IHd]; intros Hd.
    + destruct Hd.
    + simpl. destruct (Z.eqb_spec (day_of t) d) as [E | E].
      * simpl. f_equal. f_equal.
        assert (Hno : ~ In (day_of t) days) by (rewrite E; exact Hfresh).
        clear -Hno. induction days as [| d' days IH]; simpl; [reflexivity |].
        destruct (Z.eqb_spec (day_of t) d') as [E' | E'].
        -- exfalso. apply Hno. left. symmetry. exact E'.
        -- f_equal. apply IH. intros H. apply Hno. right. exact H.
      * destruct Hd as [Hd | Hd]; [congruence |].
        specialize (IHd Hd). simpl in IHd. rewrite IHd. lia.
Qed.

Lemma day_span_bounds d ds :
  min_list d ds <= max_list d ds.
Proof. pose proof (min_list_le d ds). pose proof (max_list_ge d ds). lia. Qed.

Lemma length_days_from_to lo hi :
  lo <= hi -> Z.of_nat (length (days_from_to lo hi)) = hi - lo + 1.
Proof.
  intros H. unfold days_from_to. rewrite length_map, length_seq. lia.
Qed.

(** ** [analyze_review_volume] *)

(** What the function computes when it returns statistics. *)
Lemma analyze_review_volume_ok df v :
  fst (analyze_review_volume df) = Ok (Volume v) ->
  exists c cs,
    size_by_day (fst (ensure_datetime df)) = c :: cs
    /\ v = {| review_counts := c :: cs;
              total_reviews := fold_right Nat.add 0%nat (map snd (c :: cs));
              average_daily_reviews :=
                (inject_Z (Z.of_nat (fold_right Nat.add 0%nat (map snd (c :: cs))))
                 / Qlen (c :: cs))%Q;
              peak_date := fst (first_best (fun a b => (b <? a)%nat) c cs);
              peak_count := snd (first_best (fun a b => (b <? a)%nat) c cs) |}.
Proof.
  unfold analyze_review_volume. destruct (empty df); [discriminate |].
  destruct (ensure_datetime df) as [local caller]. simpl.
  destruct (size_by_day local) as [| c cs]; [discriminate |].
  simpl. intros [= <-]. eauto.
Qed.

Lemma size_by_day_counts df :
  size_by_day (fst (ensure_datetime df))
  = map (fun d => (d, reviews_on df d)) (day_bins (fst (ensure_datetime df))).
Proof.
  unfold size_by_day, reviews_on. apply map_ext. intros d.
  rewrite length_rows_of_day, timestamps_local. reflexivity.
Qed.

Lemma readable_bins df t ts :
  readable_dates df = t :: ts ->
  exists lo hi,
    day_bins (fst (ensure_datetime df)) = days_from_to lo hi
    /\ lo <= hi
    /\ (forall u, In u (readable_dates df) -> lo <= day_of u <= hi)
    /\ (exists u, In u (readable_dates df) /\ day_of u = lo)
    /\ (exists u, In u (readable_dates df) /\ day_of u = hi).
Proof.
  intros E. rewrite day_bins_days, timestamps_local, E. simpl map.
  set (d := day_of t). set (ds := map day_of ts).
  exists (min_list d ds), (max_list d ds).
  split; [reflexivity |]. split; [apply day_span_bounds |].
  assert (Hall : forall x, In x (d :: ds) <-> exists u, In u (t :: ts) /\ day_of u = x).
  { intros x. change (d :: ds) with (map day_of (t :: ts)). rewrite in_map_iff.
    split; intros (u & H1 & H2); exists u; auto. }
  split; [| split].
  - intros u Hu.
    assert (Hx : In (day_of u) (d :: ds)) by (apply Hall; eauto).
    destruct Hx as [<- | Hx].
    + split; [apply min_list_le | apply max_list_ge].
    + split; [apply min_list_lower | apply max_list_upper]; exact Hx.
  - apply Hall. apply min_list_in.
  - apply Hall. apply max_list_in.
Qed.

(** X18: the review volume counts every calendar day.  When
    [analyze_review_volume] returns statistics, [review_counts] has one
    entry for every calendar day from the day of the earliest to the day
    of the latest record whose date can be read, days without a review
    included, each with the number of those records that fall on it;
    [total_reviews] is the number of records whose date can be read, and
    [average_daily_reviews] is that total divided by the number of days
    of the span. *)
Theorem review_volume_counts_every_day (df : DataFrame) (v : VolumeStats) :
  fst (analyze_review_volume df) = Ok (Volume v) ->
  exists lo hi,
    lo <= hi
    /\ review_counts v = map (fun d => (d, reviews_on df d)) (days_from_to lo hi)
    /\ (forall t, In t (readable_dates df) -> lo <= day_of t <= hi)
    /\ (exists t, In t (readable_dates df) /\ day_of t = lo)
    /\ (exists t, In t (readable_dates df) /\ day_of t = hi)
    /\ total_reviews v = length (readable_dates df)
    /\ (average_daily_reviews v * inject_Z (hi - lo + 1)
        == inject_Z (Z.of_nat (total_reviews v)))%Q.
Proof.
  intros Hv. destruct (analyze_review_volume_ok df v Hv) as (c & cs & Hsize & ->).
  clear Hv. cbn [review_counts total_reviews average_daily_reviews].
  rewrite size_by_day_counts in Hsize. rewrite <- Hsize.
  destruct (readable_dates df) as [| t ts] eqn:E.
  { exfalso. rewrite day_bins_days, timestamps_local, E in Hsize. discriminate. }
  destruct (readable_bins df t ts E) as (lo & hi & Hbins & Hle & Hcov & Hlo & Hhi).
  rewrite Hbins in *. rewrite E in Hcov, Hlo, Hhi.
  exists lo, hi. split; [exact Hle |]. split; [reflexivity |].
  split; [exact Hcov |]. split; [exact Hlo |]. split; [exact Hhi |].
  assert (Htotal : fold_right Nat.add 0%nat
                     (map snd (map (fun d => (d, reviews_on df d)) (days_from_to lo hi)))
                   = length (t :: ts)).
  { rewrite map_map. simpl. unfold reviews_on. rewrite E.
    apply count_over_days.
    - apply strictly_ascending_NoDup, strictly_ascending_days.
    - intros u Hu. apply in_bins. apply Hcov. exact Hu. }
  split; [exact Htotal |].
  rewrite Htotal. unfold Qlen. rewrite length_map, (length_days_from_to lo hi Hle).
  field. change 0%Q with (inject_Z 0). rewrite inject_Z_injective. lia.
Qed.

(** X19: the peak of the review volume.  When [analyze_review_volume]
    returns statistics, [peak_count] is the count of the entry
    [peak_date] of [review_counts]; no day has a greater count, at least
    one review falls on the peak day, and among the days with that count
    the peak day is the earliest. *)
Theorem review_volume_peak (df : DataFrame) (v : VolumeStats) :
  fst (analyze_review_volume df) = Ok (Volume v) ->
  In (peak_date v, peak_count v) (review_counts v)
  /\ peak_count v = reviews_on df (peak_date v)
  /\ (0 < peak_count v)%nat
  /\ (forall d n, In (d, n) (review_counts v) -> (n <= peak_count v)%nat)
  /\ (forall d n, In (d, n) (review_counts v) -> n = peak_count v ->
                  peak_date v <= d).
Proof.
  intros Hv. destruct (analyze_review_volume_ok df v Hv) as (c & cs & Hsize & ->).
  clear Hv. cbn [review_counts peak_date peak_count].
  destruct (first_best_split (fun a b => (b <? a)%nat) more_trans more_over c cs)
    as (pre & post & Hsplit & Hpre & Hpost).
  set (peak := first_best (fun a b => (b <? a)%nat) c cs) in *.
  assert (Hin : In peak (c :: cs)).
  { rewrite Hsplit. apply in_or_app. right. left. reflexivity. }
  assert (Hmax : forall y, In y (c :: cs) -> (snd y <= snd peak)%nat).
  { intros y Hy. rewrite Hsplit in Hy.
    apply in_app_or in Hy as [Hy | [<- | Hy]].
    - specialize (Hpre y Hy). apply Nat.ltb_lt in Hpre. lia.
    - lia.
    - specialize (Hpost y Hy). apply Nat.ltb_ge in Hpost. lia. }
  assert (Hcounts : c :: cs
                    = map (fun d => (d, reviews_on df d))
                          (day_bins (fst (ensure_datetime df)))).
  { rewrite <- Hsize. apply size_by_day_counts. }
  assert (Hpeak : snd peak = reviews_on df (fst peak)).
  { rewrite Hcounts in Hin. apply in_map_iff in Hin as (d & <- & _). reflexivity. }
  destruct (readable_dates df) as [| t ts] eqn:E.
  { exfalso. rewrite day_bins_days, timestamps_local, E in Hcounts. discriminate. }
  destruct (readable_bins df t ts E) as (lo & hi & Hbins & Hle & Hcov & Hlo & Hhi).
  split; [destruct peak; exact Hin |]. split; [exact Hpeak |].
  split; [| split].
  - (* the day of the first readable date has a review *)
    assert (Hd : In (day_of t, reviews_on df (day_of t)) (c :: cs)).
    { rewrite Hcounts, Hbins. apply in_map_iff. exists (day_of t).
      split; [reflexivity |]. apply in_bins. apply Hcov. rewrite E. left. reflexivity. }
    specialize (Hmax _ Hd). simpl in Hmax.
    assert (0 < reviews_on df (day_of t))%nat; [| lia].
    unfold reviews_on. rewrite E. simpl. rewrite Z.eqb_refl. simpl. lia.
  - intros d n Hdn. apply (Hmax (d, n) Hdn).
  - intros d n Hdn Hn.
    rewrite Hsplit in Hdn. apply in_app_or in Hdn as [Hdn | [Hdn | Hdn]].
    + specialize (Hpre _ Hdn). simpl in Hpre. apply Nat.ltb_lt in Hpre. lia.
    + rewrite Hdn. simpl. lia.
    + assert (Hasc : strictly_ascending (map fst (c :: cs))).
      { rewrite Hcounts, map_map. simpl. rewrite map_id, Hbins.
        apply strictly_ascending_days. }
      rewrite Hsplit, map_app in Hasc. simpl in Hasc.
      pose proof (strictly_ascending_split _ _ _ d Hasc) as Hlt.
      assert (fst peak < d); [| lia].
      apply Hlt. apply (in_map fst) in Hdn. exact Hdn.
Qed.

(** ** [analyze_sentiment_trend] *)

Lemma higher_trans a b c :
  Qltb b a = true -> Qltb c b = true -> Qltb c a = true.
Proof. rewrite !Qltb_lt. lra. Qed.

Lemma higher_over a b c :
  Qltb b a = true -> Qltb b c = false -> Qltb c a = true.
Proof. rewrite !Qltb_lt, Qltb_ge. lra. Qed.

Lemma lower_trans a b c :
  Qltb a b = true -> Qltb b c = true -> Qltb a c = true.
Proof. rewrite !Qltb_lt. lra. Qed.

Lemma lower_over a b c :
  Qltb a b = true -> Qltb c b = false -> Qltb a c = true.
Proof. rewrite !Qltb_lt, Qltb_ge. lra. Qed.

(** What the function computes when it returns a trend. *)
Lemma analyze_sentiment_trend_ok df t :
  fst (analyze_sentiment_trend df) = Ok (Trend t) ->
  sentiment_trend t = valid_entries (trend_series df)
  /\ match valid_entries (trend_series df) with
     | [] =>
         most_positive_date t = None /\ most_positive_score t = 0%Q
         /\ most_negative_date t = None /\ most_negative_score t = 0%Q
     | e :: es =>
         most_positive_date t = Some (fst (first_best (fun a b => Qltb b a) e es))
         /\ most_positive_score t = snd (first_best (fun a b => Qltb b a) e es)
         /\ most_negative_date t = Some (fst (first_best (fun a b => Qltb a b) e es))
         /\ most_negative_score t = snd (first_best (fun a b => Qltb a b) e es)
     end.
Proof.
  unfold analyze_sentiment_trend, trend_series.
  destruct (empty df || negb (has_sentiment_label (columns df))); [discriminate |].
  destruct (ensure_datetime df) as [local caller]. simpl.
  destruct (negb (has_sentiment_score (columns local))); [discriminate |].
  destruct (mean_by_day local) as [| e es] eqn:Hseries.
  - simpl. intros [= <-]. simpl. auto.
  - destruct (valid_entries (e :: es)) as [| v vs] eqn:Hvalid; [discriminate |].
    simpl. intros [= <-]. simpl. auto.
Qed.

Lemma strictly_ascending_omap {A : Type} (key : A -> Z) (f : A -> option (Z * Q))
  (l : list A) :
  (forall x y, f x = Some y -> fst y = key x) ->
  strictly_ascending (map key l) ->
  strictly_ascending (map fst (omap f l)).
Proof.
  intros Hkey. unfold omap.
  induction l as [| x l IH]; intros Hs; [exact I |].
  simpl in Hs. apply (strictly_ascending_cons (key x) (map key l)) in Hs as [Hall Hs].
  simpl. destruct (f x) as [y |] eqn:Hx; [| apply IH; exact Hs].
  simpl. apply strictly_ascending_cons. split; [| apply IH; exact Hs].
  intros d' Hin. rewrite (Hkey x y Hx). apply Hall.
  apply in_map_iff in Hin as (y' & <- & Hin).
  apply list_elem_of_In in Hin. apply list_elem_of_omap in Hin as (x' & Hin & Hx').
  rewrite (Hkey x' y' Hx'). apply in_map. apply list_elem_of_In. exact Hin.
Qed.

Lemma trend_days_ascending df :
  strictly_ascending (map fst (valid_entries (trend_series df))).
Proof.
  unfold valid_entries, trend_series, mean_by_day.
  apply (strictly_ascending_omap fst).
  - intros [d y] [d' y']. simpl. destruct y; intros [= <- _]; reflexivity.
  - rewrite map_map. simpl. rewrite map_id, day_bins_days.
    destruct (map day_of _); [exact I | apply strictly_ascending_days].
Qed.

(** X20: the extremes of the sentiment trend.  When
    [analyze_sentiment_trend] returns a trend, the days of
    [sentiment_trend] increase strictly; if it has no entry, both
    extreme dates are missing and both extreme scores are 0; otherwise
    [most_positive_score] and [most_negative_score] are the scores of
    the entries [most_positive_date] and [most_negative_date], every
    daily mean lies between them, and each extreme date is the earliest
    day that reaches its score. *)
Theorem sentiment_trend_extremes (df : DataFrame) (t : TrendStats) :
  fst (analyze_sentiment_trend df) = Ok (Trend t) ->
  strictly_ascending (map fst (sentiment_trend t))
  /\ match sentiment_trend t with
     | [] =>
         most_positive_date t = None /\ most_positive_score t = 0%Q
         /\ most_negative_date t = None /\ most_negative_score t = 0%Q
     | _ :: _ =>
         exists hi lo,
           most_positive_date t = Some hi /\ most_negative_date t = Some lo
           /\ In (hi, most_positive_score t) (sentiment_trend t)
           /\ In (lo, most_negative_score t) (sentiment_trend t)
           /\ (forall d m, In (d, m) (sentiment_trend t) ->
                 (most_negative_score t <= m <= most_positive_score t)%Q)
           /\ (forall d m, In (d, m) (sentiment_trend t) ->
                 (most_positive_score t <= m)%Q -> hi <= d)
           /\ (forall d m, In (d, m) (sentiment_trend t) ->
                 (m <= most_negative_score t)%Q -> lo <= d)
     end.
Proof.
  intros Ht. destruct (analyze_sentiment_trend_ok df t Ht) as (Hst & Hext).
  pose proof (trend_days_ascending df) as Hasc.
  rewrite <- Hst in Hasc, Hext. split; [exact Hasc |].
  destruct (sentiment_trend t) as [| e es]; [exact Hext |].
  destruct Hext as (Hpd & Hps & Hnd & Hns).
  destruct (first_best_split (fun a b => Qltb b a) higher_trans higher_over e es)
    as (pre & post & Hsplit & Hpre & Hpost).
  destruct (first_best_split (fun a b => Qltb a b) lower_trans lower_over e es)
    as (pre' & post' & Hsplit' & Hpre' & Hpost').
  set (top := first_best (fun a b => Qltb b a) e es) in *.
  set (bottom := first_best (fun a b => Qltb a b) e es) in *.
  exists (fst top), (fst bottom). rewrite Hps, Hns.
  split; [exact Hpd |]. split; [exact Hnd |].
  assert (Htop : In top (e :: es))
    by (rewrite Hsplit; apply in_or_app; right; left; reflexivity).
  assert (Hbottom : In bottom (e :: es))
    by (rewrite Hsplit'; apply in_or_app; right; left; reflexivity).
  split; [rewrite <- surjective_pairing; exact Htop |].
  split; [rewrite <- surjective_pairing; exact Hbottom |].
  split; [| split].
  - intros d m Hin. split.
    + rewrite Hsplit' in Hin. apply in_app_or in Hin as [Hin | [Hin | Hin]].
      * specialize (Hpre' _ Hin). simpl in Hpre'. apply Qltb_lt in Hpre'. lra.
      * rewrite Hin. simpl. lra.
      * specialize (Hpost' _ Hin). simpl in Hpost'. apply Qltb_ge in Hpost'. exact Hpost'.
    + rewrite Hsplit in Hin. apply in_app_or in Hin as [Hin | [Hin | Hin]].
      * specialize (Hpre _ Hin). simpl in Hpre. apply Qltb_lt in Hpre. lra.
      * rewrite Hin. simpl. lra.
      * specialize (Hpost _ Hin). simpl in Hpost. apply Qltb_ge in Hpost. exact Hpost.
  - intros d m Hin Hm.
    rewrite Hsplit in Hin. apply in_app_or in Hin as [Hin | [Hin | Hin]].
    + specialize (Hpre _ Hin). simpl in Hpre. apply Qltb_lt in Hpre. lra.
    + rewrite Hin. simpl. lia.
    + rewrite Hsplit, map_app in Hasc. simpl in Hasc.
      assert (fst top < d); [| lia].
      apply (strictly_ascending_split _ _ _ d Hasc).
      apply (in_map fst) in Hin. exact Hin.
  - intros d m Hin Hm.
    rewrite Hsplit' in Hin. apply in_app_or in Hin as [Hin | [Hin | Hin]].
    + specialize (Hpre' _ Hin). simpl in Hpre'. apply Qltb_lt in Hpre'. lra.
    + rewrite Hin. simpl. lia.
    + rewrite Hsplit', map_app in Hasc. simpl in Hasc.
      assert (fst bottom < d); [| lia].
      apply (strictly_ascending_split _ _ _ d Hasc).
      apply (in_map fst) in Hin. exact Hin.
Qed.

(** ** [analyze_topics] *)




















(* ================================================================== *)
(** * More on the comparison *)
(* ================================================================== *)

Lemma share_of_coerce_Date b l df :
  share_of b l (coerce_Date df) = share_of b l df.
Proof.
  unfold share_of. rewrite count_label_coerce_Date, len_coerce_Date. reflexivity.
Qed.

Lemma both_labelled_coerce_Date df1 df2 :
  both_labelled (coerce_Date df1) (coerce_Date df2) = both_labelled df1 df2.
Proof. reflexivity. Qed.

Lemma both_versioned_coerce_Date df1 df2 :
  both_versioned (coerce_Date df1) (coerce_Date df2) = both_versioned df1 df2.
Proof. reflexivity. Qed.

(** What [compare_time_periods] returns when it returns a comparison. *)
Lemma compare_time_periods_ok df1 df2 name1 name2 c :
  fst (compare_time_periods df1 df2 name1 name2) = Ok (Compared c) ->
  exists span1 span2 direction1 direction2 positive_change negative_change
         neutral_change,
    observed_span df1 = Some span1
    /\ observed_span df2 = Some span2
    /\ time_periods c = dict2 name1 span1 name2 span2
    /\ rating c
       = dict3 name1 (PeriodRating (py_round (avg_rating_of df1) 2))
               name2 (PeriodRating (py_round (avg_rating_of df2) 2))
               "change" (RatingChange (py_round (rating_change_of df1 df2) 2))
    /\ version c
       = dict3 name1 (PeriodVersion (main_version (both_versioned df1 df2) df1))
               name2 (PeriodVersion (main_version (both_versioned df1 df2) df2))
               "version_changed" (VersionChanged (version_changed_of df1 df2))
    /\ summary c
       = summary_rules (review_change_of (len df1) (len df2))
                       (rating_change_of df1 df2) (sentiment_change_of df1 df2)
                       (version_changed_of df1 df2)
                       (main_version (both_versioned df1 df2) df1)
                       (main_version (both_versioned df1 df2) df2)
    /\ detailed_insights c
       = insight_rules (review_change_of (len df1) (len df2))
                       (rating_change_of df1 df2) (sentiment_change_of df1 df2)
                       positive_change negative_change neutral_change
                       (version_changed_of df1 df2)
                       (main_version (both_versioned df1 df2) df1)
                       (main_version (both_versioned df1 df2) df2)
                       direction1 direction2
                       (summary c) (len df1) (len df2)
                       (avg_rating_of df1) (avg_rating_of df2).
Proof.
  unfold compare_time_periods, observed_span.
  destruct (empty df1 || empty df2); [discriminate |].
  rewrite !ensure_datetime_inplace_coerce.
  destruct (span_of (coerce_Date df1)) as [span1 |]; [| discriminate].
  destruct (span_of (coerce_Date df2)) as [span2 |]; [| discriminate].
  destruct (analyze_sentiment_trend (coerce_Date df1)) as [trend1 d1].
  destruct (trend1 ≫= direction_key) as [direction1 | e]; [| discriminate].
  destruct (analyze_sentiment_trend (coerce_Date df2)) as [trend2 d2].
  destruct (trend2 ≫= direction_key) as [direction2 | e]; [| discriminate].
  cbn [fst]. intros [= <-]. cbn [time_periods rating version summary detailed_insights].
  rewrite ?rating_change_coerce_Date, ?sentiment_change_coerce_Date,
    ?version_changed_coerce_Date, ?main_version_coerce_Date,
    ?avg_rating_coerce_Date, ?both_versioned_coerce_Date.
  exists span1, span2, direction1, direction2. eexists _, _, _.
  repeat split; reflexivity.
Qed.

(** ** Frames without labels *)




(** ** The summary and the insights *)

Lemma summary_rules_nonempty rc rac sc vc v1 v2 :
  summary_rules rc rac sc vc v1 v2 <> [].
Proof.
  drop_externals. unfold summary_rules.
  match goal with |- match ?l with _ => _ end <> [] => destruct l eqn:E end;
    [discriminate | rewrite <- E; discriminate || (rewrite E; discriminate)].
Qed.

Lemma summary_rules_no_difference rc rac sc vc v1 v2 :
  In NoSignificantDifference (summary_rules rc rac sc vc v1 v2) ->
  summary_rules rc rac sc vc v1 v2 = [NoSignificantDifference].
Proof.
  drop_externals. unfold summary_rules, when.
  destruct (fgt rc (2 # 10)), (flt rc (- (2 # 10))), (fgt rac (5 # 10)),
    (flt rac (- (5 # 10))), (fgt sc (2 # 10)), (flt sc (- (2 # 10))), vc;
    cbn; intuition discriminate.
Qed.

Lemma notes_app kind l1 l2 :
  notes kind (l1 ++ l2) <-> notes kind l1 \/ notes kind l2.
Proof.
  drop_externals. unfold notes. split.
  - intros (i & Hin & Hk). apply in_app_or in Hin as [Hin | Hin]; eauto.
  - intros [(i & Hin & Hk) | (i & Hin & Hk)]; exists i;
      (split; [apply in_or_app; auto | exact Hk]).
Qed.

(** Read an insight out of one group of rules. *)
Ltac in_rule H :=
  repeat match type of H with
         | context [if ?b then _ else _] => destruct b eqn:?
         | context [match ?d with Up => _ | Down => _ | Stable => _ end] => destruct d
         end;
  simpl in H;
  repeat match type of H with
         | _ \/ _ => destruct H as [H | H]
         | False => destruct H
         end.

Lemma insight_rules_spec rc rac sc pc nc nuc vc v1 v2 d1 d2 s n1 n2 a1 a2 :
  insight_rules rc rac sc pc nc nuc vc v1 v2 d1 d2 s n1 n2 a1 a2 <> []
  /\ (In KeepMonitoring (insight_rules rc rac sc pc nc nuc vc v1 v2 d1 d2 s n1 n2 a1 a2) ->
      insight_rules rc rac sc pc nc nuc vc v1 v2 d1 d2 s n1 n2 a1 a2 = [KeepMonitoring])
  /\ (notes is_volume_up_insight
            (insight_rules rc rac sc pc nc nuc vc v1 v2 d1 d2 s n1 n2 a1 a2)
      <-> fgt rc (2 # 10) = true)
  /\ (notes is_volume_down_insight
            (insight_rules rc rac sc pc nc nuc vc v1 v2 d1 d2 s n1 n2 a1 a2)
      <-> fgt rc (2 # 10) = false /\ flt rc (- (2 # 10)) = true)
  /\ (notes is_stable_data
            (insight_rules rc rac sc pc nc nuc vc v1 v2 d1 d2 s n1 n2 a1 a2)
      <-> match s with
          | [] => true
          | [b] => is_no_difference b
          | _ => false
          end = true
          /\ (100 < n1)%nat /\ (100 < n2)%nat).
Proof.
  drop_externals. unfold insight_rules.
  match goal with
  | |- match ?l with _ => _ end <> [] /\ _ => set (found := l)
  end.
  assert (Hkeep : ~ In KeepMonitoring found).
  { subst found. intros H.
    repeat (apply in_app_or in H as [H | H]); in_rule H; discriminate. }
  assert (Hup : notes is_volume_up_insight found <-> fgt rc (2 # 10) = true).
  { subst found. split.
    - intros (i & H & Hk).
      repeat (apply in_app_or in H as [H | H]); in_rule H; subst i;
        try discriminate; reflexivity.
    - intros Hrc. apply notes_app. left. rewrite Hrc.
      destruct (fgt rc (5 # 10)); eexists; (split; [left; reflexivity | reflexivity]). }
  assert (Hdown : notes is_volume_down_insight found
                  <-> fgt rc (2 # 10) = false /\ flt rc (- (2 # 10)) = true).
  { subst found. split.
    - intros (i & H & Hk).
      repeat (apply in_app_or in H as [H | H]); in_rule H; subst i;
        try discriminate; split; reflexivity.
    - intros [Hrc Hrc']. apply notes_app. left. rewrite Hrc, Hrc'.
      destruct (flt rc (- (5 # 10))); eexists; (split; [left; reflexivity | reflexivity]). }
  assert (Hstable : notes is_stable_data found
                    <-> match s with
                        | [] => true
                        | [b] => is_no_difference b
                        | _ => false
                        end = true
                        /\ (100 < n1)%nat /\ (100 < n2)%nat).
  { subst found. split.
    - intros (i & H & Hk).
      repeat (apply in_app_or in H as [H | H]); in_rule H; subst i;
        try discriminate;
        match goal with
        | E : (_ <? _)%nat && (_ <? _)%nat = true |- _ =>
            apply andb_true_iff in E as [E1 E2];
            apply Nat.ltb_lt in E1, E2; auto
        end.
    - intros (Hs & H1 & H2). rewrite !app_assoc. apply notes_app. right.
      rewrite Hs. apply Nat.ltb_lt in H1, H2. rewrite H1, H2. simpl.
      exists StableData. split; [left; reflexivity | reflexivity]. }
  assert (Hwrap : forall kind, kind KeepMonitoring = false ->
            (notes kind match found with [] => [KeepMonitoring] | _ :: _ => found end
             <-> notes kind found)).
  { intros kind Hk. destruct found; [| reflexivity].
    split; intros (i & Hin & Hi); [| destruct Hin].
    destruct Hin as [<- | []]. congruence. }
  split; [destruct found; discriminate |].
  split.
  { destruct found as [| i l] eqn:E; [reflexivity |]. intros H. contradiction. }
  rewrite !Hwrap by reflexivity. auto.
Qed.

Lemma single_no_difference (s : list Bullet) :
  s <> [] ->
  (match s with
   | [] => true
   | [b] => is_no_difference b
   | _ => false
   end = true <-> s = [NoSignificantDifference]).
Proof.
  drop_externals. intros Hne. destruct s as [| b [| b' s]]; [contradiction | |].
  - destruct b; simpl; split; intros H; try discriminate; reflexivity.
  - split; discriminate.
Qed.

(** X24: the summary and the insights of a comparison.  In every
    comparison that [compare_time_periods] returns, neither [summary]
    nor [detailed_insights] is empty; the no-difference bullet and the
    keep-monitoring statement appear only as the single entry of their
    list; the insights hold a statement on the rise of the review volume
    exactly when the summary holds the volume-increase bullet, and one
    on its fall exactly when the summary holds the volume-decrease
    bullet; and they hold the stable-data statement exactly when the
    summary is the no-difference bullet alone and both periods hold more
    than 100 records. *)
Theorem summary_and_insights_agree
  (df1 df2 : DataFrame) (name1 name2 : string) (c : Comparison) :
  fst (compare_time_periods df1 df2 name1 name2) = Ok (Compared c) ->
  summary c <> [] /\ detailed_insights c <> []
  /\ (In NoSignificantDifference (summary c) ->
      summary c = [NoSignificantDifference])
  /\ (In KeepMonitoring (detailed_insights c) ->
      detailed_insights c = [KeepMonitoring])
  /\ (notes is_volume_up_insight (detailed_insights c)
      <-> mentions is_volume_increased (summary c))
  /\ (notes is_volume_down_insight (detailed_insights c)
      <-> mentions is_volume_decreased (summary c))
  /\ (notes is_stable_data (detailed_insights c)
      <-> summary c = [NoSignificantDifference]
          /\ (100 < len df1)%nat /\ (100 < len df2)%nat).
Proof.
  drop_externals. intros Hc.
  destruct (compare_time_periods_ok df1 df2 name1 name2 c Hc)
    as (span1 & span2 & d1 & d2 & pc & nc & nuc & _ & _ & _ & _ & _ & Hsum & Hins).
  pose proof (summary_rules_nonempty (review_change_of (len df1) (len df2))
                (rating_change_of df1 df2) (sentiment_change_of df1 df2)
                (version_changed_of df1 df2)
                (main_version (both_versioned df1 df2) df1)
                (main_version (both_versioned df1 df2) df2)) as Hne.
  pose proof (summary_rules_no_difference (review_change_of (len df1) (len df2))
                (rating_change_of df1 df2) (sentiment_change_of df1 df2)
                (version_changed_of df1 df2)
                (main_version (both_versioned df1 df2) df1)
                (main_version (both_versioned df1 df2) df2)) as Hnd.
  destruct (summary_rules_spec (review_change_of (len df1) (len df2))
              (rating_change_of df1 df2) (sentiment_change_of df1 df2)
              (version_changed_of df1 df2)
              (main_version (both_versioned df1 df2) df1)
              (main_version (both_versioned df1 df2) df2))
    as (Hinc & Hdec & _).
  rewrite <- Hsum in Hne, Hnd, Hinc, Hdec.
  destruct (insight_rules_spec (review_change_of (len df1) (len df2))
              (rating_change_of df1 df2) (sentiment_change_of df1 df2)
              pc nc nuc (version_changed_of df1 df2)
              (main_version (both_versioned df1 df2) df1)
              (main_version (both_versioned df1 df2) df2)
              d1 d2 (summary c) (len df1) (len df2)
              (avg_rating_of df1) (avg_rating_of df2))
    as (Ine & Ikeep & Iup & Idown & Istable).
  rewrite <- Hins in Ine, Ikeep, Iup, Idown, Istable.
  split; [exact Hne |]. split; [exact Ine |]. split; [exact Hnd |].
  split; [exact Ikeep |].
  split; [rewrite Iup, Hinc; apply fgt_above |].
  split.
  - rewrite Idown, Hdec, <- flt_below. split; [tauto |].
    intros Hl. split; [| exact Hl].
    destruct (fgt (review_change_of (len df1) (len df2)) (2 # 10)) eqn:E;
      [| reflexivity].
    pose proof (fgt_excludes_flt _ (2 # 10) (- (2 # 10)) ltac:(lra) E). congruence.
  - rewrite Istable, (single_no_difference (summary c) Hne). reflexivity.
Qed.

(** ** Rounding is odd *)

(** The integer [round_half_even] returns: within a half of its
    argument, and even when exactly a half away. *)
Lemma round_half_even_char x :
  (Qabs (inject_Z (round_half_even x) - x) < 1 # 2)%Q
  \/ ((Qabs (inject_Z (round_half_even x) - x) == 1 # 2)%Q
      /\ Z.even (round_half_even x) = true).
Proof.
  drop_externals. unfold round_half_even.
  pose proof (Qfloor_le x) as Hlo.
  pose proof (Qlt_floor x) as Hhi.
  rewrite inject_Z_plus in Hhi. change (inject_Z 1) with 1%Q in Hhi.
  destruct (Qcompare_spec (x - inject_Z (Qfloor x)) (1 # 2)) as [He | Hl | Hg].
  - right. destruct (Z.even (Qfloor x)) eqn:Ev.
    + split; [| exact Ev]. rewrite Qabs_neg by lra. lra.
    + split.
      * rewrite inject_Z_plus. change (inject_Z 1) with 1%Q. rewrite Qabs_pos by lra. lra.
      * rewrite Z.even_add, Ev. reflexivity.
  - left. rewrite Qabs_neg by lra. lra.
  - left. rewrite inject_Z_plus. change (inject_Z 1) with 1%Q.
    rewrite Qabs_pos by lra. lra.
Qed.

Lemma Qlt_inject_Z_lt a b : (inject_Z a < inject_Z b + 1)%Q -> a <= b.
Proof.
  drop_externals. intros H.
  change 1%Q with (inject_Z 1) in H. rewrite <- inject_Z_plus in H.
  rewrite <- Zlt_Qlt in H. lia.
Qed.

(** It is the only such integer. *)
Lemma round_half_even_unique x z :
  (Qabs (inject_Z z - x) < 1 # 2)%Q
  \/ ((Qabs (inject_Z z - x) == 1 # 2)%Q /\ Z.even z = true) ->
  round_half_even x = z.
Proof.
  drop_externals. intros Hz. unfold round_half_even.
  pose proof (Qfloor_le x) as Hlo.
  pose proof (Qlt_floor x) as Hhi.
  rewrite inject_Z_plus in Hhi. change (inject_Z 1) with 1%Q in Hhi.
  set (f := Qfloor x) in *.
  assert (Hnear : (- (1 # 2) <= inject_Z z - x <= 1 # 2)%Q).
  { destruct Hz as [Hz | [Hz _]].
    - apply Qabs_Qlt_condition in Hz. lra.
    - apply Qabs_Qle_condition. rewrite Hz. lra. }
  destruct (Qcompare_spec (x - inject_Z f) (1 # 2)) as [He | Hl | Hg].
  - (* exactly between [f] and [f + 1] *)
    assert (Hzf : z = f \/ z = f + 1).
    { assert (f <= z) by (apply Qlt_inject_Z_lt; lra).
      assert (z <= f + 1).
      { apply Qlt_inject_Z_lt. rewrite inject_Z_plus. change (inject_Z 1) with 1%Q. lra. }
      lia. }
    destruct Hz as [Hz | [_ Hev]].
    + exfalso. apply Qabs_Qlt_condition in Hz.
      destruct Hzf as [-> | ->];
        [| rewrite inject_Z_plus in Hz; change (inject_Z 1) with 1%Q in Hz]; lra.
    + destruct Hzf as [-> | ->].
      * rewrite Hev. reflexivity.
      * rewrite Z.even_add in Hev. simpl in Hev.
        destruct (Z.even f); [discriminate | reflexivity].
  - assert (f <= z) by (apply Qlt_inject_Z_lt; lra).
    assert (z <= f) by (apply Qlt_inject_Z_lt; lra).
    lia.
  - assert (f + 1 <= z).
    { apply Qlt_inject_Z_lt. rewrite inject_Z_plus. change (inject_Z 1) with 1%Q. lra. }
    assert (z <= f + 1).
    { apply Qlt_inject_Z_lt. rewrite inject_Z_plus. change (inject_Z 1) with 1%Q. lra. }
    lia.
Qed.

Lemma round_half_even_opp x : round_half_even (- x) = - round_half_even x.
Proof.
  drop_externals. apply round_half_even_unique.
  assert (E : (inject_Z (- round_half_even x) - - x
               == - (inject_Z (round_half_even x) - x))%Q).
  { rewrite inject_Z_opp. ring. }
  rewrite E, Qabs_opp, Z.even_opp. apply round_half_even_char.
Qed.

Lemma round_half_even_comp x y :
  (x == y)%Q -> round_half_even x = round_half_even y.
Proof.
  drop_externals. intros H. unfold round_half_even.
  rewrite (Qfloor_comp _ _ H).
  assert (Hr : (x - inject_Z (Qfloor y) == y - inject_Z (Qfloor y))%Q)
    by (rewrite H; reflexivity).
  rewrite (Qcompare_comp _ _ Hr (1 # 2) (1 # 2) (Qeq_refl _)).
  reflexivity.
Qed.

Lemma pow10_nonzero n : ~ (pow10 n == 0)%Q.
Proof.
  drop_externals. unfold pow10. change 0%Q with (inject_Z 0).
  rewrite inject_Z_injective.
  pose proof (Z.pow_pos_nonneg 10 (Z.of_nat n) ltac:(lia) ltac:(lia)). lia.
Qed.

(** [round(-x, n) == -round(x, n)], also when [y] is [-x] up to the
    representation of the fraction. *)
Lemma round_q_opp x y n : (y == - x)%Q -> (round_q y n == - round_q x n)%Q.
Proof.
  drop_externals. intros H. unfold round_q.
  assert (E : (y * pow10 n == - (x * pow10 n))%Q) by (rewrite H; ring).
  rewrite (round_half_even_comp _ _ E), round_half_even_opp, inject_Z_opp.
  field. apply pow10_nonzero.
Qed.

Lemma py_round_opposite x y n : opposite x y -> opposite (py_round x n) (py_round y n).
Proof.
  drop_externals. destruct x, y; simpl; try tauto. apply round_q_opp.
Qed.

(** ** Swapping the periods *)

Lemma mean_finite_or_nan cells : mean cells <> PInf.
Proof. drop_externals. unfold mean. destruct (omap id cells); discriminate. Qed.

Lemma fsub_opposite a b :
  a <> PInf -> b <> PInf -> opposite (fsub b a) (fsub a b).
Proof.
  drop_externals. destruct a, b; simpl; try tauto; try congruence.
  intros _ _. ring.
Qed.

Lemma avg_rating_finite_or_nan df : avg_rating_of df <> PInf.
Proof.
  drop_externals. unfold avg_rating_of.
  destruct (has_Rating (columns df)); [apply mean_finite_or_nan | discriminate].
Qed.

Lemma avg_sentiment_finite_or_nan b df : avg_sentiment_of b df <> PInf.
Proof.
  drop_externals. unfold avg_sentiment_of.
  destruct (b && has_sentiment_score (columns df));
    [apply mean_finite_or_nan | discriminate].
Qed.

Lemma both_labelled_comm df1 df2 : both_labelled df2 df1 = both_labelled df1 df2.
Proof. drop_externals. unfold both_labelled. apply andb_comm. Qed.

Lemma both_versioned_comm df1 df2 : both_versioned df2 df1 = both_versioned df1 df2.
Proof. drop_externals. unfold both_versioned. apply andb_comm. Qed.

Lemma version_changed_comm df1 df2 :
  version_changed_of df2 df1 = version_changed_of df1 df2.
Proof.
  drop_externals. unfold version_changed_of, option_string_eqb.
  rewrite (both_versioned_comm df1 df2). f_equal. f_equal.
  apply bool_decide_ext. split; congruence.
Qed.

Lemma lookup_dict3_key {V : Type} name1 (v1 : V) name2 v2 key v :
  dict3 name1 v1 name2 v2 key v !! key = Some v.
Proof. drop_externals. unfold dict3. apply lookup_insert_eq. Qed.

(** The sentiment section of a comparison. *)
Lemma compare_time_periods_sentiment df1 df2 name1 name2 c :
  fst (compare_time_periods df1 df2 name1 name2) = Ok (Compared c) ->
  sentiment c !! "change"
  = Some (SentimentChange
            (round_q ((share_of (both_labelled df1 df2) "positive" df2
                       - share_of (both_labelled df1 df2) "positive" df1) * 100) 2)
            (round_q ((share_of (both_labelled df1 df2) "negative" df2
                       - share_of (both_labelled df1 df2) "negative" df1) * 100) 2)
            (round_q ((share_of (both_labelled df1 df2) "neutral" df2
                       - share_of (both_labelled df1 df2) "neutral" df1) * 100) 2)
            (py_round (sentiment_change_of df1 df2) 4)).
Proof.
  unfold compare_time_periods.
  destruct (empty df1 || empty df2); [discriminate |].
  rewrite !ensure_datetime_inplace_coerce.
  destruct (span_of (coerce_Date df1)) as [span1 |]; [| discriminate].
  destruct (span_of (coerce_Date df2)) as [span2 |]; [| discriminate].
  destruct (analyze_sentiment_trend (coerce_Date df1)) as [trend1 d1].
  destruct (trend1 ≫= direction_key) as [direction1 | e]; [| discriminate].
  destruct (analyze_sentiment_trend (coerce_Date df2)) as [trend2 d2].
  destruct (trend2 ≫= direction_key) as [direction2 | e]; [| discriminate].
  cbn [fst]. intros [= <-]. cbn [sentiment].
  rewrite lookup_dict3_key.
  rewrite ?share_of_coerce_Date, ?sentiment_change_coerce_Date,
    ?both_labelled_coerce_Date.
  reflexivity.
Qed.

(** X25: swapping the periods negates the reported changes.  When
    [compare_time_periods] returns a comparison for two frames and for
    the same frames in the other order, the change of the average rating,
    the changes of the three sentiment shares and the change of the
    average sentiment score of the second comparison are the opposites of
    those of the first, rounding included, and both comparisons report
    the same [version_changed]. *)
Theorem swapping_periods_negates_changes
  (df1 df2 : DataFrame) (name1 name2 name1' name2' : string) (c c' : Comparison) :
  fst (compare_time_periods df1 df2 name1 name2) = Ok (Compared c) ->
  fst (compare_time_periods df2 df1 name1' name2') = Ok (Compared c') ->
  (exists x x',
     rating c !! "change" = Some (RatingChange x)
     /\ rating c' !! "change" = Some (RatingChange x')
     /\ opposite x x')
  /\ (exists p n u s p' n' u' s',
        sentiment c !! "change" = Some (SentimentChange p n u s)
        /\ sentiment c' !! "change" = Some (SentimentChange p' n' u' s')
        /\ (p' == - p)%Q /\ (n' == - n)%Q /\ (u' == - u)%Q /\ opposite s s')
  /\ (exists v,
        version c !! "version_changed" = Some (VersionChanged v)
        /\ version c' !! "version_changed" = Some (VersionChanged v)).
Proof.
  intros Hc Hc'.
  destruct (compare_time_periods_ok df1 df2 name1 name2 c Hc)
    as (_ & _ & _ & _ & _ & _ & _ & _ & _ & _ & Hr & Hv & _).
  destruct (compare_time_periods_ok df2 df1 name1' name2' c' Hc')
    as (_ & _ & _ & _ & _ & _ & _ & _ & _ & _ & Hr' & Hv' & _).
  pose proof (compare_time_periods_sentiment df1 df2 name1 name2 c Hc) as Hs.
  pose proof (compare_time_periods_sentiment df2 df1 name1' name2' c' Hc') as Hs'.
  split; [| split].
  - eexists _, _. rewrite Hr, Hr', !lookup_dict3_key.
    split; [reflexivity |]. split; [reflexivity |].
    apply py_round_opposite. unfold rating_change_of.
    apply fsub_opposite; apply avg_rating_finite_or_nan.
  - eexists _, _, _, _, _, _, _, _. rewrite Hs, Hs'.
    split; [reflexivity |]. split; [reflexivity |].
    rewrite (both_labelled_comm df1 df2).
    split; [apply round_q_opp; ring |].
    split; [apply round_q_opp; ring |].
    split; [apply round_q_opp; ring |].
    apply py_round_opposite. unfold sentiment_change_of.
    rewrite (both_labelled_comm df1 df2).
    apply fsub_opposite; apply avg_sentiment_finite_or_nan.
  - eexists. rewrite Hv, Hv', !lookup_dict3_key.
    rewrite (version_changed_comm df1 df2). split; reflexivity.
Qed.

(** ** Days and dates of a period *)

Lemma div_sub_bounds a b n :
  0 < n -> a / n - b / n - 1 <= (a - b) / n <= a / n - b / n.
Proof.
  drop_externals. intros Hn.
  pose proof (Z.mul_div_le a n Hn). pose proof (Z.mul_succ_div_gt a n Hn).
  pose proof (Z.mul_div_le b n Hn). pose proof (Z.mul_succ_div_gt b n Hn).
  split.
  - apply Z.div_le_lower_bound; [exact Hn | nia].
  - assert ((a - b) / n < a / n - b / n + 1); [| lia].
    apply Z.div_lt_upper_bound; [exact Hn | nia].
Qed.

Lemma div_sub_exact a b n :
  0 < n -> a mod n = 0 -> b mod n = 0 -> (a - b) / n = a / n - b / n.
Proof.
  drop_externals. intros Hn Ha Hb.
  pose proof (Z.div_mod a n ltac:(lia)) as Ea.
  pose proof (Z.div_mod b n ltac:(lia)) as Eb.
  rewrite Ha in Ea. rewrite Hb in Eb.
  symmetry. apply (Z.div_unique _ _ _ 0); [lia | nia].
Qed.

Lemma span_of_shape df span :
  span_of df = Some span ->
  start_date span <= end_date span
  /\ 1 <= days span
  /\ end_date span - start_date span <= days span
     <= end_date span - start_date span + 1
  /\ (exists t, In t (timestamps df) /\ day_of t = start_date span)
  /\ (exists t, In t (timestamps df) /\ day_of t = end_date span)
  /\ (forall t, In t (timestamps df) -> start_date span <= day_of t <= end_date span)
  /\ ((forall t, In t (timestamps df) -> t mod NS_PER_DAY = 0) ->
      days span = end_date span - start_date span + 1).
Proof.
  drop_externals. unfold span_of.
  destruct (timestamps df) as [| t ts] eqn:E; [discriminate |].
  intros [= <-]. simpl.
  destruct (day_span_covers t ts) as (Hle & Hcov & Hlo & Hhi).
  pose proof (div_sub_bounds (max_list t ts) (min_list t ts) NS_PER_DAY
                ltac:(reflexivity)) as Hb.
  pose proof (span_days_positive t ts) as Hpos.
  unfold span_days, day_of in *.
  split; [exact Hle |]. split; [lia |]. split; [lia |].
  split; [eauto |]. split; [eauto |]. split; [exact Hcov |].
  intros Hmid.
  rewrite (div_sub_exact (max_list t ts) (min_list t ts) NS_PER_DAY);
    [lia | reflexivity | apply Hmid; exact Hhi | apply Hmid; exact Hlo].
Qed.

Lemma lookup_dict2_second {V : Type} name1 (v1 : V) name2 v2 :
  dict2 name1 v1 name2 v2 !! name2 = Some v2.
Proof. drop_externals. unfold dict2. apply lookup_insert_eq. Qed.

Lemma lookup_dict2_first {V : Type} name1 (v1 : V) name2 v2 :
  name1 <> name2 -> dict2 name1 v1 name2 v2 !! name1 = Some v1.
Proof.
  drop_externals. intros H. unfold dict2.
  rewrite lookup_insert_ne by congruence. apply lookup_insert_eq.
Qed.

(** X26: the days and the dates of a period.  In every comparison that
    [compare_time_periods] returns, the [time_periods] entry of each
    period names the days of its earliest and of its latest dated record,
    the first not after the second, and [days] is at least 1; [days] is
    the number of calendar days from [start_date] to [end_date] or one
    less than that, and it is that number when every record is stamped at
    midnight. *)
Theorem period_days_and_dates
  (df1 df2 : DataFrame) (name1 name2 : string) (c : Comparison) :
  fst (compare_time_periods df1 df2 name1 name2) = Ok (Compared c) ->
  exists span1 span2,
    (name1 <> name2 -> time_periods c !! name1 = Some span1)
    /\ time_periods c !! name2 = Some span2
    /\ (forall df span, (df = df1 /\ span = span1) \/ (df = df2 /\ span = span2) ->
          start_date span <= end_date span
          /\ 1 <= days span
          /\ end_date span - start_date span <= days span
             <= end_date span - start_date span + 1
          /\ (exists t, In t (readable_dates df) /\ day_of t = start_date span)
          /\ (exists t, In t (readable_dates df) /\ day_of t = end_date span)
          /\ (forall t, In t (readable_dates df) ->
                        start_date span <= day_of t <= end_date span)
          /\ (at_midnight df ->
              days span = end_date span - start_date span + 1)).
Proof.
  intros Hc.
  destruct (compare_time_periods_ok df1 df2 name1 name2 c Hc)
    as (span1 & span2 & _ & _ & _ & _ & _ & Hs1 & Hs2 & Htp & _).
  exists span1, span2. rewrite Htp.
  split; [apply lookup_dict2_first |]. split; [apply lookup_dict2_second |].
  intros df span [[-> ->] | [-> ->]]; apply span_of_shape; assumption.
Qed.

(* ================================================================== *)
(** * The names of the report files *)
(* ================================================================== *)

Lemma portable_forallb s :
  forallb (fun c => negb (is_forbidden c)) s = true -> portable s.
Proof.
  intros H c Hc. rewrite forallb_forall in H.
  apply H in Hc. destruct (is_forbidden c); [discriminate | reflexivity].
Qed.

Lemma portable_app a b : portable a -> portable b -> portable (a ++ b).
Proof.
  intros Ha Hb c Hc. apply in_app_or in Hc as [Hc | Hc]; auto.
Qed.

Lemma portable_take n s : portable s -> portable (take n s).
Proof.
  intros H c Hc. apply H. rewrite <- (take_drop n s).
  apply in_or_app. left. exact Hc.
Qed.

Lemma portable_drop n s : portable s -> portable (drop n s).
Proof.
  intros H c Hc. apply H. rewrite <- (take_drop n s).
  apply in_or_app. right. exact Hc.
Qed.

Lemma portable_simplify_name name : portable (simplify_name name).
Proof.
  intros c Hc. unfold simplify_name in Hc.
  apply filter_In in Hc as [_ Hc].
  destruct (is_forbidden c); [discriminate | reflexivity].
Qed.

Lemma portable_simplify_date d :
  portable (formatted d) -> portable (formatted (simplify_date d)).
Proof.
  destruct d as [s |]; simpl; [| trivial].
  destruct (_ && _); simpl; [| trivial].
  intros H. apply portable_app; apply portable_take, portable_drop, H.
Qed.

Lemma upper_code_allowed c : is_forbidden c = false -> is_forbidden (upper_code c) = false.
Proof.
  unfold upper_code.
  destruct ((97 <=? c)%N && (c <=? 122)%N) eqn:E; [| trivial].
  intros _. apply andb_true_iff in E as [E1 E2].
  apply N.leb_le in E1, E2.
  unfold is_forbidden, forbidden. simpl.
  repeat match goal with
         | |- context [(?a =? ?b)%N] =>
             let H := fresh in
             destruct (N.eqb_spec a b) as [H | H]; [lia | clear H]
         end.
  reflexivity.
Qed.

Lemma portable_pyupper s : portable s -> portable (pyupper s).
Proof.
  intros H c Hc. apply in_map_iff in Hc as (c' & <- & Hc').
  apply upper_code_allowed, H, Hc'.
Qed.

Lemma literal_get_cases d key default :
  literal_get d key default = default
  \/ In (literal_get d key default) (map snd d).
Proof.
  unfold literal_get.
  destruct (List.find _ d) as [kv |] eqn:E; [| left; reflexivity].
  right. apply find_some in E as [E _]. apply in_map. exact E.
Qed.

Lemma portable_type_abbr extension description :
  portable extension -> portable (type_abbr extension description).
Proof.
  intros H. unfold type_abbr.
  destruct (bool_decide (pylower extension = str "png")).
  - repeat match goal with
           | |- context [if ?b then _ else _] => destruct b
           end; apply portable_forallb; reflexivity.
  - destruct (literal_get_cases abbreviations (pylower extension) (pyupper extension))
      as [-> | Hin].
    + apply portable_pyupper, H.
    + simpl in Hin.
      destruct Hin as [<- | [<- | [<- | [<- | []]]]];
        apply portable_forallb; reflexivity.
Qed.

Lemma startswith_app a b : startswith (a ++ b) a = true.
Proof.
  unfold startswith. apply bool_decide_eq_true_2.
  rewrite take_app_length. reflexivity.
Qed.

Lemma endswith_app a b : endswith (a ++ b) b = true.
Proof.
  unfold endswith. apply bool_decide_eq_true_2.
  rewrite length_app.
  replace (length a + length b - length b)%nat with (length a) by lia.
  apply drop_app_length.
Qed.

(** The shape of a generated name: a part that does not depend on the
    kind of file, the abbreviation of the kind, and the time stamp with
    the extension. *)
Lemma generate_filename_shape time_periods period1_name period2_name
  extension description now filename :
  _generate_filename time_periods period1_name period2_name extension
                     description now = Ok filename ->
  exists periods p1 p2,
    time_periods = Some periods
    /\ periods !! period1_name = Some p1
    /\ periods !! period2_name = Some p2
    /\ filename =
       (str "PTCG_" ++ simplify_name period1_name
        ++ formatted (simplify_date (start_date_str p1)) ++ str "-"
        ++ formatted (simplify_date (end_date_str p1)) ++ str "_vs_"
        ++ simplify_name period2_name
        ++ formatted (simplify_date (start_date_str p2)) ++ str "-"
        ++ formatted (simplify_date (end_date_str p2)) ++ str "_")
       ++ type_abbr extension description
       ++ (str "_" ++ now ++ str "." ++ extension).
Proof.
  unfold _generate_filename.
  destruct time_periods as [periods |]; [| discriminate].
  destruct (periods !! period1_name) as [p1 |] eqn:E1; [| discriminate].
  destruct (periods !! period2_name) as [p2 |] eqn:E2; [| discriminate].
  intros [= <-]. exists periods, p1, p2.
  repeat split; try assumption.
  rewrite <- !app_assoc. reflexivity.
Qed.

Lemma generate_filename_extension time_periods period1_name period2_name
  extension description now filename :
  _generate_filename time_periods period1_name period2_name extension
                     description now = Ok filename ->
  endswith filename (str "." ++ extension) = true.
Proof.
  intros H. apply generate_filename_shape in H as (ps & p1 & p2 & _ & _ & _ & ->).
  rewrite !app_assoc. rewrite <- (app_assoc _ (str ".") extension).
  apply endswith_app.
Qed.

(** X27: whatever the two period names are, a generated file name holds
    none of the characters the function strips from them (the path
    separators among them) as long as the dates of the result, the
    extension and the time stamp hold none; it starts with "PTCG_" and
    ends with a dot and the extension. *)
Theorem generated_filename_is_portable
  (periods : gmap pystr PeriodDates)
  (period1_name period2_name extension description now filename : pystr) :
  _generate_filename (Some periods) period1_name period2_name extension
                     description now = Ok filename ->
  (forall name p, periods !! name = Some p ->
     portable (formatted (start_date_str p))
     /\ portable (formatted (end_date_str p))) ->
  portable extension ->
  portable now ->
  portable filename
  /\ startswith filename (str "PTCG_") = true
  /\ endswith filename (str "." ++ extension) = true.
Proof.
  intros Hf Hd He Hn.
  pose proof (generate_filename_extension _ _ _ _ _ _ _ Hf) as Hext.
  apply generate_filename_shape in Hf as (ps & p1 & p2 & [= <-] & H1 & H2 & ->).
  destruct (Hd _ _ H1) as [Hs1 He1]. destruct (Hd _ _ H2) as [Hs2 He2].
  split; [| split].
  - repeat apply portable_app;
      try apply portable_simplify_name;
      try (apply portable_simplify_date; assumption);
      try (apply portable_type_abbr; assumption);
      try assumption;
      apply portable_forallb; reflexivity.
  - rewrite <- !app_assoc. apply startswith_app.
  - exact Hext.
Qed.

Lemma type_abbr_not_picture extension d1 d2 :
  pylower extension <> str "png" ->
  type_abbr extension d1 = type_abbr extension d2.
Proof.
  intros H. unfold type_abbr.
  rewrite (bool_decide_eq_false_2 _ H). reflexivity.
Qed.

Lemma generate_filename_same_kind time_periods period1_name period2_name
  extension d1 d2 now :
  type_abbr extension d1 = type_abbr extension d2 ->
  _generate_filename time_periods period1_name period2_name extension d1 now
  = _generate_filename time_periods period1_name period2_name extension d2 now.
Proof.
  intros H. unfold _generate_filename. rewrite H. reflexivity.
Qed.

(** X28: the description and the generated name.  For an extension
    other than png the description does not enter the name.  Among the
    pictures [generate_charts] names with one time stamp, the three
    charts of the report get three different names, the chart drawn
    after a failure gets the name of the chart that failed, and the
    three placeholder charts of an empty period share one name. *)
Theorem chart_names_follow_keywords
  (time_periods : option (gmap pystr PeriodDates))
  (period1_name period2_name now : pystr) :
  let name extension description :=
    _generate_filename time_periods period1_name period2_name extension
                       description now in
  (forall extension d1 d2,
      pylower extension <> str "png" -> name extension d1 = name extension d2)
  /\ (forall d1 d2 f1 f2,
         In d1 chart_descriptions -> In d2 chart_descriptions -> d1 <> d2 ->
         name (str "png") d1 = Ok f1 -> name (str "png") d2 = Ok f2 ->
         f1 <> f2)
  /\ (forall d, In d chart_descriptions ->
         name (str "png") (d ++ error_suffix) = name (str "png") d)
  /\ (forall d1 d2,
         In d1 placeholder_descriptions -> In d2 placeholder_descriptions ->
         name (str "png") d1 = name (str "png") d2).
Proof.
  intros name. unfold name. clear name. repeat split.
  - intros extension d1 d2 H.
    apply generate_filename_same_kind, type_abbr_not_picture, H.
  - intros d1 d2 f1 f2 H1 H2 Hne Hf1 Hf2 Heq. subst f2.
    apply generate_filename_shape in Hf1 as (ps & p1 & p2 & -> & E1 & E2 & ->).
    apply generate_filename_shape in Hf2 as (ps' & p1' & p2' & [= <-] & E1' & E2' & Hf).
    rewrite E1 in E1'. rewrite E2 in E2'.
    injection E1' as <-. injection E2' as <-.
    apply app_inv_head in Hf.
    simpl in H1, H2.
    destruct H1 as [<- | [<- | [<- | []]]];
      destruct H2 as [<- | [<- | [<- | []]]];
      try (apply Hne; reflexivity);
      vm_compute in Hf; discriminate Hf.
  - intros d H. apply generate_filename_same_kind.
    simpl in H. destruct H as [<- | [<- | [<- | []]]]; vm_compute; reflexivity.
  - intros d1 d2 H1 H2. apply generate_filename_same_kind.
    simpl in H1, H2.
    destruct H1 as [<- | [<- | [<- | []]]];
      destruct H2 as [<- | [<- | [<- | []]]]; vm_compute; reflexivity.
Qed.

Lemma endswith_self_appended filename suffix :
  endswith (if endswith filename suffix then filename else filename ++ suffix)
           suffix = true.
Proof.
  destruct (endswith filename suffix) eqn:E; [exact E | apply endswith_app].
Qed.

(** X29: the file a report writer names always ends with its own
    extension; a name the writer generated itself is used as it is, and
    a name that comes out of a writer goes through it unchanged. *)
Theorem report_filename_extension
  (extension description : pystr)
  (time_periods : option (gmap pystr PeriodDates))
  (period1_name period2_name : pystr) (filename : option pystr)
  (now file : pystr) :
  report_filename extension description time_periods period1_name period2_name
                  filename now = Ok file ->
  endswith file (str "." ++ extension) = true
  /\ (filename = None ->
      _generate_filename time_periods period1_name period2_name extension
                         description now = Ok file)
  /\ (forall given, filename = Some given ->
        (endswith given (str "." ++ extension) = true -> file = given)
        /\ (endswith given (str "." ++ extension) = false ->
            file = given ++ str "." ++ extension))
  /\ report_filename extension description time_periods period1_name
                     period2_name (Some file) now = Ok file.
Proof.
  unfold report_filename. intros H.
  assert (Hend : endswith file (str "." ++ extension) = true).
  { destruct filename as [given |].
    - simpl in H. injection H as <-. apply endswith_self_appended.
    - destruct (_generate_filename _ _ _ _ _ _) as [f |] eqn:E; [| discriminate H].
      simpl in H. injection H as <-. apply endswith_self_appended. }
  split; [exact Hend |]. split; [| split].
  - intros ->.
    destruct (_generate_filename _ _ _ _ _ _) as [f |] eqn:E; [| discriminate H].
    simpl in H. injection H as <-.
    pose proof (generate_filename_extension _ _ _ _ _ _ _ E) as Hx.
    simpl in Hx. rewrite Hx. reflexivity.
  - intros given ->. simpl in H. injection H as <-.
    split; intros Hx; simpl in Hx; rewrite Hx; reflexivity.
  - simpl in Hend |- *. rewrite Hend. reflexivity.
Qed.

(* ================================================================== *)
(** * [DataProcessor] as an object *)
(* ================================================================== *)

Lemma after_loads_snoc reads read_csv self :
  after_loads (reads ++ [read_csv]) self
  = snd (load_data read_csv (after_loads reads self)).
Proof.
  unfold after_loads. rewrite fold_left_app. reflexivity.
Qed.

Lemma load_data_result read_csv self :
  fst (load_data read_csv self) = read_csv ≫= _clean_data.
Proof.
  unfold load_data. destruct read_csv as [raw | e]; [| reflexivity].
  simpl. destruct (_clean_data raw); reflexivity.
Qed.

Lemma load_data_raw read_csv self :
  raw_data (snd (load_data read_csv self))
  = match read_csv with Ok raw => Some raw | Raise _ => raw_data self end.
Proof.
  unfold load_data. destruct read_csv as [raw | e]; [| reflexivity].
  destruct (_clean_data raw); reflexivity.
Qed.

Lemma load_data_processed read_csv self :
  processed_data (snd (load_data read_csv self))
  = match read_csv ≫= _clean_data with
    | Ok df => Some df
    | Raise _ => processed_data self
    end.
Proof.
  unfold load_data. destruct read_csv as [raw | e]; [| reflexivity].
  simpl. destruct (_clean_data raw); reflexivity.
Qed.

Lemma after_loads_state reads :
  raw_data (after_loads reads new_processor) = last (frames_read reads)
  /\ processed_data (after_loads reads new_processor)
     = last (frames_cleaned reads).
Proof.
  induction reads as [| read_csv reads [IHr IHp]] using rev_ind.
  - split; reflexivity.
  - rewrite after_loads_snoc, load_data_raw, load_data_processed.
    unfold frames_read, frames_cleaned. rewrite !omap_app. simpl.
    split.
    + destruct read_csv as [raw | e]; simpl.
      * apply eq_sym, last_snoc.
      * rewrite app_nil_r. exact IHr.
    + destruct (read_csv ≫= _clean_data) as [df | e]; simpl.
      * apply eq_sym, last_snoc.
      * rewrite app_nil_r. exact IHp.
Qed.

(** X30: after any number of calls of [load_data], failed ones
    included, the processor holds the last frame that was read and the
    last frame that was read and cleaned, which need not come from the
    same call.  Until one call has succeeded the methods that work on
    the loaded data raise [ValueError]; a call that fails leaves the
    cleaned data of the earlier call in place. *)
Theorem processor_keeps_last_good_load (reads : list (Outcome DataFrame)) :
  let self := after_loads reads new_processor in
  raw_data self = last (frames_read reads)
  /\ processed_data self = last (frames_cleaned reads)
  /\ (frames_cleaned reads = [] ->
      get_data_stats_of self None = Raise ValueError
      /\ forall start_date end_date,
           filter_by_date_range (processed_data self) start_date end_date
           = Raise ValueError)
  /\ (forall df, last (frames_cleaned reads) = Some df ->
      get_data_stats_of self None = get_data_stats df
      /\ exists raw, In (Ok raw) reads /\ _clean_data raw = Ok df)
  /\ (forall read_csv,
        match fst (load_data read_csv self) with
        | Ok df =>
            processed_data (snd (load_data read_csv self)) = Some df
            /\ exists raw, read_csv = Ok raw
                 /\ raw_data (snd (load_data read_csv self)) = Some raw
                 /\ _clean_data raw = Ok df
        | Raise _ =>
            processed_data (snd (load_data read_csv self)) = processed_data self
        end).
Proof.
  intros self. unfold self. clear self.
  destruct (after_loads_state reads) as [Hr Hp].
  split; [exact Hr |]. split; [exact Hp |]. split; [| split].
  - intros Hnone. rewrite Hnone in Hp. simpl in Hp.
    unfold get_data_stats_of. rewrite Hp. split; reflexivity.
  - intros df Hdf. rewrite Hdf in Hp.
    unfold get_data_stats_of. rewrite Hp. split; [reflexivity |].
    apply last_Some_elem_of in Hdf.
    unfold frames_cleaned in Hdf. apply list_elem_of_omap in Hdf as (r & Hin & Hr').
    destruct r as [raw | e]; simpl in Hr'; [| discriminate].
    exists raw. split; [apply list_elem_of_In; exact Hin |].
    destruct (_clean_data raw); [| discriminate]. injection Hr' as ->. reflexivity.
  - intros read_csv.
    rewrite load_data_result, load_data_processed, load_data_raw.
    destruct read_csv as [raw | e]; simpl; [| reflexivity].
    destruct (_clean_data raw) as [df | e] eqn:E; simpl; [| reflexivity].
    split; [reflexivity |]. exists raw. repeat split. exact E.
Qed.

End Analytics.

(* ================================================================== *)
(** * Worked examples *)
(* ================================================================== *)

(** ** The reader of ISO dates *)

Example iso_epoch : iso_to_datetime "1970-01-01" = Some 0.
Proof. reflexivity. Qed.

Example iso_new_year_2025 : iso_to_datetime "2025-01-01" = Some (20089 * NS_PER_DAY).
Proof. reflexivity. Qed.

Example iso_leap_day : iso_to_datetime "2024-02-29" = Some (19782 * NS_PER_DAY).
Proof. reflexivity. Qed.

Example iso_rejects_february_30 : iso_to_datetime "2025-02-30" = None.
Proof. reflexivity. Qed.

(** ** The batch on three records *)

Lemma out_of_order_complete : complete_schedule out_of_order inbox.
Proof.
  unfold complete_schedule, out_of_order. simpl.
  apply (Permutation_cons_app [0; 1]%nat [] 2%nat). reflexivity.
Defined.

Lemma inbox_labels_distinct : NoDup (index inbox).
Proof. apply (bool_decide_unpack _). vm_compute. exact I. Defined.

Example inbox_classified :
  map (fun ir : Z * Row => (fst ir, attached (snd ir)))
      (rows (analyze_dataframe vader_sample out_of_order inbox))
  = [(3, Some {| label := "positive"; score := 8 # 10 |});
     (7, Some neutral_sentinel);
     (8, Some {| label := "negative"; score := (- (7 # 10))%Q |})].
Proof. reflexivity. Qed.

Example period_a_is_period : is_period iso_to_datetime period_a = true.
Proof. vm_compute. reflexivity. Qed.

Example period_b_is_period : is_period iso_to_datetime period_b = true.
Proof. vm_compute. reflexivity. Qed.

Example period_a_span :
  observed_span iso_to_datetime period_a
  = Some {| start_date := 20089; end_date := 20091; days := 3 |}.
Proof. vm_compute. reflexivity. Qed.

Example period_a_trend_stable :
  (fun r => match r with
            | Ok (Trend t) => Some (trend_direction t, map fst (sentiment_trend t))
            | _ => None
            end) (fst (analyze_sentiment_trend iso_to_datetime period_a))
  = Some (Stable, [20089; 20090; 20091]).
Proof. vm_compute. reflexivity. Qed.

Example climbing_trend :
  (fun r => match r with
            | Ok (Trend t) => Some (trend_direction t, Qred (trend_slope t),
                                    map fst (sentiment_trend t))
            | _ => None
            end) (fst (analyze_sentiment_trend iso_to_datetime climbing))
  = Some (Up, 3 # 10, [20089; 20090; 20092]).
Proof. vm_compute. reflexivity. Qed.

(** [DataAnalyzer.compare_time_periods] on its own refuses empty periods
    only: two periods of three records each are compared in full.  The
    endpoint never hands it such periods. *)
Example analyzer_compares_small_periods :
  exists c,
    fst (compare_time_periods iso_to_datetime climbing climbing "Period 1" "Period 2")
    = Ok (Compared c).
Proof.
  destruct (compare_time_periods_periods iso_to_datetime climbing climbing
              "Period 1" "Period 2")
    as (c & _ & _ & _ & Hres & _);
    [vm_compute; reflexivity | vm_compute; reflexivity |].
  exists c. rewrite Hres. reflexivity.
Qed.

(** ** Instances of the theorems *)

Lemma analyze_text_result_witness :
  analyze_text vader_sample PyNone = neutral_sentinel
  /\ In (label (analyze_text vader_sample (PyStr "Great game. I love it")))
        sentiment_labels.
Proof.
  split.
  - apply (proj1 (analyze_text_result vader_sample PyNone)). reflexivity.
  - apply (proj1 (proj2 (analyze_text_result vader_sample
                           (PyStr "Great game. I love it")))).
    reflexivity.
Defined.

Lemma compare_periods_admission_gate_witness :
  periods_of iso_to_datetime (Ok csv_reviews) january_request first_week second_week
  /\ compare_periods iso_to_datetime no_statistic no_statistic report_to_disk
       (Ok csv_reviews) vader_sample [] [] january_request
     = Warning 2 1.
Proof.
  assert (H : periods_of iso_to_datetime (Ok csv_reviews) january_request
                         first_week second_week).
  { exists csv_reviews. eexists. split; [reflexivity |].
    split; [vm_compute; reflexivity |]. split; vm_compute; reflexivity. }
  split; [exact H |].
  apply (proj1 (compare_periods_admission_gate iso_to_datetime no_statistic
                  no_statistic report_to_disk (Ok csv_reviews) vader_sample [] []
                  january_request first_week second_week H));
    vm_compute; lia.
Defined.


Lemma batch_isolates_failures_witness :
  NoDup (index inbox)
  /\ complete_schedule out_of_order inbox
  /\ scorer_raises vader_sample "Broken. ???"
  /\ analyze_text vader_sample (PyStr "Broken. ???") = neutral_sentinel.
Proof.
  split; [exact inbox_labels_distinct |].
  split; [exact out_of_order_complete |].
  split; [reflexivity |].
  apply (proj1 (proj2 (proj2 (batch_isolates_failures vader_sample
                                (analyze_row vader_sample (columns inbox))
                                out_of_order inbox inbox_labels_distinct
                                out_of_order_complete)))).
  reflexivity.
Defined.


Lemma sentiment_ratios_sum_to_one_witness :
  is_classified period_a = true
  /\ exists s,
       analyze_sentiment_distribution no_statistic no_statistic period_a
       = Ok (Distribution s)
       /\ (positive_ratio s + negative_ratio s + neutral_ratio s == 1)%Q.
Proof.
  split; [vm_compute; reflexivity |].
  apply (proj1 (sentiment_ratios_sum_to_one no_statistic no_statistic period_a
                  ltac:(vm_compute; reflexivity))).
  vm_compute. lia.
Defined.

Lemma trend_direction_from_slope_witness :
  is_scored climbing = true
  /\ (0 < len climbing)%nat
  /\ exists t,
       fst (analyze_sentiment_trend iso_to_datetime climbing) = Ok (Trend t)
       /\ (trend_direction t = Up <-> (1 # 100 < trend_slope t)%Q).
Proof.
  split; [vm_compute; reflexivity |]. split; [vm_compute; lia |].
  destruct (trend_direction_from_slope iso_to_datetime climbing)
    as (t & Hres & _ & Hup & _);
    [vm_compute; reflexivity | vm_compute; lia |].
  exists t. split; [exact Hres | exact Hup].
Defined.



(* ================================================================== *)
(** * Further worked examples *)
(* ================================================================== *)

Example review_file_cleaned :
  _clean_data iso_to_datetime review_file = Ok loaded_reviews.
Proof. vm_compute. reflexivity. Qed.

Example january_periods :
  filter_by_date_range iso_to_datetime (Some loaded_reviews) "2025-01-01" "2025-01-05"
  = Ok early_reviews
  /\ filter_by_date_range iso_to_datetime (Some loaded_reviews) "2025-01-06" "2025-01-10"
     = Ok later_reviews.
Proof. split; vm_compute; reflexivity. Qed.

Example review_file_status :
  (fun r => match r with
            | StatusSuccess st =>
                Some (stats_total_reviews st, version_distribution st, date_range st)
            | StatusHTTP500 => None
            end) (get_data_status iso_to_datetime (Ok review_file))
  = Some (23%nat, [("1.1.1", 12%nat); ("1.1.0", 11%nat)], Some (20090, 20095)).
Proof. vm_compute. reflexivity. Qed.

Example inbox_keywords :
  analyze_topics inbox 4 = [("great", 1%nat); ("game", 1%nat); ("love", 1%nat);
                            ("broken", 1%nat)].
Proof. vm_compute. reflexivity. Qed.

(** ** Instances of the further theorems *)

Lemma clean_data_keeps_valid_reviews_witness :
  _clean_data iso_to_datetime review_file = Ok loaded_reviews
  /\ index loaded_reviews = map Z.of_nat (seq 0 (len loaded_reviews)).
Proof.
  assert (H : _clean_data iso_to_datetime review_file = Ok loaded_reviews)
    by (vm_compute; reflexivity).
  split; [exact H |].
  apply (proj1 (proj2 (clean_data_keeps_valid_reviews iso_to_datetime review_file
                         loaded_reviews H))).
Defined.


Lemma filter_by_date_range_selects_witness :
  is_datetime64_dtype loaded_reviews = true
  /\ iso_to_datetime "2025-01-01" = Some (20089 * NS_PER_DAY)
  /\ iso_to_datetime "2025-01-05" = Some (20093 * NS_PER_DAY)
  /\ exists p,
       filter_by_date_range iso_to_datetime (Some loaded_reviews)
         "2025-01-01" "2025-01-05" = Ok p
       /\ columns p = columns loaded_reviews.
Proof.
  split; [vm_compute; reflexivity |].
  split; [vm_compute; reflexivity |].
  split; [vm_compute; reflexivity |].
  destruct (filter_by_date_range_selects iso_to_datetime loaded_reviews
              "2025-01-01" "2025-01-05" (20089 * NS_PER_DAY) (20093 * NS_PER_DAY))
    as (p & Hp & Hcols & _);
    [vm_compute; reflexivity | vm_compute; reflexivity | vm_compute; reflexivity |].
  exists p. split; [exact Hp | exact Hcols].
Defined.

Lemma filter_by_date_range_cuts_last_day_witness :
  is_datetime64_dtype last_day_reviews = true
  /\ iso_to_datetime "2025-01-01" = Some (20089 * NS_PER_DAY)
  /\ iso_to_datetime "2025-01-05" = Some (20093 * NS_PER_DAY)
  /\ filter_by_date_range iso_to_datetime (Some last_day_reviews)
       "2025-01-01" "2025-01-05"
     = Ok (with_rows last_day_reviews [(0, morning_review)])
  /\ In (1, evening_review) (rows last_day_reviews)
  /\ ~ In (1, evening_review) (rows (with_rows last_day_reviews [(0, morning_review)])).
Proof.
  split; [vm_compute; reflexivity |].
  split; [vm_compute; reflexivity |].
  split; [vm_compute; reflexivity |].
  split; [vm_compute; reflexivity |].
  split; [right; left; reflexivity |].
  intros Hin.
  apply (proj1 (filter_by_date_range_cuts_last_day iso_to_datetime last_day_reviews
                  (with_rows last_day_reviews [(0, morning_review)])
                  "2025-01-01" "2025-01-05" (20089 * NS_PER_DAY) 20093
                  (1, evening_review)
                  (20093 * NS_PER_DAY + 18 * 3600 * 1000000000)
                  ltac:(vm_compute; reflexivity) ltac:(vm_compute; reflexivity)
                  ltac:(vm_compute; reflexivity) ltac:(vm_compute; reflexivity)
                  ltac:(right; left; reflexivity) ltac:(reflexivity)
                  ltac:(vm_compute; reflexivity) ltac:(vm_compute; discriminate)))
    in Hin.
  vm_compute in Hin. discriminate Hin.
Defined.

Lemma data_stats_counts_add_up_witness :
  exists st,
    get_data_stats loaded_reviews = Ok st
    /\ stats_total_reviews st = 23%nat
    /\ total_count (rating_distribution st) = rated loaded_reviews.
Proof.
  destruct (get_data_stats loaded_reviews) as [st | e] eqn:E;
    [| vm_compute in E; discriminate E].
  exists st. split; [reflexivity |].
  destruct (data_stats_counts_add_up loaded_reviews st E) as (Htotal & Hrated & _).
  split; [rewrite Htotal; reflexivity | exact Hrated].
Defined.

Lemma data_stats_average_rating_witness :
  exists st q,
    get_data_stats loaded_reviews = Ok st
    /\ stats_average_rating st = Fin q /\ (1 <= q <= 5)%Q.
Proof.
  destruct (get_data_stats loaded_reviews) as [st | e] eqn:E;
    [| vm_compute in E; discriminate E].
  destruct (proj2 (data_stats_average_rating loaded_reviews st E)) as (q & Hq & Hb).
  - vm_compute. lia.
  - apply (clean_data_all_rated iso_to_datetime review_file loaded_reviews).
    vm_compute. reflexivity.
  - exists st, q. split; [reflexivity |]. split; [exact Hq | exact Hb].
Defined.

Lemma data_stats_date_range_witness :
  exists st,
    get_data_stats loaded_reviews = Ok st
    /\ all_dated loaded_reviews
    /\ match date_range st with
       | Some (lo, hi) => lo <= hi
       | None => False
       end.
Proof.
  destruct (get_data_stats loaded_reviews) as [st | e] eqn:E;
    [| vm_compute in E; discriminate E].
  assert (Hall : all_dated loaded_reviews).
  { apply (clean_data_all_dated iso_to_datetime review_file loaded_reviews).
    vm_compute. reflexivity. }
  exists st. split; [reflexivity |]. split; [exact Hall |].
  pose proof (data_stats_date_range loaded_reviews st E Hall) as H.
  destruct (date_range st) as [[lo hi] |].
  - apply H.
  - vm_compute in H. discriminate H.
Defined.

Lemma analyze_single_period_admission_gate_witness :
  _clean_data iso_to_datetime review_file = Ok loaded_reviews
  /\ filter_by_date_range iso_to_datetime (Some loaded_reviews)
       "2025-01-01" "2025-01-03" = Ok (with_rows loaded_reviews (take 6 (rows loaded_reviews)))
  /\ analyze_single_period iso_to_datetime no_statistic no_statistic
       (Ok review_file) vader_sample (in_order 6) "2025-01-01" "2025-01-03"
     = PeriodWarning 6.
Proof.
  assert (Hc : _clean_data iso_to_datetime review_file = Ok loaded_reviews)
    by (vm_compute; reflexivity).
  assert (Hf : filter_by_date_range iso_to_datetime (Some loaded_reviews)
                 "2025-01-01" "2025-01-03"
               = Ok (with_rows loaded_reviews (take 6 (rows loaded_reviews))))
    by (vm_compute; reflexivity).
  split; [exact Hc |]. split; [exact Hf |].
  apply (proj1 (analyze_single_period_admission_gate iso_to_datetime no_statistic
                  no_statistic (Ok review_file) vader_sample (in_order 6)
                  "2025-01-01" "2025-01-03" review_file loaded_reviews _
                  eq_refl Hc Hf)).
  vm_compute. lia.
Defined.


Lemma unreadable_date_is_bad_request_witness :
  _clean_data iso_to_datetime review_file = Ok loaded_reviews
  /\ iso_to_datetime (period1_start vague_request) = None
  /\ compare_periods iso_to_datetime no_statistic no_statistic report_to_disk
       (Ok review_file) vader_sample (in_order 11) (in_order 12) vague_request
     = HTTP400.
Proof.
  assert (Hc : _clean_data iso_to_datetime review_file = Ok loaded_reviews)
    by (vm_compute; reflexivity).
  split; [exact Hc |]. split; [reflexivity |].
  apply (proj1 (unreadable_date_is_bad_request iso_to_datetime no_statistic
                  no_statistic report_to_disk (Ok review_file) vader_sample
                  (in_order 11) (in_order 12) vague_request review_file
                  loaded_reviews eq_refl Hc)).
  left. reflexivity.
Defined.

Lemma comparison_report_format_witness :
  exists i1 i2 c path,
    compare_periods iso_to_datetime no_statistic no_statistic report_to_disk
      (Ok review_file) vader_sample (in_order 11) (in_order 12) pdf_request
    = Success i1 i2 c path
    /\ path = None.
Proof.
  destruct (compare_periods iso_to_datetime no_statistic no_statistic report_to_disk
              (Ok review_file) vader_sample (in_order 11) (in_order 12)
              pdf_request) as [n1 n2 | i1 i2 c path | |] eqn:E;
    try (vm_compute in E; discriminate E).
  exists i1, i2, c, path. split; [reflexivity |].
  apply (proj1 (comparison_report_format iso_to_datetime no_statistic no_statistic
                  report_to_disk (Ok review_file) vader_sample (in_order 11)
                  (in_order 12) pdf_request i1 i2 c path E)).
  vm_compute. intuition discriminate.
Defined.

Lemma date_range_endpoint_covers_the_data_witness :
  _clean_data iso_to_datetime review_file = Ok loaded_reviews
  /\ exists min_date max_date,
       get_date_range iso_to_datetime (Ok review_file)
       = DateRangeSuccess min_date max_date
       /\ (min_date = None <-> len loaded_reviews = 0%nat).
Proof.
  assert (Hc : _clean_data iso_to_datetime review_file = Ok loaded_reviews)
    by (vm_compute; reflexivity).
  split; [exact Hc |].
  destruct (date_range_endpoint_covers_the_data iso_to_datetime (Ok review_file)
              review_file loaded_reviews eq_refl Hc)
    as (min_date & max_date & Hres & Hmin & _).
  exists min_date, max_date. split; [exact Hres | exact Hmin].
Defined.


Lemma lexicon_sentinel_means_fallback_witness :
  (neutral_threshold vader_sample <= 1 # 2)%Q
  /\ analyze_text vader_sample (PyStr "Broken. ???") = neutral_sentinel.
Proof.
  assert (H : (neutral_threshold vader_sample <= 1 # 2)%Q)
    by (vm_compute; discriminate).
  split; [exact H |].
  apply (proj2 (lexicon_sentinel_means_fallback vader_sample sample_polarity
                  (PyStr "Broken. ???") eq_refl H)).
  right. exists "Broken. ???". split; reflexivity.
Defined.

Lemma analyze_dataframe_idempotent_witness :
  NoDup (index inbox)
  /\ complete_schedule out_of_order inbox
  /\ complete_schedule (in_order 3) inbox
  /\ analyze_dataframe vader_sample (in_order 3)
       (analyze_dataframe vader_sample out_of_order inbox)
     = analyze_dataframe vader_sample out_of_order inbox.
Proof.
  assert (H : complete_schedule (in_order 3) inbox) by apply Permutation_refl.
  split; [exact inbox_labels_distinct |].
  split; [exact out_of_order_complete |].
  split; [exact H |].
  apply (analyze_dataframe_idempotent vader_sample out_of_order (in_order 3) inbox
           inbox_labels_distinct out_of_order_complete H).
Defined.

Lemma shared_label_shares_sentiment_witness :
  complete_schedule (in_order 2) merged_reviews
  /\ exists row,
       In (0, row) (rows merged_reviews)
       /\ rows (run_batch (analyze_row vader_sample (columns merged_reviews))
                          (in_order 2) merged_reviews) !! 0%nat
          = Some (0, set_sentiment
                       (settle (analyze_row vader_sample (columns merged_reviews) row))
                       (review 20090 5 "1.1.0" "Great game" "I love it"))
       /\ rows (run_batch (analyze_row vader_sample (columns merged_reviews))
                          (in_order 2) merged_reviews) !! 1%nat
          = Some (0, set_sentiment
                       (settle (analyze_row vader_sample (columns merged_reviews) row))
                       (review 20091 2 "1.1.0" "Terrible" "It crashes")).
Proof.
  assert (H : complete_schedule (in_order 2) merged_reviews)
    by apply Permutation_refl.
  split; [exact H |].
  apply (shared_label_shares_sentiment
           (analyze_row vader_sample (columns merged_reviews)) (in_order 2)
           merged_reviews 0 1 0
           (review 20090 5 "1.1.0" "Great game" "I love it")
           (review 20091 2 "1.1.0" "Terrible" "It crashes") H eq_refl eq_refl).
Defined.

(** Both records of [merged_reviews] end up with the sentiment of the
    second one, whose future completed last. *)
Example merged_reviews_classified :
  map (fun ir : Z * Row => attached (snd ir))
      (rows (analyze_dataframe vader_sample (in_order 2) merged_reviews))
  = [Some {| label := "negative"; score := (- (7 # 10))%Q |};
     Some {| label := "negative"; score := (- (7 # 10))%Q |}].
Proof. reflexivity. Qed.

Lemma review_volume_counts_every_day_witness :
  exists v,
    fst (analyze_review_volume iso_to_datetime loaded_reviews) = Ok (Volume v)
    /\ total_reviews v = 23%nat
    /\ map fst (review_counts v) = [20090; 20091; 20092; 20093; 20094; 20095].
Proof.
  destruct (fst (analyze_review_volume iso_to_datetime loaded_reviews))
    as [[| v] | e] eqn:E; try (vm_compute in E; discriminate E).
  exists v. split; [reflexivity |].
  destruct (review_volume_counts_every_day iso_to_datetime loaded_reviews v E)
    as (lo & hi & _ & _ & _ & _ & _ & Htotal & _).
  split; [rewrite Htotal; reflexivity |].
  vm_compute in E. injection E as <-. reflexivity.
Defined.

Lemma review_volume_peak_witness :
  exists v,
    fst (analyze_review_volume iso_to_datetime loaded_reviews) = Ok (Volume v)
    /\ In (peak_date v, peak_count v) (review_counts v)
    /\ peak_date v = 20095.
Proof.
  destruct (fst (analyze_review_volume iso_to_datetime loaded_reviews))
    as [[| v] | e] eqn:E; try (vm_compute in E; discriminate E).
  exists v. split; [reflexivity |].
  split; [apply (proj1 (review_volume_peak iso_to_datetime loaded_reviews v E)) |].
  vm_compute in E. injection E as <-. reflexivity.
Defined.

Lemma sentiment_trend_extremes_witness :
  exists t,
    fst (analyze_sentiment_trend iso_to_datetime climbing) = Ok (Trend t)
    /\ strictly_ascending (map fst (sentiment_trend t))
    /\ most_positive_date t = Some 20092.
Proof.
  destruct (fst (analyze_sentiment_trend iso_to_datetime climbing))
    as [[| t] | e] eqn:E; try (vm_compute in E; discriminate E).
  exists t. split; [reflexivity |].
  split; [apply (proj1 (sentiment_trend_extremes iso_to_datetime climbing t E)) |].
  vm_compute in E. injection E as <-. reflexivity.
Defined.



Lemma summary_and_insights_agree_witness :
  exists c,
    fst (compare_time_periods iso_to_datetime period_a period_b
           "Period 1" "Period 2") = Ok (Compared c)
    /\ summary c <> [] /\ detailed_insights c <> [].
Proof.
  destruct (fst (compare_time_periods iso_to_datetime period_a period_b
                   "Period 1" "Period 2")) as [[| c] | e] eqn:E;
    try (vm_compute in E; discriminate E).
  exists c. split; [reflexivity |].
  destruct (summary_and_insights_agree iso_to_datetime period_a period_b
              "Period 1" "Period 2" c E) as (Hs & Hi & _).
  split; [exact Hs | exact Hi].
Defined.

Lemma swapping_periods_negates_changes_witness :
  exists c c' x x',
    fst (compare_time_periods iso_to_datetime period_a period_b
           "Period 1" "Period 2") = Ok (Compared c)
    /\ fst (compare_time_periods iso_to_datetime period_b period_a
              "Period 1" "Period 2") = Ok (Compared c')
    /\ rating c !! "change" = Some (RatingChange x)
    /\ rating c' !! "change" = Some (RatingChange x')
    /\ opposite x x'.
Proof.
  destruct (fst (compare_time_periods iso_to_datetime period_a period_b
                   "Period 1" "Period 2")) as [[| c] | e] eqn:E;
    try (vm_compute in E; discriminate E).
  destruct (fst (compare_time_periods iso_to_datetime period_b period_a
                   "Period 1" "Period 2")) as [[| c'] | e] eqn:E';
    try (vm_compute in E'; discriminate E').
  destruct (proj1 (swapping_periods_negates_changes iso_to_datetime period_a period_b
                     "Period 1" "Period 2" "Period 1" "Period 2" c c' E E'))
    as (x & x' & Hx & Hx' & Hopp).
  exists c, c', x, x'. repeat split; assumption.
Defined.

Lemma period_days_and_dates_witness :
  exists c span2,
    fst (compare_time_periods iso_to_datetime period_a period_b
           "Period 1" "Period 2") = Ok (Compared c)
    /\ time_periods c !! "Period 2" = Some span2
    /\ 1 <= days span2.
Proof.
  destruct (fst (compare_time_periods iso_to_datetime period_a period_b
                   "Period 1" "Period 2")) as [[| c] | e] eqn:E;
    try (vm_compute in E; discriminate E).
  destruct (period_days_and_dates iso_to_datetime period_a period_b
              "Period 1" "Period 2" c E) as (span1 & span2 & _ & H2 & Hshape).
  exists c, span2. split; [reflexivity |]. split; [exact H2 |].
  apply (Hshape period_b span2). right. split; reflexivity.
Defined.

(** The name of the HTML report of two periods, the second of which is
    called "A/B test". *)
Lemma generated_filename_is_portable_witness :
  _generate_filename (Some sample_periods) (str "before") (str "A/B test")
                     (str "html") html_description (str "03011200")
  = Ok (str "PTCG_be0101-0115_vs_A0201-0215_HTML_03011200.html")
  /\ portable (str "PTCG_be0101-0115_vs_A0201-0215_HTML_03011200.html")
  /\ startswith (str "PTCG_be0101-0115_vs_A0201-0215_HTML_03011200.html")
                (str "PTCG_") = true
  /\ endswith (str "PTCG_be0101-0115_vs_A0201-0215_HTML_03011200.html")
              (str "." ++ str "html") = true.
Proof.
  split; [vm_compute; reflexivity |].
  apply (generated_filename_is_portable sample_periods (str "before")
           (str "A/B test") (str "html") html_description (str "03011200")).
  - vm_compute. reflexivity.
  - intros name p H. unfold sample_periods in H.
    apply lookup_insert_Some in H as [[_ <-] | [_ H]].
    + split; apply portable_forallb; reflexivity.
    + apply lookup_insert_Some in H as [[_ <-] | [_ H]].
      * split; apply portable_forallb; reflexivity.
      * rewrite lookup_empty in H. discriminate H.
  - apply portable_forallb. reflexivity.
  - apply portable_forallb. reflexivity.
Defined.

(** A JSON report written under the name "report". *)
Lemma report_filename_extension_witness :
  json_report_filename (Some sample_periods) (str "before") (str "A/B test")
                       (Some (str "report")) (str "03011200")
  = Ok (str "report.json")
  /\ endswith (str "report.json") (str "." ++ str "json") = true
  /\ json_report_filename (Some sample_periods) (str "before") (str "A/B test")
                          (Some (str "report.json")) (str "03011200")
     = Ok (str "report.json").
Proof.
  assert (H : report_filename (str "json") json_description (Some sample_periods)
                (str "before") (str "A/B test") (Some (str "report"))
                (str "03011200") = Ok (str "report.json"))
    by (vm_compute; reflexivity).
  split; [exact H |].
  destruct (report_filename_extension _ _ _ _ _ _ _ _ H) as (He & _ & _ & Hs).
  split; [exact He | exact Hs].
Defined.

(** ** Inputs on which the stated claims fail *)

(** C5: [analyze_review_volume] and [analyze_sentiment_trend] are handed
    a record set whose [Date] column still holds the strings of the file;
    when they return, the caller's record set holds timestamps instead.
    The claim says that no field of any input record, the [Date] column
    included, is modified. *)
Theorem statistics_overwrite_raw_dates :
  snd (analyze_review_volume iso_to_datetime csv_reviews) = parsed_reviews
  /\ parsed_reviews <> csv_reviews
  /\ snd (analyze_sentiment_trend iso_to_datetime
            (analyze_dataframe vader_sample [0; 1; 2]%nat csv_reviews))
     = analyze_dataframe vader_sample [0; 1; 2]%nat parsed_reviews
  /\ analyze_dataframe vader_sample [0; 1; 2]%nat parsed_reviews
     <> analyze_dataframe vader_sample [0; 1; 2]%nat csv_reviews.
Proof.
  split; [vm_compute; reflexivity |].
  split; [intros H; discriminate H |].
  split; [vm_compute; reflexivity |].
  intros H. apply (f_equal (fun d => map (fun ir : Z * Row => Date (snd ir)) (rows d))) in H.
  vm_compute in H. discriminate H.
Qed.

(** The comparison does the same to both of its arguments. *)
Example comparison_overwrites_raw_dates :
  snd (compare_time_periods iso_to_datetime csv_reviews csv_reviews "Period 1" "Period 2")
  = (parsed_reviews, parsed_reviews).
Proof. vm_compute. reflexivity. Qed.

(** C6, as stated, fails on the empty classified record set: the result
    is the bare [{"sentiment_distribution": {}}] and reports no ratio. *)
Lemma empty_distribution_counterexample :
  ~ (forall std corr df,
        is_classified df = true ->
        exists s,
          analyze_sentiment_distribution std corr df = Ok (Distribution s)
          /\ ((0 < len df)%nat ->
              (positive_ratio s + negative_ratio s + neutral_ratio s == 1)%Q)
          /\ (len df = 0%nat ->
              (positive_ratio s == 0)%Q /\ (negative_ratio s == 0)%Q
              /\ (neutral_ratio s == 0)%Q)).
Proof.
  intros H.
  destruct (H no_statistic no_statistic no_reviews eq_refl) as (s & Hres & _).
  discriminate Hres.
Qed.

(** C7, as stated, fails on the empty classified record set, which has no
    valid bucket: the result is the bare [{"sentiment_trend": {}}] and
    reports neither slope nor direction. *)
Lemma empty_trend_counterexample :
  ~ (forall to_datetime df,
        is_classified df = true ->
        exists t,
          fst (analyze_sentiment_trend to_datetime df) = Ok (Trend t)
          /\ ((valid_buckets to_datetime df < 2)%nat ->
              trend_slope t = 0%Q /\ trend_direction t = Stable)).
Proof.
  intros H.
  destruct (H iso_to_datetime no_reviews eq_refl) as (t & Hres & _).
  discriminate Hres.
Qed.


(** Ratings and labels but no score column: the correlation line
    raises. *)
Example correlation_raises_without_scores :
  analyze_sentiment_distribution no_statistic no_statistic labelled_only
  = Raise KeyError.
Proof. reflexivity. Qed.


(** With one name for both periods the first period's entry is gone. *)
Example same_name_collision :
  exists c,
    fst (compare_time_periods iso_to_datetime period_a period_b "Period" "Period")
    = Ok (Compared c)
    /\ exists avg, review_volume c !! "Period" = Some (PeriodVolume 12 avg).
Proof.
  destruct (compare_time_periods_periods iso_to_datetime period_a period_b
              "Period" "Period")
    as (c & span1 & span2 & change & Hres & _ & _ & _ & Hvol);
    [vm_compute; reflexivity | vm_compute; reflexivity |].
  exists c. rewrite Hres, Hvol. split; [reflexivity |].
  eexists. apply lookup_dict3_collision. discriminate.
Qed.
